(** * Mustache template engine (facil.io [mustache_parser.h])

    A shallow embedding of the template loader ([mustache_load]), the
    instruction interpreter ([mustache_build]) and the data-segment helpers,
    followed by the properties of the specification checked against them.

    Conventions.  Bytes are integers in [0, 256); C strings and byte buffers
    are [list Z].  Unsigned C integers are [Z] with the wrap-around written
    out ([u8], [u16], [u32]).  Pointers into the loader's data buffer are the
    byte offset from its start ([beg - s.data] in the source). *)

From Stdlib Require Import ZArith List Bool Lia String Ascii.
Import ListNotations.
Local Open Scope Z_scope.

(* ------------------------------------------------------------------ *)
(** ** Machine integers and bytes *)

Definition u8 (z : Z) : Z := z mod 256.
Definition u16 (z : Z) : Z := z mod 65536.
Definition u32 (z : Z) : Z := z mod 4294967296.

Definition UINT16_MAX : Z := 65535.
Definition UINT32_MAX : Z := 4294967295.
Definition INT32_MAX : Z := 2147483647.
Definition MUSTACHE_NESTING_LIMIT : Z := 96.
Definition MUSTACHE_DELIMITER_LENGTH_LIMIT : Z := 11.

Definition bytes := list Z.

Definition byte_of_ascii (c : ascii) : Z := Z.of_N (N_of_ascii c).

Fixpoint bytes_of_string (s : string) : bytes :=
  match s with
  | EmptyString => []
  | String c r => byte_of_ascii c :: bytes_of_string r
  end.

Definition zlength {A} (l : list A) : Z := Z.of_nat (List.length l).

(** [buf[i]].  The loader keeps a NUL after the last byte of its data
    ([s->data[s->data_len] = 0]), which the default of [nth] stands for. *)
Definition byte_at (buf : bytes) (i : Z) : Z :=
  if i <? 0 then 0 else nth (Z.to_nat i) buf 0.

Definition slice (buf : bytes) (pos n : Z) : bytes :=
  firstn (Z.to_nat n) (skipn (Z.to_nat pos) buf).

Fixpoint bytes_eqb (a b : bytes) : bool :=
  match a, b with
  | [], [] => true
  | x :: a', y :: b' => (x =? y) && bytes_eqb a' b'
  | _, _ => false
  end.

(** C's [isspace] in the default locale. *)
Definition isspace (c : Z) : bool :=
  (c =? 32) || ((9 <=? c) && (c <=? 13)).

(* ------------------------------------------------------------------ *)
(** ** Errors *)

Inductive mustache_error_en : Type :=
| MUSTACHE_OK
| MUSTACHE_ERR_TOO_DEEP
| MUSTACHE_ERR_CLOSURE_MISMATCH
| MUSTACHE_ERR_FILE_NOT_FOUND
| MUSTACHE_ERR_FILE_TOO_BIG
| MUSTACHE_ERR_FILE_NAME_TOO_LONG
| MUSTACHE_ERR_FILE_NAME_TOO_SHORT
| MUSTACHE_ERR_EMPTY_TEMPLATE
| MUSTACHE_ERR_DELIMITER_TOO_LONG
| MUSTACHE_ERR_NAME_TOO_LONG
| MUSTACHE_ERR_UNKNOWN
| MUSTACHE_ERR_USER_ERROR.

(* ------------------------------------------------------------------ *)
(** ** The data segment header *)

Module Segment.

(** [mustache__data_segment_s]; [filename] is the name's bytes. *)
Record mustache__data_segment_s : Type := mk_segment {
  filename : bytes;
  inst_start : Z;
  next : Z;
  filename_len : Z;
  path_len : Z
}.

(** [mustache__data_segment_write]: the bytes stored at [dest]; the value
    returned by the C function is their number. *)
Definition mustache__data_segment_write (data : mustache__data_segment_s) : bytes :=
  [ Z.land 255 (inst_start data);
    Z.land 255 (Z.shiftr (inst_start data) 1);
    Z.land 255 (Z.shiftr (inst_start data) 2);
    Z.land 255 (Z.shiftr (inst_start data) 3);
    Z.land 255 (next data);
    Z.land 255 (Z.shiftr (next data) 1);
    Z.land 255 (Z.shiftr (next data) 2);
    Z.land 255 (Z.shiftr (next data) 3);
    Z.land 255 (filename_len data);
    Z.land 255 (Z.shiftr (filename_len data) 1);
    Z.land 255 (path_len data);
    Z.land 255 (Z.shiftr (path_len data) 1) ]
  ++ firstn (Z.to_nat (filename_len data)) (filename data) ++ [0].

Definition mustache__data_segment_length (filename_len : Z) : Z :=
  13 + filename_len.

(** [mustache__data_segment_read]: [data] is the buffer from the header's
    first byte on.  The result's [filename] is the pointer [data + 12], that
    is the buffer from its thirteenth byte on. *)
Definition mustache__data_segment_read (data : bytes) : mustache__data_segment_s :=
  let b i := byte_at data i in
  {| filename := skipn 12 data;
     inst_start :=
       u32 (Z.lor (Z.lor (Z.lor (b 0) (Z.shiftl (b 1) 1))
                         (Z.shiftl (b 2) 2)) (Z.shiftl (b 3) 3));
     next :=
       u32 (Z.lor (Z.lor (Z.lor (b 4) (Z.shiftl (b 5) 1))
                         (Z.shiftl (b 6) 2)) (Z.shiftl (b 7) 3));
     filename_len := u16 (Z.lor (b 8) (Z.shiftl (b 9) 1));
     path_len := u16 (Z.lor (b 10) (Z.shiftl (b 11) 1)) |}.

End Segment.
Import Segment.


(* ------------------------------------------------------------------ *)
(** ** Instructions and the compiled template *)

Module Inst.

Inductive tag : Type :=
| MUSTACHE_WRITE_TEXT
| MUSTACHE_WRITE_ARG
| MUSTACHE_WRITE_ARG_UNESCAPED
| MUSTACHE_SECTION_START
| MUSTACHE_SECTION_START_INV
| MUSTACHE_SECTION_END
| MUSTACHE_SECTION_GOTO.

Definition tag_eqb (a b : tag) : bool :=
  match a, b with
  | MUSTACHE_WRITE_TEXT, MUSTACHE_WRITE_TEXT
  | MUSTACHE_WRITE_ARG, MUSTACHE_WRITE_ARG
  | MUSTACHE_WRITE_ARG_UNESCAPED, MUSTACHE_WRITE_ARG_UNESCAPED
  | MUSTACHE_SECTION_START, MUSTACHE_SECTION_START
  | MUSTACHE_SECTION_START_INV, MUSTACHE_SECTION_START_INV
  | MUSTACHE_SECTION_END, MUSTACHE_SECTION_END
  | MUSTACHE_SECTION_GOTO, MUSTACHE_SECTION_GOTO => true
  | _, _ => false
  end.

(** The [data] member of [mustache__instruction_s]. *)
Record data_s : Type := mk_data {
  end_ : Z;      (* uint32_t end *)
  len : Z;       (* uint32_t len *)
  name_pos : Z;  (* uint32_t name_pos *)
  name_len : Z;  (* uint16_t name_len *)
  offset : Z     (* uint16_t offset *)
}.

Record mustache__instruction_s : Type := mk_inst {
  instruction : tag;
  data : data_s
}.

(** Members left out of a C compound literal are zero. *)
Definition zero : data_s :=
  {| end_ := 0; len := 0; name_pos := 0; name_len := 0; offset := 0 |}.

Definition set_end (d : data_s) (e : Z) : data_s :=
  {| end_ := e; len := len d; name_pos := name_pos d;
     name_len := name_len d; offset := offset d |}.

Definition set_len (d : data_s) (l : Z) : data_s :=
  {| end_ := end_ d; len := l; name_pos := name_pos d;
     name_len := name_len d; offset := offset d |}.

End Inst.

(** [mustache_s] with the two segments that follow it in memory:
    [intruction_count] and [data_length] are the lengths of the lists. *)
Record mustache_s : Type := mk_mustache {
  instructions : list Inst.mustache__instruction_s;
  data_segment : bytes
}.

Definition intruction_count (m : mustache_s) : Z := zlength (instructions m).
Definition data_length (m : mustache_s) : Z := zlength (data_segment m).

(** What the code does where C leaves its behaviour open or where it does
    not come back. *)
Inductive stuck : Type :=
| Hangs             (* a loop that never advances *)
| ReadsOutOfBounds  (* a read past the end of an allocation *)
| NullWrite.        (* a store through a NULL pointer *)

(* ------------------------------------------------------------------ *)
(** ** The loader *)

Module Loader.

(** One entry of [mustache__loader_stack_s.stack]; the delimiter lengths
    are the lengths of the lists. *)
Record frame : Type := mk_frame {
  data_start : Z;
  data_pos : Z;
  data_end : Z;
  open_sections : Z;
  del_start : bytes;
  del_end : bytes
}.

(** [mustache__loader_stack_s].  [i] is the instruction array of [s->m],
    [data] the data buffer ([s->data], NULL when empty; [s->data_len] is
    its length), [stack] the entries [stack[index], ..., stack[1]], top
    first, so that [s->index] is its length. *)
Record mustache__loader_stack_s : Type := mk_loader {
  i : list Inst.mustache__instruction_s;
  err : mustache_error_en;
  data : bytes;
  path : bytes;
  stack : list frame
}.

Definition set_err (s : mustache__loader_stack_s) (e : mustache_error_en) :=
  {| i := i s; err := e; data := data s; path := path s; stack := stack s |}.
Definition set_i (s : mustache__loader_stack_s) (l : list Inst.mustache__instruction_s) :=
  {| i := l; err := err s; data := data s; path := path s; stack := stack s |}.
Definition set_data (s : mustache__loader_stack_s) (d : bytes) :=
  {| i := i s; err := err s; data := d; path := path s; stack := stack s |}.
Definition set_path (s : mustache__loader_stack_s) (p : bytes) :=
  {| i := i s; err := err s; data := data s; path := p; stack := stack s |}.
Definition set_stack (s : mustache__loader_stack_s) (st : list frame) :=
  {| i := i s; err := err s; data := data s; path := path s; stack := st |}.

Definition set_data_pos (f : frame) (p : Z) : frame :=
  {| data_start := data_start f; data_pos := p; data_end := data_end f;
     open_sections := open_sections f;
     del_start := del_start f; del_end := del_end f |}.
Definition set_open_sections (f : frame) (n : Z) : frame :=
  {| data_start := data_start f; data_pos := data_pos f; data_end := data_end f;
     open_sections := n;
     del_start := del_start f; del_end := del_end f |}.
Definition set_delimiters (f : frame) (ds de : bytes) : frame :=
  {| data_start := data_start f; data_pos := data_pos f; data_end := data_end f;
     open_sections := open_sections f;
     del_start := ds; del_end := de |}.

(** Replace the top entry of the stack. *)
Definition set_top (s : mustache__loader_stack_s) (f : frame) :=
  set_stack s (f :: tl (stack s)).

End Loader.

(** The result of a loader function: the [int] it returns and the state it
    leaves, or the reason it does not return. *)
Inductive ret (S : Type) : Type :=
| Return (code : Z) (s : S)
| Stuck (why : stuck).
Arguments Return {S} code s.
Arguments Stuck {S} why.

Definition update_nth {A} (n : nat) (f : A -> A) (l : list A) : list A :=
  firstn n l ++ match skipn n l with
                | [] => []
                | x :: r => f x :: r
                end.

(** [mustache__instruction_push]. *)
Definition mustache__instruction_push (s : Loader.mustache__loader_stack_s)
    (inst : Inst.mustache__instruction_s) : Z * Loader.mustache__loader_stack_s :=
  if INT32_MAX <=? zlength (Loader.i s)
  then (-1, Loader.set_err s MUSTACHE_ERR_TOO_DEEP)
  else (0, Loader.set_i s (Loader.i s ++ [inst])).

(** *** Loaded templates *)

(** How the walk over the headers of the data buffer ends. *)
Inductive walk_end : Type :=
| WalkFound (inst_start : Z)
| WalkMissing
| WalkStuck (why : stuck).

(** The loop of [mustache__file_is_loaded], started with [data] at offset
    [off] of the buffer: the offsets at which it reads a header, the offset
    it stops at and how it stops.  A header is twelve bytes; the buffer has
    [data_len + 1] of them.  When the decoded [next] is zero the loop reads
    the same header for ever.  Each turn otherwise moves on by at least one
    byte, so [fuel] above the buffer's length is never used up. *)
Fixpoint segment_walk (fuel : nat) (data name : bytes) (name_len off : Z)
  : list Z * Z * walk_end :=
  match fuel with
  | O => ([], off, WalkStuck Hangs)
  | S fuel' =>
    if off <? zlength data then
      if zlength data + 1 <? off + 12 then ([off], off, WalkStuck ReadsOutOfBounds)
      else
        let seg := mustache__data_segment_read (skipn (Z.to_nat off) data) in
        if (filename_len seg =? name_len)
           && bytes_eqb (firstn (Z.to_nat name_len) (filename seg))
                        (firstn (Z.to_nat name_len) name)
        then ([off], off, WalkFound (inst_start seg))
        else if next seg =? 0 then ([off], off, WalkStuck Hangs)
        else
          let '(v, e, r) := segment_walk fuel' data name name_len (off + next seg) in
          (off :: v, e, r)
    else ([], off, WalkMissing)
  end.

(** [mustache__file_is_loaded]: the instruction position of the loaded
    template, or [(uint32_t)-1]. *)
Definition mustache__file_is_loaded (s : Loader.mustache__loader_stack_s)
    (name : bytes) (name_len : Z) : Z + stuck :=
  match segment_walk (S (List.length (Loader.data s))) (Loader.data s) name name_len 0 with
  | (_, _, WalkFound p) => inl p
  | (_, _, WalkMissing) => inl UINT32_MAX
  | (_, _, WalkStuck w) => inr w
  end.

(** The loop of [mustache__load_data] that looks for the last path
    separator: the index just after it, or 0. *)
Fixpoint path_len_scan (name : bytes) (path_len : nat) : Z :=
  match path_len with
  | O => 0
  | S p =>
    let c := nth p name 0 in
    if (c =? 47) || (c =? 92) then Z.of_nat (S p) else path_len_scan name p
  end.

Definition default_del_start : bytes := [123; 123].
Definition default_del_end : bytes := [125; 125].

(** [mustache__load_data].  [data] is the template's content, [data_len]
    its length; for a file the caller stores the content with [pread] right
    after the call.  The header takes [13 + name_len] bytes of the buffer, of
    which [mustache__data_segment_write] sets the first [13 + filename_len]
    (the rest, none unless the name is longer than a [uint16_t] can tell,
    stay as [realloc] left them, shown as zeros). *)
Definition mustache__load_data (s : Loader.mustache__loader_stack_s)
    (name : bytes) (name_len : Z) (data : bytes)
  : Z * Loader.mustache__loader_stack_s :=
  let data_len := zlength data in
  let old_len := zlength (Loader.data s) in
  if UINT32_MAX <? old_len + data_len
  then (-1, Loader.set_err s MUSTACHE_ERR_TOO_DEEP)
  else
    let path_len := path_len_scan name (Z.to_nat name_len) in
    let header :=
      mustache__data_segment_write
        {| filename := name;
           filename_len := u16 name_len;
           inst_start := u32 (zlength (Loader.i s));
           next := u32 (old_len + data_len + mustache__data_segment_length name_len);
           path_len := u16 path_len |} in
    let header :=
      header ++ repeat 0 (Z.to_nat (mustache__data_segment_length name_len)
                          - List.length header) in
    let s := Loader.set_data s (Loader.data s ++ header ++ data) in
    let s := snd (mustache__instruction_push s
                    {| Inst.instruction := Inst.MUSTACHE_SECTION_START;
                       Inst.data := Inst.zero |}) in
    if MUSTACHE_NESTING_LIMIT <=? zlength (Loader.stack s) + 1
    then (-1, Loader.set_err s MUSTACHE_ERR_TOO_DEEP)
    else
      (0, Loader.set_stack s
            ({| Loader.data_pos := u32 (old_len + mustache__data_segment_length name_len);
                Loader.data_start := old_len;
                Loader.data_end := zlength (Loader.data s);
                Loader.open_sections := 0;
                Loader.del_start := default_del_start;
                Loader.del_end := default_del_end |} :: Loader.stack s)).

(** The file system as the loader uses it: [fs path] is the content of the
    regular file that [stat] finds at [path], which [open] and [pread] then
    read whole; [None] when [stat] fails or the path is no regular file. *)
Definition filesystem : Type := bytes -> option bytes.

Definition dot_mustache : bytes := bytes_of_string ".mustache".

Inductive lookup : Type :=
| FileFound (path : bytes) (old_path_len : Z) (content : bytes)
| FileMissing (path : bytes).

(** One turn of the search loop of [mustache__load_file] once the folder is
    known: the name as it is, then with the default extension. *)
Definition probe (fs : filesystem) (folder : bytes) (folder_len : Z)
    (name : bytes) (name_len : Z) : lookup :=
  let p1 := folder ++ name in
  match fs p1 with
  | Some c => FileFound p1 (name_len + folder_len) c
  | None =>
    let p2 := p1 ++ dot_mustache in
    match fs p2 with
    | Some c => FileFound p2 (name_len + folder_len + 9) c
    | None => FileMissing p2
    end
  end.

(** The [do ... while (--i)] loop of [mustache__load_file] over the stack
    entries [frames], top first. *)
Fixpoint path_search (fs : filesystem) (data name : bytes) (name_len : Z)
    (frames : list Loader.frame) (path : bytes) (old_path_len : Z) : lookup :=
  match frames with
  | [] => FileMissing path
  | f :: rest =>
    let seg := mustache__data_segment_read
                 (skipn (Z.to_nat (Loader.data_start f)) data) in
    if negb (old_path_len =? 0)
       && (old_path_len =? path_len seg)
       && bytes_eqb (firstn (Z.to_nat old_path_len) path)
                    (firstn (Z.to_nat old_path_len) (filename seg))
    then path_search fs data name name_len rest path old_path_len
    else
      match probe fs (firstn (Z.to_nat (path_len seg)) (filename seg))
                  (path_len seg) name name_len with
      | FileFound p l c => FileFound p l c
      | FileMissing p =>
        if path_len seg =? 0 then FileMissing p
        else path_search fs data name name_len rest p (path_len seg)
      end
  end.

(** [mustache__load_file].  [name_len] is a [size_t]: a negative difference
    of pointers is a huge length. *)
Definition mustache__load_file (fs : filesystem)
    (s : Loader.mustache__loader_stack_s) (name : bytes) (name_len : Z)
  : ret Loader.mustache__loader_stack_s :=
  if name_len =? 0
  then Return (-1) (Loader.set_err s MUSTACHE_ERR_FILE_NAME_TOO_SHORT)
  else if (name_len <? 0) || (8192 <=? name_len)
  then Return (-1) (Loader.set_err s MUSTACHE_ERR_FILE_NAME_TOO_LONG)
  else
    let found :=
      match Loader.data s with
      | [] => probe fs [] 0 name name_len
      | _ => path_search fs (Loader.data s) name name_len
                         (Loader.stack s) (Loader.path s) 0
      end in
    match found with
    | FileMissing p =>
      let s := Loader.set_path s p in
      let seg := mustache__data_segment_read (Loader.data s) in
      if negb (zlength (Loader.data s) =? 0)
         && (filename_len seg =? name_len)
         && bytes_eqb (firstn (Z.to_nat name_len) (filename seg))
                      (firstn (Z.to_nat name_len) name)
      then
        let '(r, s) := mustache__instruction_push s
          {| Inst.instruction := Inst.MUSTACHE_SECTION_GOTO;
             Inst.data := Inst.set_end Inst.zero (u32 (zlength (Loader.i s))) |} in
        Return r s
      else Return (-1) (Loader.set_err s MUSTACHE_ERR_FILE_NOT_FOUND)
    | FileFound p old_path_len content =>
      let s := Loader.set_path s p in
      if INT32_MAX <=? zlength content
      then Return (-1) (Loader.set_err s MUSTACHE_ERR_FILE_TOO_BIG)
      else
        match mustache__file_is_loaded s p old_path_len with
        | inr w => Stuck w
        | inl pre_existing =>
          if negb (pre_existing =? UINT32_MAX)
          then
            let '(r, s) := mustache__instruction_push s
              {| Inst.instruction := Inst.MUSTACHE_SECTION_GOTO;
                 Inst.data := Inst.set_len
                                (Inst.set_end Inst.zero (u32 (zlength (Loader.i s))))
                                pre_existing |} in
            Return r s
          else
            let '(r, s) := mustache__load_data s p old_path_len content in
            Return r s
        end
    end.

(** *** Scanning the template text *)

Fixpoint prefix_match (needle hay : bytes) : bool :=
  match needle with
  | [] => true
  | n :: ns =>
    match hay with
    | [] => false
    | h :: hs => (n =? h) && prefix_match ns hs
    end
  end.

(** [strstr(hay, needle)] for a non-empty [needle] without NUL: how far
    into [hay] the first occurrence starts, counted from [acc]; [None] for
    NULL.  [hay] ends at its first NUL, or where the list ends (the NUL that
    follows the loader's data). *)
Fixpoint strstr_from (hay needle : bytes) (acc : Z) : option Z :=
  match hay with
  | [] => None
  | h :: t =>
    if h =? 0 then None
    else if prefix_match needle hay then Some acc
    else strstr_from t needle (acc + 1)
  end.

Definition strstr (hay needle : bytes) : option Z := strstr_from hay needle 0.

(** [MUSTACHE_IGNORE_WHITESPACE(str, 1)] with [str] at the head of [l],
    offset [pos]. *)
Fixpoint skip_ws_fwd_from (l : bytes) (pos : Z) : Z :=
  match l with
  | [] => pos
  | c :: t => if isspace c then skip_ws_fwd_from t (pos + 1) else pos
  end.

Definition skip_ws_fwd (data : bytes) (pos : Z) : Z :=
  skip_ws_fwd_from (skipn (Z.to_nat pos) data) pos.

(** [MUSTACHE_IGNORE_WHITESPACE(str, -1)] with [str] at offset [n].  The
    bytes it steps back over lie after a start delimiter, which has no
    white space in it; were there none, the C loop would leave the buffer
    (offset -1 here). *)
Fixpoint skip_ws_bwd_from (data : bytes) (n : nat) : Z :=
  if isspace (nth n data 0)
  then match n with
       | O => -1
       | S m => skip_ws_bwd_from data m
       end
  else Z.of_nat n.

Definition skip_ws_bwd (data : bytes) (pos : Z) : Z :=
  if pos <? 0 then pos else skip_ws_bwd_from data (Z.to_nat pos).

(** The steps shared by the tag cases:
    [--end; IGNORE_WHITESPACE(beg, 1); IGNORE_WHITESPACE(end, -1); ++end]. *)
Definition trim (data : bytes) (beg end_ : Z) : Z * Z :=
  (skip_ws_fwd data beg, skip_ws_bwd data (end_ - 1) + 1).

(** The loop that moves [div] on to the first white space before [end],
    at most [n] turns. *)
Fixpoint scan_nonspace (data : bytes) (n : nat) (div : Z) : Z :=
  match n with
  | O => div
  | S m => if isspace (byte_at data div) then div
           else scan_nonspace data m (div + 1)
  end.

(** The backward scan of the section-end case, from [pos - 1] down to 0:
    the position of the nearest section start that is not closed yet. *)
Fixpoint find_opener (l : list Inst.mustache__instruction_s) (pos : nat) (nested : Z)
  : option nat :=
  match pos with
  | O => None
  | S p =>
    match nth_error l p with
    | None => None
    | Some x =>
      match Inst.instruction x with
      | Inst.MUSTACHE_SECTION_END => find_opener l p (nested + 1)
      | Inst.MUSTACHE_SECTION_START
      | Inst.MUSTACHE_SECTION_START_INV =>
        if nested =? 0 then Some p else find_opener l p (nested - 1)
      | _ => find_opener l p nested
      end
    end
  end.

Definition fail (s : Loader.mustache__loader_stack_s) (e : mustache_error_en)
  : ret Loader.mustache__loader_stack_s :=
  Return (-1) (Loader.set_err s e).

(** *** The tag cases of [mustache_load]

    [s] is the state after the reading position of the top entry [f] was
    moved behind the tag; [beg] is the offset of the first byte after the
    start delimiter, [end_] the offset of the end delimiter and [org_beg]
    the offset of the start delimiter. *)

(** [case '=']. *)
Definition tag_delimiters (s : Loader.mustache__loader_stack_s) (f : Loader.frame)
    (beg end_ : Z) : ret Loader.mustache__loader_stack_s :=
  let data := Loader.data s in
  let beg := beg + 1 in
  let end_ := end_ - 1 in
  if negb (byte_at data end_ =? 61) then fail s MUSTACHE_ERR_CLOSURE_MISMATCH
  else
    let end_ := end_ - 1 in
    let beg := skip_ws_fwd data beg in
    let end_ := skip_ws_bwd data end_ + 1 in
    let div := scan_nonspace data (Z.to_nat (end_ - beg)) beg in
    if (div =? end_) || (div =? beg) then fail s MUSTACHE_ERR_CLOSURE_MISMATCH
    else if MUSTACHE_DELIMITER_LENGTH_LIMIT <=? div - beg
    then fail s MUSTACHE_ERR_DELIMITER_TOO_LONG
    else
      let f := Loader.set_delimiters f (slice data beg (div - beg)) (Loader.del_end f) in
      let s := Loader.set_top s f in
      let div := skip_ws_fwd data (div + 1) in
      if div =? end_ then fail s MUSTACHE_ERR_CLOSURE_MISMATCH
      else if MUSTACHE_DELIMITER_LENGTH_LIMIT <=? end_ - div
      then fail s MUSTACHE_ERR_DELIMITER_TOO_LONG
      else
        Return 0 (Loader.set_top s
                    (Loader.set_delimiters f (Loader.del_start f)
                                           (slice data div (end_ - div)))).

(** [case '^'] ([escape_str = 0]) and [case '#'] ([escape_str = 1]). *)
Definition tag_section_start (s : Loader.mustache__loader_stack_s) (f : Loader.frame)
    (escape_str : bool) (beg end_ : Z) : ret Loader.mustache__loader_stack_s :=
  let data := Loader.data s in
  let '(beg, end_) := trim data (beg + 1) end_ in
  let f := Loader.set_open_sections f (u16 (Loader.open_sections f + 1)) in
  let s := Loader.set_top s f in
  if MUSTACHE_NESTING_LIMIT <=? Loader.open_sections f
  then fail s MUSTACHE_ERR_TOO_DEEP
  else
    let s := if UINT16_MAX <=? beg
             then Loader.set_err s MUSTACHE_ERR_NAME_TOO_LONG else s in
    let '(r, s) := mustache__instruction_push s
      {| Inst.instruction := if escape_str then Inst.MUSTACHE_SECTION_START
                             else Inst.MUSTACHE_SECTION_START_INV;
         Inst.data := {| Inst.end_ := 0; Inst.len := 0;
                         Inst.name_pos := u32 beg;
                         Inst.name_len := u16 (end_ - beg);
                         Inst.offset := u16 (Loader.data_pos f - beg) |} |} in
    Return r s.

(** [case '>']. *)
Definition tag_partial (fs : filesystem) (s : Loader.mustache__loader_stack_s)
    (beg end_ : Z) : ret Loader.mustache__loader_stack_s :=
  let data := Loader.data s in
  let '(beg, end_) := trim data (beg + 1) end_ in
  mustache__load_file fs s (slice data beg (end_ - beg)) (end_ - beg).

(** [case '/']. *)
Definition tag_section_end (s : Loader.mustache__loader_stack_s) (f : Loader.frame)
    (org_beg beg end_ : Z) : ret Loader.mustache__loader_stack_s :=
  let data := Loader.data s in
  let '(beg, end_) := trim data (beg + 1) end_ in
  if Loader.open_sections f =? 0 then fail s MUSTACHE_ERR_CLOSURE_MISMATCH
  else
    match find_opener (Loader.i s) (List.length (Loader.i s)) 0 with
    | None => fail s MUSTACHE_ERR_CLOSURE_MISMATCH
    | Some pos =>
      match nth_error (Loader.i s) pos with
      | None => fail s MUSTACHE_ERR_CLOSURE_MISMATCH
      | Some op =>
        let d := Inst.data op in
        if negb (Inst.name_len d =? end_ - beg)
           || negb (bytes_eqb (slice data beg (Inst.name_len d))
                              (slice data (Inst.name_pos d) (Inst.name_len d)))
        then fail s MUSTACHE_ERR_CLOSURE_MISMATCH
        else
          let d := Inst.set_end d (u32 (zlength (Loader.i s))) in
          let d := Inst.set_len d
                     (u32 (org_beg - (Inst.name_pos d + Inst.offset d))) in
          let s := Loader.set_i s
                     (update_nth pos
                        (fun x => {| Inst.instruction := Inst.instruction x;
                                     Inst.data := d |})
                        (Loader.i s)) in
          let s := snd (mustache__instruction_push s
                          {| Inst.instruction := Inst.MUSTACHE_SECTION_END;
                             Inst.data := d |}) in
          Return 0 (Loader.set_top s
                      (Loader.set_open_sections f
                         (u16 (Loader.open_sections f - 1))))
      end
    end.

(** [case '{'], [case '&'], [case ':'], [case '<'] and [default], which
    fall through to one another; [sigil] is [beg[0]]. *)
Definition tag_variable (s : Loader.mustache__loader_stack_s) (f : Loader.frame)
    (sigil beg end_ : Z) : ret Loader.mustache__loader_stack_s :=
  let data := Loader.data s in
  let f :=
    if (sigil =? 123)
       && (byte_at data (Loader.data_pos f) =? 125)
       && (byte_at (Loader.del_end f) 0 =? 125)
       && (byte_at (Loader.del_end f) (zlength (Loader.del_end f) - 1) =? 125)
    then Loader.set_data_pos f (u32 (Loader.data_pos f + 1))
    else f in
  let s := Loader.set_top s f in
  let escape_str := negb ((sigil =? 123) || (sigil =? 38)) in
  let beg := if (sigil =? 123) || (sigil =? 38) || (sigil =? 58) || (sigil =? 60)
             then beg + 1 else beg in
  let '(beg, end_) := trim data beg end_ in
  let s := snd (mustache__instruction_push s
    {| Inst.instruction := if escape_str then Inst.MUSTACHE_WRITE_ARG
                           else Inst.MUSTACHE_WRITE_ARG_UNESCAPED;
       Inst.data := {| Inst.end_ := 0; Inst.len := 0;
                       Inst.name_pos := u32 beg;
                       Inst.name_len := u16 (end_ - beg);
                       Inst.offset := 0 |} |}) in
  Return 0 s.

(** The [switch (beg[0])]. *)
Definition parse_tag (fs : filesystem) (s : Loader.mustache__loader_stack_s)
    (f : Loader.frame) (org_beg beg end_ : Z) : ret Loader.mustache__loader_stack_s :=
  let sigil := byte_at (Loader.data s) beg in
  if sigil =? 33 then Return 0 s
  else if sigil =? 61 then tag_delimiters s f beg end_
  else if sigil =? 94 then tag_section_start s f false beg end_
  else if sigil =? 35 then tag_section_start s f true beg end_
  else if sigil =? 62 then tag_partial fs s beg end_
  else if sigil =? 47 then tag_section_end s f org_beg beg end_
  else tag_variable s f sigil beg end_.

(** The text that is left when no tag follows. *)
Definition text_rest (s : Loader.mustache__loader_stack_s) (f : Loader.frame)
  : ret Loader.mustache__loader_stack_s :=
  let s := snd (mustache__instruction_push s
    {| Inst.instruction := Inst.MUSTACHE_WRITE_TEXT;
       Inst.data := {| Inst.end_ := 0; Inst.len := 0;
                       Inst.name_pos := Loader.data_pos f;
                       Inst.name_len := u16 (Loader.data_end f - Loader.data_pos f);
                       Inst.offset := 0 |} |}) in
  Return 0 (Loader.set_top s (Loader.set_data_pos f (Loader.data_end f))).

(** One turn of the parsing loop for the top entry [f]. *)
Definition parse_step (fs : filesystem) (s : Loader.mustache__loader_stack_s)
    (f : Loader.frame) : ret Loader.mustache__loader_stack_s :=
  let data := Loader.data s in
  let start := Loader.data_pos f in
  match strstr (skipn (Z.to_nat start) data) (Loader.del_start f) with
  | None => text_rest s f
  | Some off =>
    let org_beg := start + off in
    if Loader.data_end f <=? org_beg then text_rest s f
    else
      let s :=
        if off =? 0 then s
        else snd (mustache__instruction_push s
          {| Inst.instruction := Inst.MUSTACHE_WRITE_TEXT;
             Inst.data := {| Inst.end_ := 0; Inst.len := 0;
                             Inst.name_pos := Loader.data_pos f;
                             Inst.name_len := u16 off;
                             Inst.offset := 0 |} |}) in
      let beg := org_beg + zlength (Loader.del_start f) in
      match strstr (skipn (Z.to_nat beg) data) (Loader.del_end f) with
      | None => fail s MUSTACHE_ERR_CLOSURE_MISMATCH
      | Some off_end =>
        let end_ := beg + off_end in
        if Loader.data_end f <=? end_ then fail s MUSTACHE_ERR_CLOSURE_MISMATCH
        else
          let f := Loader.set_data_pos f (u32 (end_ + zlength (Loader.del_end f))) in
          parse_tag fs (Loader.set_top s f) f org_beg beg end_
      end
  end.

(** The end of a template: its closing instruction, and the stack entry is
    dropped. *)
Definition close_template (s : Loader.mustache__loader_stack_s) (f : Loader.frame)
  : ret Loader.mustache__loader_stack_s :=
  if negb (Loader.open_sections f =? 0) then fail s MUSTACHE_ERR_CLOSURE_MISMATCH
  else
    let seg := mustache__data_segment_read
                 (skipn (Z.to_nat (Loader.data_start f)) (Loader.data s)) in
    let count := zlength (Loader.i s) in
    let s := Loader.set_i s
               (update_nth (Z.to_nat (inst_start seg))
                  (fun x => {| Inst.instruction := Inst.instruction x;
                               Inst.data := Inst.set_end (Inst.data x) (u32 count) |})
                  (Loader.i s)) in
    let s := snd (mustache__instruction_push s
                    {| Inst.instruction := Inst.MUSTACHE_SECTION_END;
                       Inst.data := Inst.zero |}) in
    Return 0 (Loader.set_stack s (tl (Loader.stack s))).

Definition load_step (fs : filesystem) (s : Loader.mustache__loader_stack_s)
    (f : Loader.frame) : ret Loader.mustache__loader_stack_s :=
  if Loader.data_pos f <? Loader.data_end f
  then parse_step fs s f
  else close_template s f.

(** The arguments of [mustache_load]: [filename] with its [filename_len]
    bytes, and the [data] pointer with its [data_len] bytes, NULL as [None]. *)
Module LoadArgs.
Record mustache_load_args_s : Type := mk_args {
  filename : bytes;
  data : option bytes
}.
End LoadArgs.

(** What [mustache_load] gives back: the template with [*err], NULL with
    [*err], or no return. *)
Inductive load_result : Type :=
| Loaded (m : mustache_s) (e : mustache_error_en)
| LoadFailed (e : mustache_error_en)
| LoadStuck (why : stuck)
| LoadOutOfFuel.

(** [while (s.index) { while (data_pos < data_end) {...} ... }], one unit of
    [fuel] for each turn of the inner loop and each template closed. *)
Fixpoint load_loop (fuel : nat) (fs : filesystem)
    (s : Loader.mustache__loader_stack_s) : load_result :=
  match Loader.stack s with
  | [] => Loaded {| instructions := Loader.i s; data_segment := Loader.data s |}
                 MUSTACHE_OK
  | f :: _ =>
    match fuel with
    | O => LoadOutOfFuel
    | S fuel' =>
      match load_step fs s f with
      | Stuck w => LoadStuck w
      | Return r s' =>
        if r =? 0 then load_loop fuel' fs s' else LoadFailed (Loader.err s')
      end
    end
  end.

(** The loader before anything is loaded. *)
Definition loader_start : Loader.mustache__loader_stack_s :=
  {| Loader.i := []; Loader.err := MUSTACHE_OK; Loader.data := [];
     Loader.path := []; Loader.stack := [] |}.

(** [mustache_load].  The error variable starts as the caller left it (here
    [MUSTACHE_OK]); every failing path stores into it. *)
Definition mustache_load (fs : filesystem) (args : LoadArgs.mustache_load_args_s)
    (fuel : nat) : load_result :=
  let s := loader_start in
  let name := LoadArgs.filename args in
  let first :=
    match LoadArgs.data args with
    | Some d => let '(r, s) := mustache__load_data s name (zlength name) d in
                Return r s
    | None => mustache__load_file fs s name (zlength name)
    end in
  match first with
  | Stuck w => LoadStuck w
  | Return r s => if r =? 0 then load_loop fuel fs s else LoadFailed (Loader.err s)
  end.

(* ------------------------------------------------------------------ *)
(** ** The builder *)

Module Builder.

(** [mustache_section_s]; the opaque pointers are numbers. *)
Record mustache_section_s : Type := mk_section {
  udata1 : Z;
  udata2 : Z
}.

Record mustache__section_stack_frame_s : Type := mk_frame {
  sec : mustache_section_s;
  start : Z;
  end_ : Z;
  index : Z;
  count : Z;
  frame : Z
}.

(** [mustache__builder_stack_s]: [stack] holds the entries
    [stack[index], ..., stack[0]], top first, so that [s.index] is its
    length less one; the empty list stands for the index 65535 that
    [--s.index] leaves when [s.index] was 0.  Entries above [s.index] are
    written before they are read and are not kept. *)
Record mustache__builder_stack_s : Type := mk_builder {
  data : mustache_s;
  pos : Z;
  stack : list mustache__section_stack_frame_s
}.

Definition set_sec (f : mustache__section_stack_frame_s) (x : mustache_section_s) :=
  {| sec := x; start := start f; end_ := end_ f; index := index f;
     count := count f; frame := frame f |}.
Definition set_count (f : mustache__section_stack_frame_s) (c : Z) :=
  {| sec := sec f; start := start f; end_ := end_ f; index := index f;
     count := c; frame := frame f |}.
Definition set_index (f : mustache__section_stack_frame_s) (n : Z) :=
  {| sec := sec f; start := start f; end_ := end_ f; index := n;
     count := count f; frame := frame f |}.
Definition set_pos (s : mustache__builder_stack_s) (p : Z) :=
  {| data := data s; pos := p; stack := stack s |}.
Definition set_stack (s : mustache__builder_stack_s)
    (st : list mustache__section_stack_frame_s) :=
  {| data := data s; pos := pos s; stack := st |}.

End Builder.

(** What [mustache_section_text] does: the pointer it returns (NULL as
    [None], else the bytes it points to, as many as it stores in [*p_len])
    with the value it leaves in [*p_len], or no return. *)
Inductive text_result : Type :=
| TextReturn (text : option bytes) (p_len : Z)
| TextStuck (why : stuck).

(** [mustache_section_text].  [section] is NULL ([None]) or points into the
    stack of the builder it is given as; [p_len] is NULL ([None]) or points
    to a variable.  The label [error] stores through [p_len] whatever sent
    it there. *)
Definition mustache_section_text (section : option Builder.mustache__builder_stack_s)
    (p_len : option Z) : text_result :=
  match section, p_len with
  | Some s, Some _ =>
    match nth_error (instructions (Builder.data s)) (Z.to_nat (Builder.pos s)) with
    | None => TextStuck ReadsOutOfBounds
    | Some inst =>
      match Inst.instruction inst with
      | Inst.MUSTACHE_SECTION_START =>
        TextReturn
          (Some (slice (data_segment (Builder.data s))
                       (Inst.name_pos (Inst.data inst) + Inst.offset (Inst.data inst))
                       (Inst.len (Inst.data inst))))
          (Inst.len (Inst.data inst))
      | _ => TextReturn None 0
      end
    end
  | None, Some _ => TextReturn None 0
  | _, None => TextStuck NullWrite
  end.

(** [mustache_section_parent] on the sections of a stack, the one asked
    about first: the nearest entry below it whose [udata] differs. *)
Fixpoint section_parent_from (tmp : Builder.mustache_section_s)
    (below : list Builder.mustache_section_s) : option Builder.mustache_section_s :=
  match below with
  | [] => None
  | f :: r =>
    if negb (Builder.udata1 tmp =? Builder.udata1 f)
       || negb (Builder.udata2 tmp =? Builder.udata2 f)
    then Some f else section_parent_from tmp r
  end.

Definition mustache_section_parent (sections : list Builder.mustache_section_s)
  : option Builder.mustache_section_s :=
  match sections with
  | [] => None
  | x :: below => section_parent_from x below
  end.

(** What a callback reaches through its [section] argument: the [udata] of
    the section and of the sections below it (as [mustache_section_parent]
    walks them), and the text [mustache_section_text] gives at that time. *)
Record section_view : Type := mk_view {
  view_sections : list Builder.mustache_section_s;
  view_text : text_result
}.

Definition view_of (s : Builder.mustache__builder_stack_s) : section_view :=
  {| view_sections := map Builder.sec (Builder.stack s);
     view_text := mustache_section_text (Some s) (Some 0) |}.

(** The client callbacks over a client state [H].  Each takes the state,
    the section and its further arguments as in the C prototype, and gives
    the [int] it returns, the [udata] it leaves in its section and the new
    state. *)
Record callbacks (H : Type) : Type := mk_callbacks {
  mustache_on_arg :
    H -> section_view -> bytes -> Z -> Z -> Z * Builder.mustache_section_s * H;
  mustache_on_text :
    H -> section_view -> bytes -> Z -> Z * Builder.mustache_section_s * H;
  mustache_on_section_test :
    H -> section_view -> bytes -> Z -> Z -> Z * Builder.mustache_section_s * H;
  mustache_on_section_start :
    H -> section_view -> bytes -> Z -> Z -> Z * Builder.mustache_section_s * H;
  mustache_on_formatting_error : H -> Z -> Z -> H
}.
Arguments mustache_on_arg {H}.
Arguments mustache_on_text {H}.
Arguments mustache_on_section_test {H}.
Arguments mustache_on_section_start {H}.
Arguments mustache_on_formatting_error {H}.

(** A call as the trace keeps it. *)
Inductive callback : Type :=
| OnText (data : bytes) (data_len : Z)
| OnArg (name : bytes) (name_len : Z) (escape : Z)
| OnSectionTest (name : bytes) (name_len : Z) (callable : Z)
| OnSectionStart (name : bytes) (name_len : Z) (index : Z).

(** [Call pos section cb r]: the call [cb] made while [s.pos] was [pos],
    which returned [r]. *)
Inductive event : Type :=
| Call (pos : Z) (section : section_view) (cb : callback) (r : Z)
| FormattingError (udata1 udata2 : Z).

(** How one turn of the loop of [mustache_build] ends. *)
Inductive turn (H : Type) : Type :=
| Next (s : Builder.mustache__builder_stack_s) (h : H)   (* after [++s.pos] *)
| GotoUserError (h : H)
| GotoError (e : mustache_error_en) (h : H)
| TurnStuck (why : stuck).
Arguments Next {H} s h.
Arguments GotoUserError {H} h.
Arguments GotoError {H} e h.
Arguments TurnStuck {H} why.

Section Build.
Context {H : Type} (cb : callbacks H).

Definition name_of (m : mustache_s) (inst : Inst.mustache__instruction_s) : bytes :=
  slice (data_segment m) (Inst.name_pos (Inst.data inst))
        (Inst.name_len (Inst.data inst)).

(** Store the section a callback left into the top entry. *)
Definition store_sec (s : Builder.mustache__builder_stack_s)
    (x : Builder.mustache_section_s) : Builder.mustache__builder_stack_s :=
  match Builder.stack s with
  | [] => s
  | f :: r => Builder.set_stack s (Builder.set_sec f x :: r)
  end.

Definition advance (s : Builder.mustache__builder_stack_s) :=
  Builder.set_pos s (u32 (Builder.pos s + 1)).

(** [case MUSTACHE_SECTION_END], which the section cases fall into: repeat
    the section or leave it. *)
Definition section_loop (s : Builder.mustache__builder_stack_s) (h : H)
  : list event * turn H :=
  match Builder.stack s with
  | [] => ([], TurnStuck ReadsOutOfBounds)
  | f :: below =>
    if Builder.index f <? Builder.count f then
      match below with
      | [] => ([], TurnStuck ReadsOutOfBounds)
      | parent :: _ =>
        let s := Builder.set_pos s (Builder.start f) in
        let f := Builder.set_sec f (Builder.sec parent) in
        let s := Builder.set_stack s (f :: below) in
        match nth_error (instructions (Builder.data s)) (Z.to_nat (Builder.pos s)) with
        | None => ([], TurnStuck ReadsOutOfBounds)
        | Some inst =>
          if negb (Inst.name_pos (Inst.data inst) =? 0) then
            let name := name_of (Builder.data s) inst in
            let name_len := Inst.name_len (Inst.data inst) in
            let '(r, x, h) :=
              mustache_on_section_start cb h (view_of s) name name_len
                                        (Builder.index f) in
            let ev := [Call (Builder.pos s) (view_of s)
                            (OnSectionStart name name_len (Builder.index f)) r] in
            if r =? -1 then (ev, GotoUserError h)
            else
              let f := Builder.set_sec f x in
              (ev, Next (advance (Builder.set_stack s
                           (Builder.set_index f (u32 (Builder.index f + 1)) :: below))) h)
          else
            ([], Next (advance (Builder.set_stack s
                         (Builder.set_index f (u32 (Builder.index f + 1)) :: below))) h)
        end
      end
    else
      ([], Next (advance (Builder.set_stack (Builder.set_pos s (Builder.end_ f)) below)) h)
  end.

(** The cases [MUSTACHE_SECTION_GOTO], [MUSTACHE_SECTION_START] and
    [MUSTACHE_SECTION_START_INV]. *)
Definition section_enter (s : Builder.mustache__builder_stack_s)
    (inst : Inst.mustache__instruction_s) (h : H) : list event * turn H :=
  match Builder.stack s with
  | [] => ([], GotoError MUSTACHE_ERR_TOO_DEEP h)   (* [s.index + 1] is 65536 *)
  | top :: _ =>
    if MUSTACHE_NESTING_LIMIT <=? zlength (Builder.stack s)
    then ([], GotoError MUSTACHE_ERR_TOO_DEEP h)
    else
      let f :=
        {| Builder.sec := Builder.sec top;
           Builder.start :=
             match Inst.instruction inst with
             | Inst.MUSTACHE_SECTION_GOTO => Inst.len (Inst.data inst)
             | _ => Builder.pos s
             end;
           Builder.end_ := Inst.end_ (Inst.data inst);
           Builder.frame := zlength (Builder.stack s);
           Builder.index := 0;
           Builder.count := 1 |} in
      let s := Builder.set_stack s (f :: Builder.stack s) in
      if negb (Inst.name_pos (Inst.data inst) =? 0) then
        let name := name_of (Builder.data s) inst in
        let name_len := Inst.name_len (Inst.data inst) in
        let callable :=
          if Inst.tag_eqb (Inst.instruction inst) Inst.MUSTACHE_SECTION_START
          then 1 else 0 in
        let '(val, x, h) :=
          mustache_on_section_test cb h (view_of s) name name_len callable in
        let ev := [Call (Builder.pos s) (view_of s)
                        (OnSectionTest name name_len callable) val] in
        if val =? -1 then (ev, GotoUserError h)
        else
          let val :=
            if Inst.tag_eqb (Inst.instruction inst) Inst.MUSTACHE_SECTION_START_INV
            then (if val =? 0 then 1 else 0) else val in
          let s := store_sec s x in
          let s := match Builder.stack s with
                   | [] => s
                   | f :: r => Builder.set_stack s (Builder.set_count f (u32 val) :: r)
                   end in
          let '(ev', t) := section_loop s h in
          (ev ++ ev', t)
      else section_loop s h
  end.

(** One turn of the [while] loop: the [switch] on the instruction at
    [s.pos] and the [++s.pos] after it. *)
Definition build_step (s : Builder.mustache__builder_stack_s)
    (inst : Inst.mustache__instruction_s) (h : H) : list event * turn H :=
  let m := Builder.data s in
  let name := name_of m inst in
  let name_len := Inst.name_len (Inst.data inst) in
  match Inst.instruction inst with
  | Inst.MUSTACHE_WRITE_TEXT =>
    match Builder.stack s with
    | [] => ([], TurnStuck ReadsOutOfBounds)
    | _ =>
      let '(r, x, h) := mustache_on_text cb h (view_of s) name name_len in
      let ev := [Call (Builder.pos s) (view_of s) (OnText name name_len) r] in
      if negb (r =? 0) then (ev, GotoUserError h)
      else (ev, Next (advance (store_sec s x)) h)
    end
  | Inst.MUSTACHE_WRITE_ARG =>
    match Builder.stack s with
    | [] => ([], TurnStuck ReadsOutOfBounds)
    | _ =>
      let '(r, x, h) := mustache_on_arg cb h (view_of s) name name_len 1 in
      let ev := [Call (Builder.pos s) (view_of s) (OnArg name name_len 1) r] in
      if negb (r =? 0) then (ev, GotoUserError h)
      else (ev, Next (advance (store_sec s x)) h)
    end
  | Inst.MUSTACHE_WRITE_ARG_UNESCAPED =>
    match Builder.stack s with
    | [] => ([], TurnStuck ReadsOutOfBounds)
    | _ =>
      let '(r, x, h) := mustache_on_arg cb h (view_of s) name name_len 0 in
      let ev := [Call (Builder.pos s) (view_of s) (OnArg name name_len 0) r] in
      if negb (r =? 0) then (ev, GotoUserError h)
      else (ev, Next (advance (store_sec s x)) h)
    end
  | Inst.MUSTACHE_SECTION_GOTO
  | Inst.MUSTACHE_SECTION_START
  | Inst.MUSTACHE_SECTION_START_INV => section_enter s inst h
  | Inst.MUSTACHE_SECTION_END => section_loop s h
  end.

(** How the loop of [mustache_build] ends. *)
Inductive loop_end : Type :=
| LoopDone (h : H)                        (* the loop condition fails *)
| LoopUserError (h : H)                   (* [goto user_error] *)
| LoopError (e : mustache_error_en) (h : H)  (* [goto error] *)
| LoopStuck (why : stuck)
| LoopOutOfFuel.

(** The [while] loop, [fuel] turns at most, with the calls it makes. *)
Fixpoint build_loop (fuel : nat) (s : Builder.mustache__builder_stack_s) (h : H)
  : list event * loop_end :=
  match nth_error (instructions (Builder.data s)) (Z.to_nat (Builder.pos s)) with
  | None => ([], LoopDone h)
  | Some inst =>
    match fuel with
    | O => ([], LoopOutOfFuel)
    | S fuel' =>
      match build_step s inst h with
      | (ev, Next s' h') =>
        let '(ev', e) := build_loop fuel' s' h' in (ev ++ ev', e)
      | (ev, GotoUserError h') => (ev, LoopUserError h')
      | (ev, GotoError e h') => (ev, LoopError e h')
      | (ev, TurnStuck w) => (ev, LoopStuck w)
      end
    end
  end.

(** The arguments of [mustache_build]; a NULL [mustache] is [None]. *)
Record mustache_build_args_s : Type := mk_build_args {
  mustache : option mustache_s;
  arg_udata1 : Z;
  arg_udata2 : Z
}.

(** What [mustache_build] gives back: the [int] it returns with [*err] and
    the client state, or no return. *)
Inductive build_result : Type :=
| Built (r : Z) (e : mustache_error_en) (h : H)
| BuildStuck (why : stuck)
| BuildOutOfFuel.

(** The labels [user_error] and [error]. *)
Definition build_error (args : mustache_build_args_s) (e : mustache_error_en) (h : H)
  : list event * build_result :=
  ([FormattingError (arg_udata1 args) (arg_udata2 args)],
   Built (-1) e (mustache_on_formatting_error cb h (arg_udata1 args) (arg_udata2 args))).

(** The first entry of the stack as [mustache_build] sets it. *)
Definition root_frame (m : mustache_s) (u1 u2 : Z)
  : Builder.mustache__section_stack_frame_s :=
  {| Builder.sec := {| Builder.udata1 := u1; Builder.udata2 := u2 |};
     Builder.start := 0;
     Builder.end_ := match instructions m with
                     | [] => 0
                     | i0 :: _ => Inst.end_ (Inst.data i0)
                     end;
     Builder.index := 0;
     Builder.count := 0;
     Builder.frame := 0 |}.

(** [mustache_build]: the calls it makes, in order, and its result. *)
Definition mustache_build (args : mustache_build_args_s) (fuel : nat) (h : H)
  : list event * build_result :=
  match mustache args with
  | None => build_error args MUSTACHE_ERR_USER_ERROR h
  | Some m =>
    let s := {| Builder.data := m; Builder.pos := 0;
                Builder.stack := [root_frame m (arg_udata1 args) (arg_udata2 args)] |} in
    match build_loop fuel s h with
    | (ev, LoopDone h') => (ev, Built 0 MUSTACHE_OK h')
    | (ev, LoopUserError h') =>
      let '(ev', r) := build_error args MUSTACHE_ERR_USER_ERROR h' in (ev ++ ev', r)
    | (ev, LoopError e h') =>
      let '(ev', r) := build_error args e h' in (ev ++ ev', r)
    | (ev, LoopStuck w) => (ev, BuildStuck w)
    | (ev, LoopOutOfFuel) => (ev, BuildOutOfFuel)
    end
  end.

End Build.

(* ------------------------------------------------------------------ *)
(** ** The stack of the builder as the array it is *)

Module BuilderArray.

(** [mustache__builder_stack_s] with its fields as they are declared:
    [index] is the [uint16_t] stack position and [stack] the array of
    [MUSTACHE_NESTING_LIMIT] entries, [stack[0]] first.  The entries above
    [index] hold whatever the memory held before. *)
Record mustache__builder_stack_s : Type := mk_builder {
  data : mustache_s;
  pos : Z;
  index : Z;
  stack : list Builder.mustache__section_stack_frame_s
}.

Definition set_pos (s : mustache__builder_stack_s) (p : Z) :=
  {| data := data s; pos := p; index := index s; stack := stack s |}.
Definition set_index (s : mustache__builder_stack_s) (i : Z) :=
  {| data := data s; pos := pos s; index := i; stack := stack s |}.
Definition set_stack (s : mustache__builder_stack_s)
    (st : list Builder.mustache__section_stack_frame_s) :=
  {| data := data s; pos := pos s; index := index s; stack := st |}.

End BuilderArray.

(** [s.stack[i]], which is no entry of the array unless
    [0 <= i < MUSTACHE_NESTING_LIMIT]. *)
Definition frame_at (s : BuilderArray.mustache__builder_stack_s) (i : Z)
  : option Builder.mustache__section_stack_frame_s :=
  if (0 <=? i) && (i <? MUSTACHE_NESTING_LIMIT)
  then nth_error (BuilderArray.stack s) (Z.to_nat i) else None.

(** A store to fields of [s.stack[i]]. *)
Definition set_frame_at (s : BuilderArray.mustache__builder_stack_s) (i : Z)
    (g : Builder.mustache__section_stack_frame_s -> Builder.mustache__section_stack_frame_s)
  : BuilderArray.mustache__builder_stack_s :=
  BuilderArray.set_stack s (update_nth (Z.to_nat i) g (BuilderArray.stack s)).

(** The entries [stack[index], ..., stack[0]], top first: those a callback
    reaches from the [section] it is given, which lies in [stack[index]]. *)
Definition frames_in_use (s : BuilderArray.mustache__builder_stack_s)
  : list Builder.mustache__section_stack_frame_s :=
  if BuilderArray.index s <? MUSTACHE_NESTING_LIMIT
  then rev (firstn (Z.to_nat (BuilderArray.index s + 1)) (BuilderArray.stack s))
  else [].

(** The builder with the entries in use only. *)
Definition in_use (s : BuilderArray.mustache__builder_stack_s)
  : Builder.mustache__builder_stack_s :=
  {| Builder.data := BuilderArray.data s;
     Builder.pos := BuilderArray.pos s;
     Builder.stack := frames_in_use s |}.

(** How one turn of the loop ends, for the builder with its array. *)
Inductive array_turn (H : Type) : Type :=
| ArrayNext (s : BuilderArray.mustache__builder_stack_s) (h : H)
| ArrayGotoUserError (h : H)
| ArrayGotoError (e : mustache_error_en) (h : H)
| ArrayTurnStuck (why : stuck).
Arguments ArrayNext {H} s h.
Arguments ArrayGotoUserError {H} h.
Arguments ArrayGotoError {H} e h.
Arguments ArrayTurnStuck {H} why.

Section BuildArray.
Context {H : Type} (cb : callbacks H).

Definition array_advance (s : BuilderArray.mustache__builder_stack_s) :=
  BuilderArray.set_pos s (u32 (BuilderArray.pos s + 1)).

(** [case MUSTACHE_SECTION_END] and what falls into it. *)
Definition array_section_loop (s : BuilderArray.mustache__builder_stack_s) (h : H)
  : list event * array_turn H :=
  let i := BuilderArray.index s in
  match frame_at s i with
  | None => ([], ArrayTurnStuck ReadsOutOfBounds)
  | Some f =>
    if Builder.index f <? Builder.count f then
      match frame_at s (i - 1) with
      | None => ([], ArrayTurnStuck ReadsOutOfBounds)
      | Some parent =>
        let s := BuilderArray.set_pos s (Builder.start f) in
        let s := set_frame_at s i (fun f => Builder.set_sec f (Builder.sec parent)) in
        match nth_error (instructions (BuilderArray.data s))
                        (Z.to_nat (BuilderArray.pos s)) with
        | None => ([], ArrayTurnStuck ReadsOutOfBounds)
        | Some inst =>
          if negb (Inst.name_pos (Inst.data inst) =? 0) then
            let name := name_of (BuilderArray.data s) inst in
            let name_len := Inst.name_len (Inst.data inst) in
            let '(r, x, h) :=
              mustache_on_section_start cb h (view_of (in_use s)) name name_len
                                        (Builder.index f) in
            let ev := [Call (BuilderArray.pos s) (view_of (in_use s))
                            (OnSectionStart name name_len (Builder.index f)) r] in
            if r =? -1 then (ev, ArrayGotoUserError h)
            else
              let s := set_frame_at s i (fun f => Builder.set_sec f x) in
              (ev, ArrayNext
                     (array_advance
                        (set_frame_at s i
                           (fun f => Builder.set_index f (u32 (Builder.index f + 1))))) h)
          else
            ([], ArrayNext
                   (array_advance
                      (set_frame_at s i
                         (fun f => Builder.set_index f (u32 (Builder.index f + 1))))) h)
        end
      end
    else
      ([], ArrayNext
             (array_advance
                (BuilderArray.set_index (BuilderArray.set_pos s (Builder.end_ f))
                                        (u16 (i - 1)))) h)
  end.

(** The cases [MUSTACHE_SECTION_GOTO], [MUSTACHE_SECTION_START] and
    [MUSTACHE_SECTION_START_INV]; all the fields of [stack[index + 1]] are
    stored before any is read. *)
Definition array_section_enter (s : BuilderArray.mustache__builder_stack_s)
    (inst : Inst.mustache__instruction_s) (h : H) : list event * array_turn H :=
  let i := BuilderArray.index s in
  if MUSTACHE_NESTING_LIMIT <=? i + 1
  then ([], ArrayGotoError MUSTACHE_ERR_TOO_DEEP h)
  else
    match frame_at s i with
    | None => ([], ArrayTurnStuck ReadsOutOfBounds)
    | Some top =>
      let f :=
        {| Builder.sec := Builder.sec top;
           Builder.start :=
             match Inst.instruction inst with
             | Inst.MUSTACHE_SECTION_GOTO => Inst.len (Inst.data inst)
             | _ => BuilderArray.pos s
             end;
           Builder.end_ := Inst.end_ (Inst.data inst);
           Builder.frame := u16 (i + 1);
           Builder.index := 0;
           Builder.count := 1 |} in
      let s := BuilderArray.set_index (set_frame_at s (i + 1) (fun _ => f)) (u16 (i + 1)) in
      let i := BuilderArray.index s in
      if negb (Inst.name_pos (Inst.data inst) =? 0) then
        let name := name_of (BuilderArray.data s) inst in
        let name_len := Inst.name_len (Inst.data inst) in
        let callable :=
          if Inst.tag_eqb (Inst.instruction inst) Inst.MUSTACHE_SECTION_START
          then 1 else 0 in
        let '(val, x, h) :=
          mustache_on_section_test cb h (view_of (in_use s)) name name_len callable in
        let ev := [Call (BuilderArray.pos s) (view_of (in_use s))
                        (OnSectionTest name name_len callable) val] in
        if val =? -1 then (ev, ArrayGotoUserError h)
        else
          let val :=
            if Inst.tag_eqb (Inst.instruction inst) Inst.MUSTACHE_SECTION_START_INV
            then (if val =? 0 then 1 else 0) else val in
          let s := set_frame_at s i (fun f => Builder.set_sec f x) in
          let s := set_frame_at s i (fun f => Builder.set_count f (u32 val)) in
          let '(ev', t) := array_section_loop s h in
          (ev ++ ev', t)
      else array_section_loop s h
    end.

(** One turn of the [while] loop. *)
Definition array_build_step (s : BuilderArray.mustache__builder_stack_s)
    (inst : Inst.mustache__instruction_s) (h : H) : list event * array_turn H :=
  let m := BuilderArray.data s in
  let name := name_of m inst in
  let name_len := Inst.name_len (Inst.data inst) in
  let i := BuilderArray.index s in
  match Inst.instruction inst with
  | Inst.MUSTACHE_WRITE_TEXT =>
    match frame_at s i with
    | None => ([], ArrayTurnStuck ReadsOutOfBounds)
    | Some _ =>
      let '(r, x, h) := mustache_on_text cb h (view_of (in_use s)) name name_len in
      let ev := [Call (BuilderArray.pos s) (view_of (in_use s)) (OnText name name_len) r] in
      if negb (r =? 0) then (ev, ArrayGotoUserError h)
      else (ev, ArrayNext
                  (array_advance (set_frame_at s i (fun f => Builder.set_sec f x))) h)
    end
  | Inst.MUSTACHE_WRITE_ARG =>
    match frame_at s i with
    | None => ([], ArrayTurnStuck ReadsOutOfBounds)
    | Some _ =>
      let '(r, x, h) := mustache_on_arg cb h (view_of (in_use s)) name name_len 1 in
      let ev := [Call (BuilderArray.pos s) (view_of (in_use s)) (OnArg name name_len 1) r] in
      if negb (r =? 0) then (ev, ArrayGotoUserError h)
      else (ev, ArrayNext
                  (array_advance (set_frame_at s i (fun f => Builder.set_sec f x))) h)
    end
  | Inst.MUSTACHE_WRITE_ARG_UNESCAPED =>
    match frame_at s i with
    | None => ([], ArrayTurnStuck ReadsOutOfBounds)
    | Some _ =>
      let '(r, x, h) := mustache_on_arg cb h (view_of (in_use s)) name name_len 0 in
      let ev := [Call (BuilderArray.pos s) (view_of (in_use s)) (OnArg name name_len 0) r] in
      if negb (r =? 0) then (ev, ArrayGotoUserError h)
      else (ev, ArrayNext
                  (array_advance (set_frame_at s i (fun f => Builder.set_sec f x))) h)
    end
  | Inst.MUSTACHE_SECTION_GOTO
  | Inst.MUSTACHE_SECTION_START
  | Inst.MUSTACHE_SECTION_START_INV => array_section_enter s inst h
  | Inst.MUSTACHE_SECTION_END => array_section_loop s h
  end.

(** The [while] loop, [fuel] turns at most. *)
Fixpoint array_build_loop (fuel : nat) (s : BuilderArray.mustache__builder_stack_s) (h : H)
  : list event * loop_end :=
  match nth_error (instructions (BuilderArray.data s))
                  (Z.to_nat (BuilderArray.pos s)) with
  | None => ([], LoopDone h)
  | Some inst =>
    match fuel with
    | O => ([], LoopOutOfFuel)
    | S fuel' =>
      match array_build_step s inst h with
      | (ev, ArrayNext s' h') =>
        let '(ev', e) := array_build_loop fuel' s' h' in (ev ++ ev', e)
      | (ev, ArrayGotoUserError h') => (ev, LoopUserError h')
      | (ev, ArrayGotoError e h') => (ev, LoopError e h')
      | (ev, ArrayTurnStuck w) => (ev, LoopStuck w)
      end
    end
  end.

(** The builder as [mustache_build] sets it up: [memory] is what the
    array of the local variable [s] holds when the function is entered;
    only [s.stack[0]] is stored to. *)
Definition array_start (m : mustache_s) (u1 u2 : Z)
    (memory : list Builder.mustache__section_stack_frame_s)
  : BuilderArray.mustache__builder_stack_s :=
  {| BuilderArray.data := m; BuilderArray.pos := 0; BuilderArray.index := 0;
     BuilderArray.stack := update_nth 0 (fun _ => root_frame m u1 u2) memory |}.

(** [mustache_build] with the array of its local variable. *)
Definition mustache_build_array (args : mustache_build_args_s)
    (memory : list Builder.mustache__section_stack_frame_s) (fuel : nat) (h : H)
  : list event * build_result :=
  match mustache args with
  | None => build_error cb args MUSTACHE_ERR_USER_ERROR h
  | Some m =>
    match array_build_loop fuel (array_start m (arg_udata1 args) (arg_udata2 args) memory) h with
    | (ev, LoopDone h') => (ev, Built 0 MUSTACHE_OK h')
    | (ev, LoopUserError h') =>
      let '(ev', r) := build_error cb args MUSTACHE_ERR_USER_ERROR h' in (ev ++ ev', r)
    | (ev, LoopError e h') =>
      let '(ev', r) := build_error cb args e h' in (ev ++ ev', r)
    | (ev, LoopStuck w) => (ev, BuildStuck w)
    | (ev, LoopOutOfFuel) => (ev, BuildOutOfFuel)
    end
  end.


End BuildArray.

(** The array is as long as it is declared and the stack position is one
    of its indices, or the 65535 that [--s.index] leaves at index 0. *)
Definition array_ok (s : BuilderArray.mustache__builder_stack_s) : Prop :=
  Z.of_nat (List.length (BuilderArray.stack s)) = MUSTACHE_NESTING_LIMIT
  /\ (0 <= BuilderArray.index s < MUSTACHE_NESTING_LIMIT
      \/ BuilderArray.index s = UINT16_MAX).

(** The turn with the entries in use only. *)
Definition turn_in_use {H : Type} (t : array_turn H) : turn H :=
  match t with
  | ArrayNext s h => Next (in_use s) h
  | ArrayGotoUserError h => GotoUserError h
  | ArrayGotoError e h => GotoError e h
  | ArrayTurnStuck w => TurnStuck w
  end.

(** A turn of the builder with its array and the same turn of the builder
    with the entries in use: the same calls and the same end, and the
    array is still in order when the loop goes on. *)
Definition same_turn {H : Type} (a : list event * array_turn H)
    (b : list event * turn H) : Prop :=
  fst a = fst b /\ turn_in_use (snd a) = snd b
  /\ forall s' h', snd a = ArrayNext s' h' -> array_ok s'.

(* ------------------------------------------------------------------ *)
(** ** Notions the properties are stated with *)

(** An event that is a call of one of the four callbacks that return a
    value. *)
Definition is_call (e : event) : Prop :=
  match e with
  | Call _ _ _ _ => True
  | FormattingError _ _ => False
  end.

(** A call that returned -1. *)
Definition aborts (e : event) : Prop :=
  match e with
  | Call _ _ _ r => r = -1
  | FormattingError _ _ => False
  end.

(** The [callable] argument [mustache_build] computes for the section test
    of an instruction. *)
Definition callable_flag (inst : Inst.mustache__instruction_s) : Z :=
  if Inst.tag_eqb (Inst.instruction inst) Inst.MUSTACHE_SECTION_START then 1 else 0.

(** The call [c] is the one [mustache_build] makes for the instruction
    [inst] of the template [m]: the callback that belongs to the kind of
    instruction, with the name the instruction points to and the flag the
    kind stands for. *)
Definition call_at (m : mustache_s) (inst : Inst.mustache__instruction_s)
    (c : callback) : Prop :=
  match c with
  | OnText d l =>
    Inst.instruction inst = Inst.MUSTACHE_WRITE_TEXT
    /\ d = name_of m inst /\ l = Inst.name_len (Inst.data inst)
  | OnArg n l e =>
    n = name_of m inst /\ l = Inst.name_len (Inst.data inst)
    /\ ((Inst.instruction inst = Inst.MUSTACHE_WRITE_ARG /\ e = 1)
        \/ (Inst.instruction inst = Inst.MUSTACHE_WRITE_ARG_UNESCAPED /\ e = 0))
  | OnSectionTest n l k =>
    n = name_of m inst /\ l = Inst.name_len (Inst.data inst)
    /\ k = callable_flag inst
  | OnSectionStart n l _ =>
    n = name_of m inst /\ l = Inst.name_len (Inst.data inst)
  end.

(** What [mustache_section_text] gives a callback that is called while
    [s.pos] is [p]. *)
Definition text_at (m : mustache_s) (p : Z) : text_result :=
  mustache_section_text
    (Some {| Builder.data := m; Builder.pos := p; Builder.stack := [] |}) (Some 0).

(** What the properties need of the events [ev] and the end [t] of a turn
    taken in state [s]: the events are calls; after a call that returned
    -1 the turn ends at [user_error]; each call is the one of the
    instruction at the position it was made at, and sees the section text
    of that position; the template stays. *)
Definition turn_facts {H : Type} (s : Builder.mustache__builder_stack_s)
    (ev : list event) (t : turn H) : Prop :=
  Forall is_call ev
  /\ (Exists aborts ev -> exists h', t = GotoUserError h')
  /\ (forall p v c r,
        In (Call p v c r) ev ->
        exists inst,
          nth_error (instructions (Builder.data s)) (Z.to_nat p) = Some inst
          /\ call_at (Builder.data s) inst c
          /\ view_text v = text_at (Builder.data s) p)
  /\ (forall s' h', t = Next s' h' -> Builder.data s' = Builder.data s).

(** The stack entry [mustache_build] pushes for the section instruction
    [inst] at [s.pos], before the section is tested. *)
Definition entered_frame (s : Builder.mustache__builder_stack_s)
    (inst : Inst.mustache__instruction_s) (top : Builder.mustache__section_stack_frame_s)
  : Builder.mustache__section_stack_frame_s :=
  {| Builder.sec := Builder.sec top;
     Builder.start := Builder.pos s;
     Builder.end_ := Inst.end_ (Inst.data inst);
     Builder.frame := zlength (Builder.stack s);
     Builder.index := 0;
     Builder.count := 1 |}.

Section Turns.
Context {H : Type} (cb : callbacks H).

(** [n] turns of the loop of [mustache_build] from [s], each of which goes
    on to the next: the calls made and where the loop then stands. *)
Fixpoint build_turns (n : nat) (s : Builder.mustache__builder_stack_s) (h : H)
  : option (list event * Builder.mustache__builder_stack_s * H) :=
  match n with
  | O => Some ([], s, h)
  | S n' =>
    match nth_error (instructions (Builder.data s)) (Z.to_nat (Builder.pos s)) with
    | None => None
    | Some inst =>
      match build_step cb s inst h with
      | (ev, Next s' h') =>
        match build_turns n' s' h' with
        | Some (ev', s'', h'') => Some (ev ++ ev', s'', h'')
        | None => None
        end
      | _ => None
      end
    end
  end.

End Turns.

(** The builder state [s] with the template [m] in place of its own. *)
Definition with_template (m : mustache_s) (s : Builder.mustache__builder_stack_s)
  : Builder.mustache__builder_stack_s :=
  {| Builder.data := m; Builder.pos := Builder.pos s; Builder.stack := Builder.stack s |}.

Definition turn_with_template {H : Type} (m : mustache_s) (t : turn H) : turn H :=
  match t with
  | Next s h => Next (with_template m s) h
  | other => other
  end.

(** Two templates with the same instructions whose data segments hold the
    same bytes wherever an instruction points: at each name, and at the
    text of each section start. *)
Definition same_texts (m1 m2 : mustache_s) : Prop :=
  instructions m1 = instructions m2
  /\ forall inst, In inst (instructions m1) ->
       name_of m1 inst = name_of m2 inst
       /\ slice (data_segment m1)
                (Inst.name_pos (Inst.data inst) + Inst.offset (Inst.data inst))
                (Inst.len (Inst.data inst))
          = slice (data_segment m2)
                  (Inst.name_pos (Inst.data inst) + Inst.offset (Inst.data inst))
                  (Inst.len (Inst.data inst)).

(** The body of a tag that names a variable: white space [l], the name
    [n], white space [r].  The name is not empty, begins and ends with a
    byte that is no white space and has no NUL and no [}] in it. *)
Definition tag_body (l n r : bytes) : Prop :=
  Forall (fun c => isspace c = true) l
  /\ Forall (fun c => isspace c = true) r
  /\ n <> []
  /\ isspace (hd 0 n) = false
  /\ isspace (last n 0) = false
  /\ Forall (fun c => c <> 0 /\ c <> 125) n.

(** The tags [{{{x}}}] and [{{&x}}]. *)
Definition triple_mustache (x : bytes) : bytes :=
  [123; 123; 123] ++ x ++ [125; 125; 125].
Definition ampersand (x : bytes) : bytes :=
  [123; 123; 38] ++ x ++ [125; 125].

(** The instruction both tags compile to: the name starts [at] bytes into
    the data and has [n] bytes. *)
Definition write_unescaped (at_ n : Z) : Inst.mustache__instruction_s :=
  {| Inst.instruction := Inst.MUSTACHE_WRITE_ARG_UNESCAPED;
     Inst.data := {| Inst.end_ := 0; Inst.len := 0; Inst.name_pos := at_;
                     Inst.name_len := n; Inst.offset := 0 |} |}.

(** The loader state after a tag was compiled to [inst], the reading
    position of the top entry now at [pos]. *)
Definition after_tag (s : Loader.mustache__loader_stack_s)
    (inst : Inst.mustache__instruction_s) (pos : Z) : Loader.mustache__loader_stack_s :=
  {| Loader.i := Loader.i s ++ [inst];
     Loader.err := Loader.err s;
     Loader.data := Loader.data s;
     Loader.path := Loader.path s;
     Loader.stack :=
       match Loader.stack s with
       | [] => []
       | f :: rest => Loader.set_data_pos f pos :: rest
       end |}.

(** The header [mustache__load_data] writes for a root template [name]
    whose content has [data_len] bytes. *)
Definition root_header (name : bytes) (data_len : Z) : bytes :=
  let header :=
    mustache__data_segment_write
      {| filename := name;
         filename_len := u16 (zlength name);
         inst_start := u32 0;
         next := u32 (0 + data_len + mustache__data_segment_length (zlength name));
         path_len := u16 (path_len_scan name (Z.to_nat (zlength name))) |} in
  header ++ repeat 0 (Z.to_nat (mustache__data_segment_length (zlength name))
                      - List.length header).

(** The instructions of a template that is one variable tag. *)
Definition one_instruction (inst : Inst.mustache__instruction_s)
  : list Inst.mustache__instruction_s :=
  [ {| Inst.instruction := Inst.MUSTACHE_SECTION_START;
       Inst.data := Inst.set_end Inst.zero 2 |};
    inst;
    {| Inst.instruction := Inst.MUSTACHE_SECTION_END; Inst.data := Inst.zero |} ].

(** The loader after the root template [name] with the content [template]
    was taken in by [mustache__load_data]: its stack entry and its state. *)
Definition root_frame_of (name template : bytes) : Loader.frame :=
  {| Loader.data_start := 0;
     Loader.data_pos := 13 + zlength name;
     Loader.data_end := zlength (root_header name (zlength template) ++ template);
     Loader.open_sections := 0;
     Loader.del_start := default_del_start;
     Loader.del_end := default_del_end |}.

Definition loader_at_root (name template : bytes) : Loader.mustache__loader_stack_s :=
  {| Loader.i := [ {| Inst.instruction := Inst.MUSTACHE_SECTION_START;
                      Inst.data := Inst.zero |} ];
     Loader.err := MUSTACHE_OK;
     Loader.data := root_header name (zlength template) ++ template;
     Loader.path := [];
     Loader.stack := [root_frame_of name template] |}.

(* ------------------------------------------------------------------ *)
(** ** Notions of the further properties *)

(** A call after which [mustache_build] goes to [user_error]:
    [mustache_on_text] and [mustache_on_arg] with any result other than 0,
    [mustache_on_section_test] and [mustache_on_section_start] with the
    result -1. *)
Definition stops (e : event) : Prop :=
  match e with
  | Call _ _ (OnText _ _) r => r <> 0
  | Call _ _ (OnArg _ _ _) r => r <> 0
  | Call _ _ (OnSectionTest _ _ _) r => r = -1
  | Call _ _ (OnSectionStart _ _ _) r => r = -1
  | FormattingError _ _ => False
  end.

(** The events of a turn that ends at [user_error] end with a call that
    stops the build; no other call of a turn does. *)
Definition turn_stops {H : Type} (ev : list event) (t : turn H) : Prop :=
  match t with
  | GotoUserError _ =>
    exists ev0 e, ev = ev0 ++ [e] /\ stops e /\ Forall (fun x => ~ stops x) ev0
  | GotoError e _ => e = MUSTACHE_ERR_TOO_DEEP /\ Forall (fun x => ~ stops x) ev
  | _ => Forall (fun x => ~ stops x) ev
  end.

(** A section callback is called for a stack entry that holds the [udata]
    of the entry below it. *)
Definition sees_parent_udata (e : event) : Prop :=
  match e with
  | Call _ v (OnSectionTest _ _ _) _
  | Call _ v (OnSectionStart _ _ _) _ =>
    exists x rest, view_sections v = x :: x :: rest
  | _ => True
  end.

(** [n] turns of the loop of [mustache_load] from [s], each of which goes
    on: where the loader then stands. *)
Fixpoint load_turns (n : nat) (fs : filesystem) (s : Loader.mustache__loader_stack_s)
  : option Loader.mustache__loader_stack_s :=
  match n with
  | O => Some s
  | S n' =>
    match Loader.stack s with
    | [] => None
    | f :: _ =>
      match load_step fs s f with
      | Return r s' => if r =? 0 then load_turns n' fs s' else None
      | Stuck _ => None
      end
    end
  end.

(** Two instructions of the same kind that point to the same name. *)
Definition same_instruction (a b : Inst.mustache__instruction_s) : Prop :=
  Inst.instruction a = Inst.instruction b
  /\ Inst.name_pos (Inst.data a) = Inst.name_pos (Inst.data b)
  /\ Inst.name_len (Inst.data a) = Inst.name_len (Inst.data b)
  /\ Inst.offset (Inst.data a) = Inst.offset (Inst.data b).

(** The instructions [new] are the instructions [old], each of the same
    kind and name as before, and more behind them. *)
Definition grows_from (old new : list Inst.mustache__instruction_s) : Prop :=
  exists kept more, new = kept ++ more /\ Forall2 same_instruction old kept.

(** The loader [s'] has what the loader [s] had: its instructions, and its
    data byte for byte. *)
Definition loader_grows (s s' : Loader.mustache__loader_stack_s) : Prop :=
  grows_from (Loader.i s) (Loader.i s')
  /\ exists more, Loader.data s' = Loader.data s ++ more.

(** The bounds of the arrays of the loader: a delimiter has at most ten
    bytes before its NUL, an entry counts fewer open sections than
    [MUSTACHE_NESTING_LIMIT], and the stack index stays below that limit. *)
Definition frame_ok (f : Loader.frame) : Prop :=
  zlength (Loader.del_start f) < MUSTACHE_DELIMITER_LENGTH_LIMIT
  /\ zlength (Loader.del_end f) < MUSTACHE_DELIMITER_LENGTH_LIMIT
  /\ 0 <= Loader.open_sections f < MUSTACHE_NESTING_LIMIT.

Definition loader_ok (s : Loader.mustache__loader_stack_s) : Prop :=
  zlength (Loader.stack s) < MUSTACHE_NESTING_LIMIT
  /\ Forall frame_ok (Loader.stack s).

(** The instruction for text: [n] bytes that start [at] bytes into the
    data. *)
Definition write_text (at_ n : Z) : Inst.mustache__instruction_s :=
  {| Inst.instruction := Inst.MUSTACHE_WRITE_TEXT;
     Inst.data := {| Inst.end_ := 0; Inst.len := 0; Inst.name_pos := at_;
                     Inst.name_len := n; Inst.offset := 0 |} |}.

(** Text in which the scan for [{{] passes over every byte: no NUL and no
    [{]. *)
Definition plain_text (t : bytes) : Prop := Forall (fun c => c <> 0 /\ c <> 123) t.

(** The inside of a tag in which the scan for [}}] passes over every byte:
    no NUL and no [}]. *)
Definition tag_inside (b : bytes) : Prop := Forall (fun c => c <> 0 /\ c <> 125) b.

(** The loader [s] after the text of [n] bytes at [at_] was compiled, when
    there is any; the instruction has 16 bits for the length. *)
Definition with_text (s : Loader.mustache__loader_stack_s) (at_ n : Z)
  : Loader.mustache__loader_stack_s :=
  if n =? 0 then s
  else Loader.set_i s (Loader.i s ++ [write_text at_ (u16 n)]).

(** The instruction a section tag compiles to: the name of [n] bytes at
    [at_], and the text of the section [off] bytes behind the name's first
    byte. *)
Definition section_start (inverted : bool) (at_ n off : Z) : Inst.mustache__instruction_s :=
  {| Inst.instruction := if inverted then Inst.MUSTACHE_SECTION_START_INV
                         else Inst.MUSTACHE_SECTION_START;
     Inst.data := {| Inst.end_ := 0; Inst.len := 0; Inst.name_pos := at_;
                     Inst.name_len := n; Inst.offset := off |} |}.

(** The template [{{#x}}body{{/y}}]. *)
Definition section_template (x body y : bytes) : bytes :=
  [123; 123; 35] ++ x ++ [125; 125] ++ body ++ [123; 123; 47] ++ y ++ [125; 125].

(** The errors a load can fail with; [MUSTACHE_ERR_UNKNOWN] is the error of
    a file that [stat] finds and [open] or [pread] cannot read. *)
Definition load_error (e : mustache_error_en) : Prop :=
  match e with
  | MUSTACHE_ERR_TOO_DEEP
  | MUSTACHE_ERR_CLOSURE_MISMATCH
  | MUSTACHE_ERR_FILE_NOT_FOUND
  | MUSTACHE_ERR_FILE_TOO_BIG
  | MUSTACHE_ERR_FILE_NAME_TOO_LONG
  | MUSTACHE_ERR_FILE_NAME_TOO_SHORT
  | MUSTACHE_ERR_DELIMITER_TOO_LONG
  | MUSTACHE_ERR_UNKNOWN => True
  | _ => False
  end.

(* ------------------------------------------------------------------ *)
(** ** Sample templates and files *)

Definition no_files : filesystem := fun _ => None.

(** A folder that holds the file [p] with the content [hi]. *)
Definition files_p : filesystem :=
  fun path => if bytes_eqb path (bytes_of_string "p")
              then Some (bytes_of_string "hi") else None.

(** A folder that holds [p] and [q]. *)
Definition files_pq : filesystem :=
  fun path => if bytes_eqb path (bytes_of_string "p")
              then Some (bytes_of_string "hi")
              else if bytes_eqb path (bytes_of_string "q")
              then Some (bytes_of_string "ho") else None.

(** A root template given as data under the name [r]. *)
Definition root_data (template : bytes) : LoadArgs.mustache_load_args_s :=
  {| LoadArgs.filename := bytes_of_string "r"; LoadArgs.data := Some template |}.

(** The header [mustache__load_data] writes for a template [p] that starts
    at instruction 2048 and ends at byte 12319 of the data. *)
Definition header_2048 : mustache__data_segment_s :=
  {| filename := bytes_of_string "p";
     inst_start := 2048;
     next := 12319;
     filename_len := 1;
     path_len := 0 |}.

(** The tag [{{a}}] 2047 times, a partial tag for [p] and 2048 bytes of
    text. *)
Definition template_2048 : bytes :=
  List.concat (repeat (bytes_of_string "{{a}}") (Z.to_nat 2047))
  ++ bytes_of_string "{{>p}}" ++ repeat 120 (Z.to_nat 2048).

(** The partial tag for [p] and 2048 bytes of text. *)
Definition template_two : bytes :=
  bytes_of_string "{{>p}}" ++ repeat 120 (Z.to_nat 2048).

(** A variable tag whose name has 65536 bytes. *)
Definition template_long_name : bytes :=
  bytes_of_string "{{" ++ repeat 120 (Z.to_nat 65536) ++ bytes_of_string "}}".

(** What the properties below look at in a result of [mustache_load]: for
    a template that was returned, [*err], the number of instructions, the
    length of the data segment and the instructions at the positions [ps]. *)
Definition inspect (r : load_result) (ps : list nat)
  : option (mustache_error_en * Z * Z * list (option Inst.mustache__instruction_s)) :=
  match r with
  | Loaded m e =>
    Some (e, intruction_count m, data_length m,
          map (nth_error (instructions m)) ps)
  | _ => None
  end.

(** A client for the examples.  Its state is the output written so far;
    text is written as it is, an argument as its name between [<] and [>]
    (or [[] and []] when unescaped); every section test returns [test];
    the start of a repetition stores its index as the section's [udata1]. *)
Definition sample_callbacks (test : Z) : callbacks bytes :=
  {| mustache_on_arg := fun h v name _ escape =>
       (0, hd (Builder.mk_section 0 0) (view_sections v),
        h ++ (if escape =? 0 then [91] else [60]) ++ name
          ++ (if escape =? 0 then [93] else [62]));
     mustache_on_text := fun h v data _ =>
       (0, hd (Builder.mk_section 0 0) (view_sections v), h ++ data);
     mustache_on_section_test := fun h v _ _ _ =>
       (test, hd (Builder.mk_section 0 0) (view_sections v), h);
     mustache_on_section_start := fun h v _ _ index =>
       (0, Builder.mk_section index
             (Builder.udata2 (hd (Builder.mk_section 0 0) (view_sections v))), h);
     mustache_on_formatting_error := fun h _ _ => h |}.

(** The template of a successful load, else the empty template. *)
Definition loaded (r : load_result) : mustache_s :=
  match r with
  | Loaded m _ => m
  | _ => {| instructions := []; data_segment := [] |}
  end.

(** [{{^missing}}none{{/missing}}], compiled. *)
Definition sample_inverted : mustache_s :=
  loaded (mustache_load no_files
            (root_data (bytes_of_string "{{^missing}}none{{/missing}}")) 10).

(** [{{#a}}x{{/a}}{{^b}}y{{/b}}], compiled. *)
Definition sample_sections : mustache_s :=
  loaded (mustache_load no_files
            (root_data (bytes_of_string "{{#a}}x{{/a}}{{^b}}y{{/b}}")) 20).

Definition sample_args (m : mustache_s) : mustache_build_args_s :=
  {| mustache := Some m; arg_udata1 := 7; arg_udata2 := 8 |}.

(** The builder of [sample_inverted] when it reaches the inverted section
    at instruction 1. *)
Definition sample_inverted_state : Builder.mustache__builder_stack_s :=
  {| Builder.data := sample_inverted;
     Builder.pos := 1;
     Builder.stack :=
       [ {| Builder.sec := Builder.mk_section 7 8; Builder.start := 0;
            Builder.end_ := 4; Builder.index := 1; Builder.count := 1;
            Builder.frame := 1 |};
         root_frame sample_inverted 7 8 ] |}.

(** Load the template [template] (given as data under the name [r]) and
    build it with the sample client: the error of the load and, for a
    template that was loaded, what the build returns, its error and the
    output written. *)
Definition render (fs : filesystem) (test : Z) (template : string) (fuel : nat)
  : option (mustache_error_en * option (Z * mustache_error_en * bytes)) :=
  match mustache_load fs (root_data (bytes_of_string template)) fuel with
  | Loaded m e =>
    match mustache_build (sample_callbacks test) (sample_args m) fuel [] with
    | (_, Built r e' out) => Some (e, Some (r, e', out))
    | _ => None
    end
  | LoadFailed e => Some (e, None)
  | _ => None
  end.

(** A client whose [mustache_on_text] returns 5 and writes nothing; its
    section tests return 1. *)
Definition sample_stopping : callbacks bytes :=
  {| mustache_on_arg := fun h v _ _ _ =>
       (0, hd (Builder.mk_section 0 0) (view_sections v), h);
     mustache_on_text := fun h v _ _ =>
       (5, hd (Builder.mk_section 0 0) (view_sections v), h);
     mustache_on_section_test := fun h v _ _ _ =>
       (1, hd (Builder.mk_section 0 0) (view_sections v), h);
     mustache_on_section_start := fun h v _ _ _ =>
       (0, hd (Builder.mk_section 0 0) (view_sections v), h);
     mustache_on_formatting_error := fun h _ _ => h |}.

(** The section a call was made for, for the first call of a trace. *)
Definition first_view (ev : list event) : section_view :=
  match ev with
  | Call _ v _ _ :: _ => v
  | _ => {| view_sections := []; view_text := TextReturn None 0 |}
  end.

(** The loader after [mustache__load_data] took in the template [t] under
    the name [r], its stack entry and the header of the template. *)
Definition sample_root (t : string) : Loader.mustache__loader_stack_s :=
  loader_at_root (bytes_of_string "r") (bytes_of_string t).
Definition sample_root_frame (t : string) : Loader.frame :=
  root_frame_of (bytes_of_string "r") (bytes_of_string t).
Definition sample_header (t : string) : bytes :=
  root_header (bytes_of_string "r") (zlength (bytes_of_string t)).

(** That loader [n] turns of the loading loop later. *)
Definition sample_after (n : nat) (t : string) : Loader.mustache__loader_stack_s :=
  match load_turns n no_files (sample_root t) with
  | Some s => s
  | None => loader_start
  end.

(** A data buffer of thirteen zero bytes: one header whose [next] is 0. *)
Definition sample_zero_header : Loader.mustache__loader_stack_s :=
  Loader.set_data loader_start (repeat 0 13).

(** The loader that has read the opening tag and the text of
    [{{#a}}x{{/a}}], and the same after the case of the closing tag, which
    begins at byte 21 of the data. *)
Definition sample_open : Loader.mustache__loader_stack_s :=
  sample_after 1 "{{#a}}x{{/a}}".
Definition sample_open_frame : Loader.frame :=
  hd (sample_root_frame "") (Loader.stack sample_open).
Definition sample_closed : Loader.mustache__loader_stack_s :=
  match tag_section_end sample_open sample_open_frame 21 23 25 with
  | Return _ s' => s'
  | Stuck _ => loader_start
  end.








(** What the array of the builder may hold when [mustache_build] is
    entered: [n] in every field of every entry. *)
Definition sample_memory (n : Z) : list Builder.mustache__section_stack_frame_s :=
  repeat {| Builder.sec := Builder.mk_section n n; Builder.start := n;
            Builder.end_ := n; Builder.index := n; Builder.count := n;
            Builder.frame := n |} (Z.to_nat MUSTACHE_NESTING_LIMIT).

(* ================================================================== *)
(** * Properties *)

(* ------------------------------------------------------------------ *)
(** ** Bits of the header encoding *)

(** One byte of the packing: bits [k .. k+7] of [x], put back at [k]. *)
Lemma testbit_window (x k n : Z) :
  0 <= k -> 0 <= n ->
  Z.testbit (Z.shiftl (Z.land 255 (Z.shiftr x k)) k) n
  = (k <=? n) && (n <? k + 8) && Z.testbit x n.
Proof.
  intros Hk Hn. change 255 with (Z.ones 8).
  destruct (Z.leb_spec k n) as [Hle | Hlt].
  - rewrite Z.shiftl_spec, Z.land_spec, Z.shiftr_spec by lia.
    rewrite Z.testbit_ones_nonneg by lia.
    replace (n - k + k) with n by lia.
    destruct (Z.ltb_spec (n - k) 8), (Z.ltb_spec n (k + 8)); try lia; reflexivity.
  - rewrite Z.shiftl_spec_low by lia. reflexivity.
Qed.

Lemma testbit_low_byte (x n : Z) :
  0 <= n -> Z.testbit (Z.land 255 x) n = (n <? 8) && Z.testbit x n.
Proof.
  intros Hn. change 255 with (Z.ones 8).
  rewrite Z.land_spec, Z.testbit_ones_nonneg by lia. reflexivity.
Qed.

(** The packing of a 32-bit field keeps its low eleven bits. *)
Lemma pack32_low_bits (x : Z) :
  Z.lor (Z.lor (Z.lor (Z.land 255 x) (Z.shiftl (Z.land 255 (Z.shiftr x 1)) 1))
               (Z.shiftl (Z.land 255 (Z.shiftr x 2)) 2))
        (Z.shiftl (Z.land 255 (Z.shiftr x 3)) 3)
  = x mod 2048.
Proof.
  change 2048 with (2 ^ 11). rewrite <- Z.land_ones by lia.
  apply Z.bits_inj'. intros n Hn.
  rewrite !Z.lor_spec, !testbit_window, testbit_low_byte by lia.
  rewrite Z.land_spec, Z.testbit_ones_nonneg by lia.
  destruct (Z.testbit x n); rewrite ?Bool.andb_false_r; [| reflexivity].
  rewrite !Bool.andb_true_r. simpl.
  destruct (Z.ltb_spec n 8), (Z.leb_spec 1 n), (Z.ltb_spec n 9),
    (Z.leb_spec 2 n), (Z.ltb_spec n 10), (Z.leb_spec 3 n), (Z.ltb_spec n 11);
    try lia; reflexivity.
Qed.

(** The packing of a 16-bit field keeps its low nine bits. *)
Lemma pack16_low_bits (x : Z) :
  Z.lor (Z.land 255 x) (Z.shiftl (Z.land 255 (Z.shiftr x 1)) 1) = x mod 512.
Proof.
  change 512 with (2 ^ 9). rewrite <- Z.land_ones by lia.
  apply Z.bits_inj'. intros n Hn.
  rewrite !Z.lor_spec, !testbit_window, testbit_low_byte by lia.
  rewrite Z.land_spec, Z.testbit_ones_nonneg by lia.
  destruct (Z.testbit x n); rewrite ?Bool.andb_false_r; [| reflexivity].
  rewrite !Bool.andb_true_r. simpl.
  destruct (Z.ltb_spec n 8), (Z.leb_spec 1 n), (Z.ltb_spec n 9);
    try lia; reflexivity.
Qed.

(* ------------------------------------------------------------------ *)
(** ** Reading the data buffer *)

Lemma zlength_app {A} (a b : list A) : zlength (a ++ b) = zlength a + zlength b.
Proof. unfold zlength. rewrite length_app. lia. Qed.

Lemma zlength_cons {A} (x : A) (l : list A) : zlength (x :: l) = zlength l + 1.
Proof. unfold zlength. cbn [List.length]. lia. Qed.

Lemma zlength_nonneg {A} (l : list A) : 0 <= zlength l.
Proof. unfold zlength. lia. Qed.

Lemma skipn_zlength_app (a b : bytes) (k : Z) :
  0 <= k ->
  skipn (Z.to_nat (zlength a + k)) (a ++ b) = skipn (Z.to_nat k) b.
Proof.
  intros Hk. unfold zlength. rewrite Z2Nat.inj_add by lia. rewrite Nat2Z.id.
  rewrite skipn_app. rewrite skipn_all2 by lia.
  replace (List.length a + Z.to_nat k - List.length a)%nat with (Z.to_nat k) by lia.
  reflexivity.
Qed.

Lemma byte_at_app (a b : bytes) (k : Z) :
  0 <= k -> byte_at (a ++ b) (zlength a + k) = byte_at b k.
Proof.
  intros Hk. unfold byte_at, zlength.
  destruct (Z.ltb_spec (Z.of_nat (List.length a) + k) 0); [lia |].
  destruct (Z.ltb_spec k 0); [lia |].
  rewrite Z2Nat.inj_add by lia. rewrite Nat2Z.id.
  rewrite app_nth2 by lia. f_equal. lia.
Qed.

Lemma slice_app (a b c : bytes) :
  slice (a ++ b ++ c) (zlength a) (zlength b) = b.
Proof.
  unfold slice, zlength. rewrite !Nat2Z.id.
  rewrite skipn_app, skipn_all2, Nat.sub_diag by lia. cbn [skipn app].
  rewrite firstn_app, firstn_all, Nat.sub_diag. cbn [firstn]. apply app_nil_r.
Qed.

(** The first occurrence of [}}] behind bytes that have neither NUL nor
    [}] among them. *)
Lemma strstr_from_closing (u tail : bytes) (acc : Z) :
  Forall (fun c => c <> 0 /\ c <> 125) u ->
  strstr_from (u ++ 125 :: 125 :: tail) [125; 125] acc = Some (acc + zlength u).
Proof.
  intros F. revert acc. induction F as [| c u [H0 H1] F IH]; intros acc.
  - cbn. f_equal. unfold zlength. cbn. lia.
  - cbn [app strstr_from prefix_match].
    rewrite (proj2 (Z.eqb_neq c 0) H0).
    replace (125 =? c) with false
      by (symmetry; apply Z.eqb_neq; congruence).
    cbn [andb]. rewrite IH. f_equal. rewrite zlength_cons. lia.
Qed.

Lemma skip_ws_fwd_from_spaces (l rest : bytes) (c pos : Z) :
  Forall (fun b => isspace b = true) l -> isspace c = false ->
  skip_ws_fwd_from (l ++ c :: rest) pos = pos + zlength l.
Proof.
  intros F Hc. revert pos. induction F as [| b l Hb F IH]; intros pos.
  - cbn. rewrite Hc. unfold zlength. cbn. lia.
  - cbn [app skip_ws_fwd_from]. rewrite Hb, IH, zlength_cons. lia.
Qed.

Lemma skip_ws_bwd_from_eq (data : bytes) (n : nat) :
  skip_ws_bwd_from data n
  = if isspace (nth n data 0)
    then match n with
         | O => -1
         | S m => skip_ws_bwd_from data m
         end
    else Z.of_nat n.
Proof. destruct n; reflexivity. Qed.

Lemma skip_ws_bwd_from_spaces (a r b : bytes) (c : Z) :
  Forall (fun x => isspace x = true) r -> isspace c = false ->
  forall k, (k <= List.length r)%nat ->
  skip_ws_bwd_from ((a ++ [c]) ++ r ++ b) (List.length a + k) = zlength a.
Proof.
  intros F Hc. induction k as [| k IH]; intros Hk.
  - rewrite Nat.add_0_r, skip_ws_bwd_from_eq.
    rewrite app_nth1 by (rewrite ?length_app; cbn [List.length]; lia).
    rewrite app_nth2, Nat.sub_diag by lia. cbn [nth]. rewrite Hc. reflexivity.
  - replace (List.length a + S k)%nat with (S (List.length a + k)) by lia.
    rewrite skip_ws_bwd_from_eq.
    rewrite app_nth2 by (rewrite ?length_app; cbn [List.length]; lia).
    rewrite app_nth1 by (rewrite ?length_app; cbn [List.length]; lia).
    rewrite length_app. cbn [List.length].
    replace (S (List.length a + k) - (List.length a + 1))%nat with k by lia.
    assert (Hs : isspace (nth k r 0) = true).
    { rewrite Forall_forall in F. apply F. apply nth_In. lia. }
    rewrite Hs. apply IH. lia.
Qed.

Lemma nth_error_update_nth {A} (f : A -> A) (l : list A) : forall n x,
  nth_error l n = Some x -> nth_error (update_nth n f l) n = Some (f x).
Proof.
  induction l as [| a l IH]; intros [| n] x E; cbn [nth_error] in E;
    try discriminate; unfold update_nth; cbn [firstn skipn app nth_error].
  - inversion E; reflexivity.
  - apply (IH n x E).
Qed.

Lemma length_update_nth {A} (f : A -> A) (l : list A) (n : nat) :
  List.length (update_nth n f l) = List.length l.
Proof.
  unfold update_nth. rewrite <- (firstn_skipn n l) at 3. rewrite !length_app.
  destruct (skipn n l); reflexivity.
Qed.

(* ------------------------------------------------------------------ *)
(** ** The data segment header *)

(** Reading a header whose twelve bytes are known. *)
Lemma data_segment_read_bytes (b0 b1 b2 b3 b4 b5 b6 b7 b8 b9 b10 b11 : Z) (rest : bytes) :
  mustache__data_segment_read
    (b0 :: b1 :: b2 :: b3 :: b4 :: b5 :: b6 :: b7 :: b8 :: b9 :: b10 :: b11 :: rest)
  = {| filename := rest;
       inst_start := u32 (Z.lor (Z.lor (Z.lor b0 (Z.shiftl b1 1)) (Z.shiftl b2 2))
                                (Z.shiftl b3 3));
       next := u32 (Z.lor (Z.lor (Z.lor b4 (Z.shiftl b5 1)) (Z.shiftl b6 2))
                          (Z.shiftl b7 3));
       filename_len := u16 (Z.lor b8 (Z.shiftl b9 1));
       path_len := u16 (Z.lor b10 (Z.shiftl b11 1)) |}.
Proof. reflexivity. Qed.

(** Writing a header and reading it back keeps the low eleven bits of the
    32-bit fields and the low nine bits of the 16-bit fields. *)
Lemma data_segment_read_write (seg : mustache__data_segment_s) :
  let back := mustache__data_segment_read (mustache__data_segment_write seg) in
  inst_start back = inst_start seg mod 2048
  /\ next back = next seg mod 2048
  /\ filename_len back = filename_len seg mod 512
  /\ path_len back = path_len seg mod 512.
Proof.
  unfold mustache__data_segment_write. cbn [app].
  rewrite data_segment_read_bytes. cbn [inst_start next filename_len path_len].
  rewrite !pack32_low_bits, !pack16_low_bits. unfold u32, u16.
  repeat split.
  - rewrite Z.mod_small; [reflexivity |].
    pose proof (Z.mod_pos_bound (inst_start seg) 2048); lia.
  - rewrite Z.mod_small; [reflexivity |].
    pose proof (Z.mod_pos_bound (next seg) 2048); lia.
  - rewrite Z.mod_small; [reflexivity |].
    pose proof (Z.mod_pos_bound (filename_len seg) 512); lia.
  - rewrite Z.mod_small; [reflexivity |].
    pose proof (Z.mod_pos_bound (path_len seg) 512); lia.
Qed.

(** A header whose fields are below 2048 and 512 is read back as written. *)
Lemma data_segment_roundtrip_small (seg : mustache__data_segment_s) :
  0 <= inst_start seg < 2048 -> 0 <= next seg < 2048 ->
  0 <= filename_len seg < 512 -> 0 <= path_len seg < 512 ->
  let back := mustache__data_segment_read (mustache__data_segment_write seg) in
  inst_start back = inst_start seg /\ next back = next seg
  /\ filename_len back = filename_len seg /\ path_len back = path_len seg.
Proof.
  intros H1 H2 H3 H4 back.
  destruct (data_segment_read_write seg) as (E1 & E2 & E3 & E4).
  subst back. rewrite E1, E2, E3, E4.
  rewrite !Z.mod_small by lia. repeat split.
Qed.

(** C2 (the code differs): the header of a template that starts at
    instruction 2048, with all four fields within their 32-bit and 16-bit
    ranges, is not read back as it was written: [inst_start] comes back as 0
    and [next] as 31. *)
Theorem data_segment_roundtrip_fails :
  let back := mustache__data_segment_read (mustache__data_segment_write header_2048) in
  0 <= inst_start header_2048 < 2 ^ 32 /\ 0 <= next header_2048 < 2 ^ 32
  /\ 0 <= filename_len header_2048 < 2 ^ 16 /\ 0 <= path_len header_2048 < 2 ^ 16
  /\ inst_start back = 0 /\ inst_start back <> inst_start header_2048
  /\ next back = 31 /\ next back <> next header_2048
  /\ filename_len back = 1 /\ path_len back = 0.
Proof.
  vm_compute. repeat split; congruence.
Qed.

(* ------------------------------------------------------------------ *)
(** ** The chain of headers *)

(** A decoded [next] is not negative, so a walk that does not read a zero
    [next] moves on by at least one byte each turn. *)
Lemma next_nonneg (data : bytes) :
  0 <= next (mustache__data_segment_read data).
Proof.
  unfold mustache__data_segment_read, next, u32.
  apply Z.mod_pos_bound. lia.
Qed.

(** The walk stops before a fuel of the data's length is used up: more
    fuel gives the same walk, and [WalkStuck Hangs] of
    [mustache__file_is_loaded] is a header whose [next] reads as zero. *)
Lemma segment_walk_fuel (fuel k : nat) (data name : bytes) (name_len off : Z) :
  zlength data - off <= Z.of_nat fuel ->
  segment_walk (S (fuel + k)) data name name_len off
  = segment_walk (S fuel) data name name_len off.
Proof.
  revert off. induction fuel as [| fuel IH]; intros off Hoff.
  - cbn [segment_walk Nat.add].
    destruct (off <? zlength data) eqn:E; [| reflexivity].
    apply Z.ltb_lt in E. cbn in Hoff. lia.
  - change (S (S fuel + k)) with (S (S (fuel + k))).
    remember (S (fuel + k)) as a eqn:Ea. remember (S fuel) as b eqn:Eb.
    cbn [segment_walk].
    destruct (off <? zlength data); [| reflexivity].
    destruct (zlength data + 1 <? off + 12); [reflexivity |].
    destruct (_ && _); [reflexivity |].
    destruct (next _ =? 0) eqn:En; [reflexivity |].
    apply Z.eqb_neq in En.
    pose proof (next_nonneg (skipn (Z.to_nat off) data)) as Hn.
    subst a b.
    rewrite IH by lia. reflexivity.
Qed.

Lemma file_is_loaded_fuel (k : nat) (data name : bytes) (name_len : Z) :
  segment_walk (S (List.length data + k)) data name name_len 0
  = segment_walk (S (List.length data)) data name name_len 0.
Proof.
  apply segment_walk_fuel. unfold zlength. lia.
Qed.

(** The root template [{{>p}}] with the file [p] compiles to a data
    segment of 36 bytes with two headers, at 0 and at 20.  The walk of
    [mustache__file_is_loaded] from offset 0 reads both, and adding the
    second header's [next] (36, the end of the data counted from its start)
    to the offset 20 it stops at 56, not at the data's length. *)
Lemma header_walk_overshoots :
  exists m,
    mustache_load files_p (root_data (bytes_of_string "{{>p}}")) 10
    = Loaded m MUSTACHE_OK
    /\ data_length m = 36
    /\ next (mustache__data_segment_read (data_segment m)) = 20
    /\ next (mustache__data_segment_read (skipn 20 (data_segment m))) = 36
    /\ segment_walk 37 (data_segment m) [] (-1) 0 = ([0; 20], 56, WalkMissing)
    /\ 56 <> data_length m.
Proof.
  eexists. split; [vm_compute; reflexivity |].
  vm_compute. repeat split; congruence.
Qed.

(** C1 (the code differs): [template_two] with the file [p] compiles to a
    data segment of 2084 bytes with two headers, the root's at 0 and the
    one of [p] at 2068.  The root's [next], written as 2068, is read back
    as 20, so no walk by the decoded [next] comes to the header of [p]; the
    walk of [mustache__file_is_loaded] reads headers at 0, 20, 1036 and 2052
    and stops at 3068, not at the data's length. *)
Theorem header_walk_misses_template :
  exists m,
    mustache_load files_p (root_data template_two) 10 = Loaded m MUSTACHE_OK
    /\ data_length m = 2084
    /\ (let seg := mustache__data_segment_read (skipn 2068 (data_segment m)) in
        inst_start seg = 1 /\ filename_len seg = 1
        /\ firstn 1 (filename seg) = bytes_of_string "p")
    /\ next (mustache__data_segment_read (data_segment m)) = 20
    /\ segment_walk 2085 (data_segment m) [] (-1) 0
       = ([0; 20; 1036; 2052], 3068, WalkMissing)
    /\ ~ In 2068 [0; 20; 1036; 2052]
    /\ 3068 <> data_length m.
Proof.
  eexists. split; [vm_compute; reflexivity |].
  vm_compute. repeat split; try congruence.
  intros [X | [X | [X | [X | []]]]]; discriminate.
Qed.

(** With a third template the walk passes over its header: [q] is the
    third template here, its header at 48 is not read, and the second
    [{{>q}}] loads the file again (a third [MUSTACHE_SECTION_START] at
    instruction 7) where the second [{{>p}}] of the next lemma jumps. *)
Lemma third_template_is_not_found :
  exists m,
    mustache_load files_pq (root_data (bytes_of_string "{{>p}}{{>q}}{{>q}}")) 20
    = Loaded m MUSTACHE_OK
    /\ data_length m = 80
    /\ fst (fst (segment_walk 81 (data_segment m) [] (-1) 0)) = [0; 32]
    /\ map Inst.instruction (instructions m)
       = [Inst.MUSTACHE_SECTION_START;
          Inst.MUSTACHE_SECTION_START; Inst.MUSTACHE_WRITE_TEXT; Inst.MUSTACHE_SECTION_END;
          Inst.MUSTACHE_SECTION_START; Inst.MUSTACHE_WRITE_TEXT; Inst.MUSTACHE_SECTION_END;
          Inst.MUSTACHE_SECTION_START; Inst.MUSTACHE_WRITE_TEXT; Inst.MUSTACHE_SECTION_END;
          Inst.MUSTACHE_SECTION_END].
Proof.
  eexists. split; [vm_compute; reflexivity |].
  vm_compute. repeat split.
Qed.

Lemma second_template_is_found :
  exists m,
    mustache_load files_pq (root_data (bytes_of_string "{{>p}}{{>p}}")) 20
    = Loaded m MUSTACHE_OK
    /\ map Inst.instruction (instructions m)
       = [Inst.MUSTACHE_SECTION_START;
          Inst.MUSTACHE_SECTION_START; Inst.MUSTACHE_WRITE_TEXT; Inst.MUSTACHE_SECTION_END;
          Inst.MUSTACHE_SECTION_GOTO;
          Inst.MUSTACHE_SECTION_END].
Proof.
  eexists. split; [vm_compute; reflexivity |].
  vm_compute. reflexivity.
Qed.

(* ------------------------------------------------------------------ *)
(** ** Sections of a compiled template *)

(** C3 (the code differs): [template_2048] with the file [p] compiles, to
    2053 instructions.  The template [p] starts at instruction 2048, its
    header is read back with [inst_start] 0, so the end of [p] is stored into
    instruction 0 and the [MUSTACHE_SECTION_START] at 2048 keeps [end] 0: not
    above 2048, and instruction 0 is no [MUSTACHE_SECTION_END]. *)
Theorem section_start_without_end :
  exists i2048 i0,
    inspect (mustache_load files_p (root_data template_2048) 3000) [2048%nat; 0%nat]
    = Some (MUSTACHE_OK, 2053, 12319, [Some i2048; Some i0])
    /\ Inst.instruction i2048 = Inst.MUSTACHE_SECTION_START
    /\ Inst.end_ (Inst.data i2048) = 0
    /\ ~ (Inst.end_ (Inst.data i2048) > 2048)
    /\ Inst.instruction i0 <> Inst.MUSTACHE_SECTION_END.
Proof.
  eexists. eexists.
  split; [vm_compute; reflexivity |].
  cbn. repeat split; try congruence. lia.
Qed.

(* ------------------------------------------------------------------ *)
(** ** Long names *)

(** C8 (the code differs): a variable tag with a name of 65536 bytes
    compiles, with [MUSTACHE_OK], to three instructions; the
    [MUSTACHE_WRITE_ARG] keeps the name's length cut to 16 bits, 0. *)
Theorem long_name_is_accepted :
  zlength template_long_name = 65540
  /\ inspect (mustache_load no_files (root_data template_long_name) 5)
             [0%nat; 1%nat; 2%nat]
     = Some (MUSTACHE_OK, 3, 65554,
             [ Some {| Inst.instruction := Inst.MUSTACHE_SECTION_START;
                       Inst.data := Inst.set_end Inst.zero 2 |};
               Some {| Inst.instruction := Inst.MUSTACHE_WRITE_ARG;
                       Inst.data := {| Inst.end_ := 0; Inst.len := 0;
                                       Inst.name_pos := 16; Inst.name_len := 0;
                                       Inst.offset := 0 |} |};
               Some {| Inst.instruction := Inst.MUSTACHE_SECTION_END;
                       Inst.data := Inst.zero |} ]).
Proof.
  split; vm_compute; reflexivity.
Qed.

(* ------------------------------------------------------------------ *)
(** ** The text of a section *)

(** Where [mustache_section_text] gives NULL and 0: a NULL section, or an
    instruction at [s.pos] other than [MUSTACHE_SECTION_START], with a
    variable to store the length in. *)
Lemma section_text_null (section : option Builder.mustache__builder_stack_s)
    (old : Z) :
  match section with
  | None => True
  | Some s =>
    exists inst,
      nth_error (instructions (Builder.data s)) (Z.to_nat (Builder.pos s)) = Some inst
      /\ Inst.instruction inst <> Inst.MUSTACHE_SECTION_START
  end ->
  mustache_section_text section (Some old) = TextReturn None 0.
Proof.
  destruct section as [s |]; [| reflexivity].
  intros (inst & Hi & Ht). unfold mustache_section_text. rewrite Hi.
  destruct (Inst.instruction inst); try reflexivity. congruence.
Qed.

(** C10 (the code differs): with a NULL [p_len] the function does not
    return NULL: the label [error] it jumps to stores 0 through [p_len]. *)
Theorem section_text_null_p_len (section : option Builder.mustache__builder_stack_s) :
  mustache_section_text section None = TextStuck NullWrite.
Proof.
  destruct section; reflexivity.
Qed.

(* ------------------------------------------------------------------ *)
(** ** One turn of the builder *)

Ltac inv_pair :=
  repeat match goal with
  | H0 : (_, _) = (_, _) |- _ => inversion H0; subst; clear H0
  end.

Section BuildFacts.
Context {H : Type} (cb : callbacks H).

Lemma turn_facts_nil s (t : turn H) :
  (forall s' h', t = Next s' h' -> Builder.data s' = Builder.data s) ->
  turn_facts s [] t.
Proof.
  intros D. repeat split; auto.
  - intros X; inversion X.
  - intros p v c r [].
Qed.

Lemma turn_facts_cons s p v c r ev (t : turn H) inst :
  (r = -1 -> ev = [] /\ exists h', t = GotoUserError h') ->
  nth_error (instructions (Builder.data s)) (Z.to_nat p) = Some inst ->
  call_at (Builder.data s) inst c ->
  view_text v = text_at (Builder.data s) p ->
  turn_facts s ev t ->
  turn_facts s (Call p v c r :: ev) t.
Proof.
  intros A Hi Hc Hv (F1 & F2 & F3 & F4). repeat split; auto.
  - constructor; [exact I | exact F1].
  - intros X. inversion X as [? ? Y | ? ? Y]; subst.
    + cbn in Y. apply A in Y. apply Y.
    + apply F2, Y.
  - intros p' v' c' r' [X | X].
    + inversion X; subst. exists inst. repeat split; assumption.
    + eapply F3; eauto.
Qed.

Lemma section_loop_facts s h ev t :
  section_loop cb s h = (ev, t) -> turn_facts s ev t.
Proof.
  destruct s as [m p st]. unfold section_loop.
  cbn -[view_of u32 zlength name_of]. intros E.
  destruct st as [| f below]; [inv_pair; apply turn_facts_nil; discriminate |].
  destruct (Builder.index f <? Builder.count f).
  - destruct below as [| parent below'];
      [inv_pair; apply turn_facts_nil; discriminate |].
    destruct (nth_error _ _) as [inst |] eqn:Ei;
      [| inv_pair; apply turn_facts_nil; discriminate].
    destruct (negb _).
    + destruct (mustache_on_section_start _ _ _ _ _ _) as [[r x] h1].
      destruct (r =? -1) eqn:Er; inv_pair.
      * apply turn_facts_cons with (inst := inst);
          [| exact Ei | split; reflexivity | reflexivity
           | apply turn_facts_nil; discriminate].
        intros _. split; [reflexivity | eexists; reflexivity].
      * apply turn_facts_cons with (inst := inst);
          [| exact Ei | split; reflexivity | reflexivity |].
        -- intros ->. discriminate.
        -- apply turn_facts_nil. intros ? ? X; inversion X; reflexivity.
    + inv_pair. apply turn_facts_nil. intros ? ? X; inversion X; reflexivity.
  - inv_pair. apply turn_facts_nil. intros ? ? X; inversion X; reflexivity.
Qed.

Lemma section_enter_facts s inst h ev t :
  nth_error (instructions (Builder.data s)) (Z.to_nat (Builder.pos s)) = Some inst ->
  section_enter cb s inst h = (ev, t) -> turn_facts s ev t.
Proof.
  destruct s as [m p st]. unfold section_enter.
  cbn -[section_loop view_of u32 zlength name_of]. intros Hi E.
  destruct st as [| top below]; [inv_pair; apply turn_facts_nil; discriminate |].
  destruct (MUSTACHE_NESTING_LIMIT <=? _);
    [inv_pair; apply turn_facts_nil; discriminate |].
  destruct (negb _).
  - destruct (mustache_on_section_test _ _ _ _ _ _) as [[val x] h1].
    destruct (val =? -1) eqn:Ev.
    + inv_pair.
      apply turn_facts_cons with (inst := inst);
        [| exact Hi | repeat split | reflexivity
         | apply turn_facts_nil; discriminate].
      intros _. split; [reflexivity | eexists; reflexivity].
    + match type of E with
      | (let '(ev', t) := section_loop cb ?s2 ?h2 in _) = _ =>
        destruct (section_loop cb s2 h2) as [ev' t'] eqn:El;
        apply section_loop_facts in El
      end.
      inv_pair. apply turn_facts_cons with (inst := inst);
        [| exact Hi | repeat split | reflexivity | exact El].
      intros ->. discriminate.
  - apply section_loop_facts in E. exact E.
Qed.

Lemma build_step_facts s inst h ev t :
  nth_error (instructions (Builder.data s)) (Z.to_nat (Builder.pos s)) = Some inst ->
  build_step cb s inst h = (ev, t) -> turn_facts s ev t.
Proof.
  unfold build_step. intros Hi E.
  destruct (Inst.instruction inst) eqn:Et;
    try (apply (section_enter_facts _ _ _ _ _ Hi) in E; exact E);
    try (apply section_loop_facts in E; exact E).
  all: destruct s as [m p st]; cbn -[view_of u32 zlength name_of] in E, Hi;
    destruct st as [| top below]; [inv_pair; apply turn_facts_nil; discriminate |].
  all: match type of E with
       | context [mustache_on_text ?a ?b ?c ?d ?e] =>
         destruct (mustache_on_text a b c d e) as [[r x] h1]
       | context [mustache_on_arg ?a ?b ?c ?d ?e ?f] =>
         destruct (mustache_on_arg a b c d e f) as [[r x] h1]
       end;
    destruct (r =? 0) eqn:Er; cbn -[view_of u32 zlength name_of] in E; inv_pair;
    (apply turn_facts_cons with (inst := inst);
       [| exact Hi | cbn; repeat split; auto | reflexivity |]);
    try (intros ->; discriminate);
    try (intros _; split; [reflexivity | eexists; reflexivity]);
    apply turn_facts_nil; try discriminate;
    intros ? ? X; inversion X; reflexivity.
Qed.

(** The whole loop: its events are calls, a call that returned -1 is
    followed by [user_error], and each call is the one of the instruction
    at the position it was made at. *)
Lemma build_loop_facts fuel : forall s h ev e,
  build_loop cb fuel s h = (ev, e) ->
  Forall is_call ev
  /\ (Exists aborts ev -> exists h', e = LoopUserError h')
  /\ (forall p v c r,
        In (Call p v c r) ev ->
        exists inst,
          nth_error (instructions (Builder.data s)) (Z.to_nat p) = Some inst
          /\ call_at (Builder.data s) inst c
          /\ view_text v = text_at (Builder.data s) p).
Proof.
  induction fuel as [| fuel IH]; intros s h ev e E; cbn [build_loop] in E;
    destruct (nth_error _ _) as [inst |] eqn:Ei.
  1, 2, 4: inv_pair;
    (split; [constructor | split; [intros X; inversion X | intros ? ? ? ? []]]).
  destruct (build_step cb s inst h) as [ev1 t] eqn:Es.
  apply (build_step_facts _ _ _ _ _ Ei) in Es. destruct Es as (F1 & F2 & F3 & F4).
  destruct t as [s' h' | h' | e' h' | w].
  - destruct (build_loop cb fuel s' h') as [ev2 e2] eqn:El.
    apply IH in El. destruct El as (G1 & G2 & G3). inv_pair.
    repeat split.
    + apply Forall_app; split; assumption.
    + intros X. apply Exists_app in X. destruct X as [X | X].
      * apply F2 in X. destruct X as [? X]. discriminate.
      * apply G2, X.
    + intros p v c r X. apply in_app_or in X. destruct X as [X | X].
      * exact (F3 _ _ _ _ X).
      * apply G3 in X. rewrite (F4 _ _ eq_refl) in X. exact X.
  - inv_pair. repeat split; auto. intros; eexists; reflexivity.
  - inv_pair. repeat split; auto.
    intros X. apply F2 in X. destruct X as [? X]. discriminate.
  - inv_pair. repeat split; auto.
    intros X. apply F2 in X. destruct X as [? X]. discriminate.
Qed.

(** The same for [mustache_build], whose last event is the one call of
    [mustache_on_formatting_error] when it fails. *)
Lemma mustache_build_calls m u1 u2 fuel h ev res p v c r :
  mustache_build cb {| mustache := Some m; arg_udata1 := u1; arg_udata2 := u2 |}
                 fuel h = (ev, res) ->
  In (Call p v c r) ev ->
  exists inst,
    nth_error (instructions m) (Z.to_nat p) = Some inst /\ call_at m inst c
    /\ view_text v = text_at m p.
Proof.
  unfold mustache_build, build_error. cbn [mustache]. intros E I.
  destruct (build_loop _ _ _ _) as [ev1 e] eqn:El.
  apply build_loop_facts in El. destruct El as (_ & _ & F3).
  apply (F3 p v c r).
  destruct e; inv_pair; try assumption;
    apply in_app_or in I; destruct I as [I | [I | []]];
    try assumption; discriminate.
Qed.

End BuildFacts.

(** C7: when a callback returns -1 the build stops: [mustache_build]
    returns -1 with [MUSTACHE_ERR_USER_ERROR], and its events are calls
    followed by one call of [mustache_on_formatting_error] with the
    [udata1] and [udata2] of the arguments. *)
Theorem callback_abort_is_user_error (H : Type) (cb : callbacks H)
    (args : mustache_build_args_s) (fuel : nat) (h : H)
    (ev : list event) (res : build_result) :
  mustache_build cb args fuel h = (ev, res) ->
  Exists aborts ev ->
  exists calls h',
    ev = calls ++ [FormattingError (arg_udata1 args) (arg_udata2 args)]
    /\ Forall is_call calls
    /\ res = Built (-1) MUSTACHE_ERR_USER_ERROR
                   (mustache_on_formatting_error cb h' (arg_udata1 args) (arg_udata2 args)).
Proof.
  unfold mustache_build, build_error. intros E A.
  destruct (mustache args) as [m |].
  - destruct (build_loop _ _ _ _) as [ev1 e] eqn:El.
    apply build_loop_facts in El. destruct El as (F1 & F2 & _).
    destruct e as [h1 | h1 | e1 h1 | w |]; inv_pair;
      try (apply F2 in A; destruct A as [? A]; discriminate).
    + exists ev1, h1. repeat split. exact F1.
    + apply Exists_app in A. destruct A as [A | A].
      * apply F2 in A. destruct A as [? A]. discriminate.
      * inversion A as [? ? Y | ? ? Y]; [destruct Y | inversion Y].
  - inv_pair. inversion A as [? ? Y | ? ? Y]; [destruct Y | inversion Y].
Qed.

(** C9: the section test of a build is called with [callable] 1 exactly
    at a [MUSTACHE_SECTION_START] instruction; at a
    [MUSTACHE_SECTION_START_INV] it is called with 0. *)
Theorem section_test_callable_flag (H : Type) (cb : callbacks H)
    (m : mustache_s) (u1 u2 : Z) (fuel : nat) (h : H)
    (ev : list event) (res : build_result)
    (pos : Z) (v : section_view) (name : bytes) (name_len callable r : Z) :
  mustache_build cb {| mustache := Some m; arg_udata1 := u1; arg_udata2 := u2 |}
                 fuel h = (ev, res) ->
  In (Call pos v (OnSectionTest name name_len callable) r) ev ->
  exists inst,
    nth_error (instructions m) (Z.to_nat pos) = Some inst
    /\ (callable = 1 <-> Inst.instruction inst = Inst.MUSTACHE_SECTION_START)
    /\ (Inst.instruction inst = Inst.MUSTACHE_SECTION_START_INV -> callable = 0).
Proof.
  intros E I.
  destruct (mustache_build_calls cb _ _ _ _ _ _ _ _ _ _ _ E I)
    as (inst & Hi & (_ & _ & ->) & _).
  exists inst. split; [exact Hi |]. unfold callable_flag.
  destruct (Inst.instruction inst); cbn; repeat split;
    intros; try reflexivity; try discriminate.
Qed.

(* ------------------------------------------------------------------ *)
(** ** Two builds of one template *)

(** A loop that ended keeps its events and its end when given more turns. *)
Lemma build_loop_more_fuel {H : Type} (cb : callbacks H) (n : nat) :
  forall s h ev e,
    build_loop cb n s h = (ev, e) -> e <> LoopOutOfFuel ->
    forall k, (n <= k)%nat -> build_loop cb k s h = (ev, e).
Proof.
  induction n as [| n IH]; intros s h ev e E NF k Hk.
  - cbn [build_loop] in E. destruct (nth_error _ _) eqn:Ei.
    + inversion E; subst. congruence.
    + destruct k; cbn [build_loop]; rewrite Ei; exact E.
  - destruct k as [| k]; [lia |]. cbn [build_loop] in *.
    destruct (nth_error _ _) as [inst |]; [| exact E].
    destruct (build_step cb s inst h) as [ev1 [s' h' | | |]]; try exact E.
    destruct (build_loop cb n s' h') as [ev2 e2] eqn:El.
    inversion E; subst.
    rewrite (IH _ _ _ _ El NF k) by lia. reflexivity.
Qed.

Lemma mustache_build_more_fuel {H : Type} (cb : callbacks H) args n h ev r :
  mustache_build cb args n h = (ev, r) -> r <> BuildOutOfFuel ->
  forall k, (n <= k)%nat -> mustache_build cb args k h = (ev, r).
Proof.
  unfold mustache_build. intros E NF k Hk.
  destruct (mustache args) as [m |]; [| exact E].
  destruct (build_loop cb n _ h) as [ev1 e] eqn:El.
  assert (e <> LoopOutOfFuel).
  { intros ->. inversion E; subst. congruence. }
  rewrite (build_loop_more_fuel cb n _ _ _ _ El H0 k Hk). exact E.
Qed.

(** The builder with its array of stack entries. *)
Lemma update_nth_cons {A} (g : A -> A) (a : A) (l : list A) (n : nat) :
  update_nth (S n) g (a :: l) = a :: update_nth n g l.
Proof. reflexivity. Qed.

Lemma firstn_succ_nth {A} (l : list A) : forall n f,
  nth_error l n = Some f -> firstn (S n) l = firstn n l ++ [f].
Proof.
  induction l as [| a l IH]; intros [| n] f E; cbn [nth_error] in E; try discriminate.
  - inversion E. reflexivity.
  - cbn [firstn app]. f_equal. apply (IH n f E).
Qed.

Lemma firstn_update_nth {A} (g : A -> A) (l : list A) : forall n k,
  (k <= n)%nat -> firstn k (update_nth n g l) = firstn k l.
Proof.
  induction l as [| a l IH]; intros n k Hk.
  - unfold update_nth. rewrite firstn_nil, skipn_nil. reflexivity.
  - destruct k as [| k]; [reflexivity |].
    destruct n as [| n]; [lia |].
    rewrite update_nth_cons. cbn [firstn]. f_equal. apply IH. lia.
Qed.

Lemma firstn_succ_update_nth {A} (g : A -> A) (l : list A) (n : nat) (f : A) :
  nth_error l n = Some f ->
  firstn (S n) (update_nth n g l) = firstn n l ++ [g f].
Proof.
  intros E.
  rewrite (firstn_succ_nth _ n (g f)) by (apply nth_error_update_nth; exact E).
  rewrite firstn_update_nth by lia. reflexivity.
Qed.

Section InUse.
Variable s : BuilderArray.mustache__builder_stack_s.
Hypothesis Hok : array_ok s.

Lemma frame_at_some (i : Z) :
  0 <= i < MUSTACHE_NESTING_LIMIT -> exists f, frame_at s i = Some f.
Proof.
  intros Hi. destruct Hok as [Hl _]. unfold frame_at.
  replace ((0 <=? i) && (i <? MUSTACHE_NESTING_LIMIT)) with true
    by (symmetry; apply andb_true_iff; split; [apply Z.leb_le | apply Z.ltb_lt]; lia).
  destruct (nth_error (BuilderArray.stack s) (Z.to_nat i)) as [f |] eqn:E; [eauto |].
  apply nth_error_None in E. lia.
Qed.

Lemma frame_at_nth (i : Z) f :
  frame_at s i = Some f ->
  0 <= i < MUSTACHE_NESTING_LIMIT /\ nth_error (BuilderArray.stack s) (Z.to_nat i) = Some f.
Proof.
  unfold frame_at. destruct (Z.leb_spec 0 i); [| discriminate].
  destruct (Z.ltb_spec i MUSTACHE_NESTING_LIMIT); [| discriminate].
  cbn [andb]. intros E. repeat split; assumption.
Qed.

(** At the index 65535 there is no entry. *)
Lemma frame_at_underflow :
  BuilderArray.index s = UINT16_MAX ->
  frame_at s (BuilderArray.index s) = None /\ frames_in_use s = [].
Proof.
  intros E. unfold frame_at, frames_in_use. rewrite E. split; reflexivity.
Qed.

Lemma frames_in_use_top f :
  frame_at s (BuilderArray.index s) = Some f ->
  frames_in_use s
  = f :: rev (firstn (Z.to_nat (BuilderArray.index s)) (BuilderArray.stack s)).
Proof.
  intros E. apply frame_at_nth in E. destruct E as [Hi E].
  unfold frames_in_use.
  replace (BuilderArray.index s <? MUSTACHE_NESTING_LIMIT) with true
    by (symmetry; apply Z.ltb_lt; lia).
  replace (Z.to_nat (BuilderArray.index s + 1)) with (S (Z.to_nat (BuilderArray.index s)))
    by lia.
  rewrite (firstn_succ_nth _ _ _ E), rev_app_distr. reflexivity.
Qed.

(** The entry below the top one is [stack[index - 1]]; there is none below
    [stack[0]]. *)
Lemma frames_in_use_below :
  0 <= BuilderArray.index s < MUSTACHE_NESTING_LIMIT ->
  match frame_at s (BuilderArray.index s - 1) with
  | None => BuilderArray.index s = 0
  | Some parent =>
    0 < BuilderArray.index s
    /\ exists below,
      rev (firstn (Z.to_nat (BuilderArray.index s)) (BuilderArray.stack s))
      = parent :: below
  end.
Proof.
  intros Hi. destruct (Z.eq_dec (BuilderArray.index s) 0) as [E0 | N0].
  - rewrite E0. reflexivity.
  - destruct (frame_at_some (BuilderArray.index s - 1)) as [p Ep]; [lia |].
    rewrite Ep. split; [lia |]. apply frame_at_nth in Ep. destruct Ep as [_ Ep].
    replace (Z.to_nat (BuilderArray.index s))
      with (S (Z.to_nat (BuilderArray.index s - 1))) by lia.
    rewrite (firstn_succ_nth _ _ _ Ep), rev_app_distr. eexists. reflexivity.
Qed.

(** A store to the top entry. *)
Lemma set_frame_at_top g f :
  frame_at s (BuilderArray.index s) = Some f ->
  let s' := set_frame_at s (BuilderArray.index s) g in
  array_ok s'
  /\ frame_at s' (BuilderArray.index s') = Some (g f)
  /\ frames_in_use s' = g f :: tl (frames_in_use s).
Proof.
  intros E s'. pose proof (frames_in_use_top f E) as Et.
  apply frame_at_nth in E. destruct E as [Hi E].
  destruct Hok as [Hl Hx].
  assert (Hok' : array_ok s').
  { split; [| exact Hx]. unfold s', set_frame_at. cbn [BuilderArray.stack BuilderArray.set_stack].
    rewrite length_update_nth. exact Hl. }
  split; [exact Hok' |].
  assert (E' : nth_error (BuilderArray.stack s') (Z.to_nat (BuilderArray.index s)) = Some (g f))
    by (apply nth_error_update_nth; exact E).
  split.
  - unfold frame_at. change (BuilderArray.index s') with (BuilderArray.index s).
    replace ((0 <=? BuilderArray.index s) && (BuilderArray.index s <? MUSTACHE_NESTING_LIMIT))
      with true
      by (symmetry; apply andb_true_iff; split; [apply Z.leb_le | apply Z.ltb_lt]; lia).
    exact E'.
  - rewrite Et. cbn [tl]. unfold frames_in_use.
    change (BuilderArray.index s') with (BuilderArray.index s).
    replace (BuilderArray.index s <? MUSTACHE_NESTING_LIMIT) with true
      by (symmetry; apply Z.ltb_lt; lia).
    replace (Z.to_nat (BuilderArray.index s + 1)) with (S (Z.to_nat (BuilderArray.index s)))
      by lia.
    unfold s', set_frame_at. cbn [BuilderArray.stack BuilderArray.set_stack].
    rewrite (firstn_succ_update_nth _ _ _ _ E), rev_app_distr. reflexivity.
Qed.

(** [--s.index]. *)
Lemma set_index_pop f :
  frame_at s (BuilderArray.index s) = Some f ->
  let s' := BuilderArray.set_index s (u16 (BuilderArray.index s - 1)) in
  array_ok s' /\ frames_in_use s' = tl (frames_in_use s).
Proof.
  intros E s'. rewrite (frames_in_use_top f E). cbn [tl].
  apply frame_at_nth in E. destruct E as [Hi E]. destruct Hok as [Hl _].
  unfold MUSTACHE_NESTING_LIMIT in *.
  destruct (Z.eq_dec (BuilderArray.index s) 0) as [E0 | N0].
  - split.
    + split; [exact Hl |]. right. unfold s'. cbn. rewrite E0. reflexivity.
    + unfold frames_in_use, s'. cbn [BuilderArray.index BuilderArray.set_index].
      rewrite E0. reflexivity.
  - assert (Eu : u16 (BuilderArray.index s - 1) = BuilderArray.index s - 1)
      by (apply Z.mod_small; lia).
    split.
    + split; [exact Hl |]. left. unfold s'. cbn [BuilderArray.index BuilderArray.set_index].
      rewrite Eu. unfold MUSTACHE_NESTING_LIMIT. lia.
    + unfold frames_in_use, s'.
      cbn [BuilderArray.index BuilderArray.set_index BuilderArray.stack].
      rewrite Eu.
      replace (BuilderArray.index s - 1 <? MUSTACHE_NESTING_LIMIT) with true
        by (symmetry; apply Z.ltb_lt; unfold MUSTACHE_NESTING_LIMIT; lia).
      replace (BuilderArray.index s - 1 + 1) with (BuilderArray.index s) by lia.
      reflexivity.
Qed.

(** The stores to [stack[index + 1]] and [++s.index]. *)
Lemma set_frame_at_push f :
  0 <= BuilderArray.index s -> BuilderArray.index s + 1 < MUSTACHE_NESTING_LIMIT ->
  let s' := BuilderArray.set_index
              (set_frame_at s (BuilderArray.index s + 1) (fun _ => f))
              (u16 (BuilderArray.index s + 1)) in
  array_ok s'
  /\ frame_at s' (BuilderArray.index s') = Some f
  /\ frames_in_use s' = f :: frames_in_use s
  /\ u16 (BuilderArray.index s + 1) = zlength (frames_in_use s).
Proof.
  intros H0 H1 s'. destruct Hok as [Hl _]. unfold MUSTACHE_NESTING_LIMIT in *.
  assert (Eu : u16 (BuilderArray.index s + 1) = BuilderArray.index s + 1)
    by (apply Z.mod_small; lia).
  destruct (frame_at_some (BuilderArray.index s + 1)) as [old Eold];
    [unfold MUSTACHE_NESTING_LIMIT; lia |].
  apply frame_at_nth in Eold. destruct Eold as [_ Eold].
  assert (Hok' : array_ok s').
  { split.
    - unfold s', set_frame_at. cbn [BuilderArray.stack BuilderArray.set_stack BuilderArray.set_index].
      rewrite length_update_nth. exact Hl.
    - left. unfold s'. cbn [BuilderArray.index BuilderArray.set_index].
      rewrite Eu. unfold MUSTACHE_NESTING_LIMIT. lia. }
  assert (Ef : frames_in_use s' = f :: frames_in_use s).
  { unfold frames_in_use, s'.
    cbn [BuilderArray.index BuilderArray.set_index BuilderArray.stack set_frame_at
         BuilderArray.set_stack].
    rewrite Eu.
    replace (BuilderArray.index s + 1 <? MUSTACHE_NESTING_LIMIT) with true
      by (symmetry; apply Z.ltb_lt; unfold MUSTACHE_NESTING_LIMIT; lia).
    replace (BuilderArray.index s <? MUSTACHE_NESTING_LIMIT) with true
      by (symmetry; apply Z.ltb_lt; unfold MUSTACHE_NESTING_LIMIT; lia).
    replace (Z.to_nat (BuilderArray.index s + 1 + 1))
      with (S (Z.to_nat (BuilderArray.index s + 1))) by lia.
    rewrite (firstn_succ_update_nth _ _ _ _ Eold), rev_app_distr. reflexivity. }
  split; [exact Hok' |]. split; [| split; [exact Ef |]].
  - unfold frame_at, s'.
    cbn [BuilderArray.index BuilderArray.set_index BuilderArray.stack set_frame_at
         BuilderArray.set_stack].
    rewrite Eu.
    replace ((0 <=? BuilderArray.index s + 1)
             && (BuilderArray.index s + 1 <? MUSTACHE_NESTING_LIMIT)) with true
      by (symmetry; apply andb_true_iff; split; [apply Z.leb_le | apply Z.ltb_lt];
          unfold MUSTACHE_NESTING_LIMIT; lia).
    apply nth_error_update_nth with (x := old). exact Eold.
  - rewrite Eu. unfold frames_in_use.
    replace (BuilderArray.index s <? MUSTACHE_NESTING_LIMIT) with true
      by (symmetry; apply Z.ltb_lt; unfold MUSTACHE_NESTING_LIMIT; lia).
    unfold zlength. rewrite length_rev, length_firstn. lia.
Qed.

End InUse.

Section ArrayTurns.
Context {H : Type} (cb : callbacks H).

Ltac same_stop :=
  split; [reflexivity | split; [reflexivity | intros ? ? X; discriminate X]].

Lemma same_turn_next ev s' (h' : H) l :
  in_use s' = l -> array_ok s' ->
  same_turn (ev, ArrayNext s' h') (ev, Next l h').
Proof.
  intros E Hs. split; [reflexivity | split].
  - cbn [snd turn_in_use]. rewrite E. reflexivity.
  - intros ? ? X. inversion X; subst. exact Hs.
Qed.

Lemma in_use_stack s l :
  frames_in_use s = l ->
  in_use s = {| Builder.data := BuilderArray.data s; Builder.pos := BuilderArray.pos s;
                Builder.stack := l |}.
Proof. intros <-. reflexivity. Qed.

Lemma array_section_loop_in_use s h :
  array_ok s -> same_turn (array_section_loop cb s h) (section_loop cb (in_use s) h).
Proof.
  intros Hok. unfold array_section_loop, section_loop.
  destruct (proj2 Hok) as [Hi | Hu].
  2:{ destruct (frame_at_underflow s Hu) as [-> E]. unfold in_use. rewrite E.
      cbn [Builder.stack]. same_stop. }
  destruct (frame_at_some s Hok _ Hi) as [f Ef]. rewrite Ef.
  pose proof (frames_in_use_top s f Ef) as Et.
  rewrite (in_use_stack s _ Et). cbn [Builder.stack].
  destruct (Builder.index f <? Builder.count f).
  - pose proof (frames_in_use_below s Hok Hi) as Hb.
    destruct (frame_at s (BuilderArray.index s - 1)) as [parent |].
    2:{ rewrite Hb. cbn [Z.to_nat firstn rev]. same_stop. }
    destruct Hb as [_ [below Eb]]. rewrite Eb in *.
    set (s1 := BuilderArray.set_pos s (Builder.start f)).
    assert (Ef1 : frame_at s1 (BuilderArray.index s1) = Some f) by exact Ef.
    assert (Hok1 : array_ok s1) by exact Hok.
    change (BuilderArray.index s) with (BuilderArray.index s1).
    destruct (set_frame_at_top s1 Hok1
                (fun f0 => Builder.set_sec f0 (Builder.sec parent)) f Ef1)
      as (Hok2 & Ef2 & Et2).
    set (s2 := set_frame_at s1 (BuilderArray.index s1)
                 (fun f0 => Builder.set_sec f0 (Builder.sec parent))) in *.
    change (frames_in_use s1) with (frames_in_use s) in Et2. rewrite Et in Et2.
    cbn [tl] in Et2. cbv zeta.
    rewrite (in_use_stack s2 _ Et2).
    change (BuilderArray.data s2) with (BuilderArray.data s).
    change (BuilderArray.pos s2) with (Builder.start f).
    cbn [Builder.set_pos Builder.set_stack Builder.data Builder.pos Builder.stack].
    destruct (nth_error _ _) as [inst |]; [| same_stop].
    change (BuilderArray.index s1) with (BuilderArray.index s2).
    destruct (negb _).
    + change (Builder.index (Builder.set_sec f (Builder.sec parent)))
        with (Builder.index f).
      destruct (mustache_on_section_start _ _ _ _ _ _) as [[r x] h1].
      destruct (r =? -1); [same_stop |].
      destruct (set_frame_at_top s2 Hok2 (fun f0 => Builder.set_sec f0 x) _ Ef2)
        as (Hok3 & Ef3 & Et3).
      set (s3 := set_frame_at s2 (BuilderArray.index s2) (fun f0 => Builder.set_sec f0 x)) in *.
      rewrite Et2 in Et3. cbn [tl] in Et3.
      change (BuilderArray.index s2) with (BuilderArray.index s3).
      destruct (set_frame_at_top s3 Hok3
                  (fun f0 => Builder.set_index f0 (u32 (Builder.index f0 + 1))) _ Ef3)
        as (Hok4 & Ef4 & Et4).
      rewrite Et3 in Et4. cbn [tl] in Et4.
      apply same_turn_next; [| exact Hok4].
      unfold array_advance, advance, in_use. cbn [BuilderArray.data BuilderArray.pos BuilderArray.set_pos].
      change (frames_in_use (BuilderArray.set_pos ?a ?b)) with (frames_in_use a).
      rewrite Et4. reflexivity.
    + destruct (set_frame_at_top s2 Hok2
                  (fun f0 => Builder.set_index f0 (u32 (Builder.index f0 + 1))) _ Ef2)
        as (Hok4 & Ef4 & Et4).
      rewrite Et2 in Et4. cbn [tl] in Et4.
      apply same_turn_next; [| exact Hok4].
      unfold array_advance, advance, in_use. cbn [BuilderArray.data BuilderArray.pos BuilderArray.set_pos].
      change (frames_in_use (BuilderArray.set_pos ?a ?b)) with (frames_in_use a).
      rewrite Et4. reflexivity.
  - destruct (set_index_pop s Hok f Ef) as (Hok' & Et').
    rewrite Et in Et'. cbn [tl] in Et'.
    apply same_turn_next.
    + unfold array_advance, advance, in_use.
      cbn [BuilderArray.data BuilderArray.pos BuilderArray.set_pos BuilderArray.set_index].
      change (frames_in_use (BuilderArray.set_pos ?a ?b)) with (frames_in_use a).
      change (frames_in_use (BuilderArray.set_index (BuilderArray.set_pos s ?p) ?i))
        with (frames_in_use (BuilderArray.set_index s i)).
      rewrite Et'. reflexivity.
    + exact Hok'.
Qed.

Lemma zlength_frames_in_use s :
  array_ok s -> 0 <= BuilderArray.index s < MUSTACHE_NESTING_LIMIT ->
  zlength (frames_in_use s) = BuilderArray.index s + 1.
Proof.
  intros [Hl _] Hi. unfold frames_in_use.
  replace (BuilderArray.index s <? MUSTACHE_NESTING_LIMIT) with true
    by (symmetry; apply Z.ltb_lt; lia).
  unfold zlength. rewrite length_rev, length_firstn. lia.
Qed.

Lemma same_turn_app ev (a : list event * array_turn H) b :
  same_turn a b ->
  same_turn (let '(ev', t) := a in (ev ++ ev', t)) (let '(ev', t) := b in (ev ++ ev', t)).
Proof.
  destruct a as [ea ta], b as [eb tb]. intros (E1 & E2 & E3). cbn [fst snd] in *.
  subst. split; [reflexivity | split; [reflexivity | exact E3]].
Qed.

Lemma array_section_enter_in_use s inst h :
  array_ok s ->
  same_turn (array_section_enter cb s inst h) (section_enter cb (in_use s) inst h).
Proof.
  intros Hok. unfold array_section_enter, section_enter.
  destruct (proj2 Hok) as [Hi | Hu].
  2:{ destruct (frame_at_underflow s Hu) as [_ E]. rewrite (in_use_stack s _ E).
      cbn [Builder.stack]. rewrite Hu. cbn. same_stop. }
  destruct (frame_at_some s Hok _ Hi) as [top Ef]. rewrite Ef.
  pose proof (frames_in_use_top s top Ef) as Et.
  pose proof (zlength_frames_in_use s Hok Hi) as Hz.
  rewrite (in_use_stack s _ Et). cbn [Builder.stack Builder.pos Builder.data].
  rewrite <- Et, Hz.
  destruct (Z.leb_spec MUSTACHE_NESTING_LIMIT (BuilderArray.index s + 1)) as [L | L];
    [same_stop |].
  cbv zeta.
  match goal with
  | |- context [set_frame_at s (BuilderArray.index s + 1) (fun _ => ?f0)] => set (f := f0)
  end.
  destruct (set_frame_at_push s Hok f (proj1 Hi) L) as (Hok1 & Ef1 & Et1 & Eu).
  set (s1 := BuilderArray.set_index
               (set_frame_at s (BuilderArray.index s + 1) (fun _ => f))
               (u16 (BuilderArray.index s + 1))) in *.
  assert (Es1 : in_use s1
                = Builder.set_stack
                    {| Builder.data := BuilderArray.data s; Builder.pos := BuilderArray.pos s;
                       Builder.stack := frames_in_use s |}
                    (f :: frames_in_use s)).
  { rewrite (in_use_stack s1 _ Et1). reflexivity. }
  assert (Ef' : f = {| Builder.sec := Builder.sec top;
                       Builder.start :=
                         match Inst.instruction inst with
                         | Inst.MUSTACHE_SECTION_GOTO => Inst.len (Inst.data inst)
                         | _ => BuilderArray.pos s
                         end;
                       Builder.end_ := Inst.end_ (Inst.data inst);
                       Builder.index := 0; Builder.count := 1;
                       Builder.frame := BuilderArray.index s + 1 |}).
  { unfold f. rewrite Eu, Hz. reflexivity. }
  rewrite <- Ef', <- Es1.
  change (BuilderArray.data s1) with (BuilderArray.data s).
  change (BuilderArray.pos s1) with (BuilderArray.pos s).
  change (Builder.data (in_use s1)) with (BuilderArray.data s).
  change (Builder.pos (in_use s1)) with (BuilderArray.pos s).
  destruct (negb _).
  - destruct (mustache_on_section_test _ _ _ _ _ _) as [[val x] h1].
    destruct (val =? -1); [same_stop |].
    destruct (set_frame_at_top s1 Hok1 (fun f0 => Builder.set_sec f0 x) _ Ef1)
      as (Hok2 & Ef2 & Et2).
    set (s2 := set_frame_at s1 (BuilderArray.index s1) (fun f0 => Builder.set_sec f0 x)) in *.
    rewrite Et1 in Et2. cbn [tl] in Et2.
    change (BuilderArray.index s1) with (BuilderArray.index s2).
    match goal with
    | |- context [set_frame_at s2 (BuilderArray.index s2) ?g0] => set (g := g0)
    end.
    destruct (set_frame_at_top s2 Hok2 g _ Ef2) as (Hok3 & Ef3 & Et3).
    set (s3 := set_frame_at s2 (BuilderArray.index s2) g) in *.
    rewrite Et2 in Et3. cbn [tl] in Et3.
    match goal with
    | |- same_turn _ (let '(ev', t) := section_loop cb ?l h1 in _) =>
      replace l with (in_use s3)
    end.
    + apply same_turn_app. apply array_section_loop_in_use. exact Hok3.
    + rewrite (in_use_stack s3 _ Et3). unfold store_sec. rewrite Es1.
      cbn [Builder.set_stack Builder.stack Builder.data Builder.pos]. reflexivity.
  - apply array_section_loop_in_use. exact Hok1.
Qed.

Lemma array_build_step_in_use s inst h :
  array_ok s ->
  same_turn (array_build_step cb s inst h) (build_step cb (in_use s) inst h).
Proof.
  intros Hok. unfold array_build_step, build_step.
  destruct (Inst.instruction inst);
    try (apply array_section_enter_in_use; exact Hok);
    try (apply array_section_loop_in_use; exact Hok).
  all: destruct (proj2 Hok) as [Hi | Hu];
    [| destruct (frame_at_underflow s Hu) as [-> E]; rewrite (in_use_stack s _ E);
       cbn [Builder.stack]; same_stop].
  all: destruct (frame_at_some s Hok _ Hi) as [f Ef]; rewrite Ef;
    pose proof (frames_in_use_top s f Ef) as Et;
    change (Builder.stack (in_use s)) with (frames_in_use s); rewrite Et;
    change (Builder.data (in_use s)) with (BuilderArray.data s);
    change (Builder.pos (in_use s)) with (BuilderArray.pos s);
    match goal with
    | |- context [mustache_on_text ?a ?b ?c ?d ?e] =>
      destruct (mustache_on_text a b c d e) as [[r x] h1]
    | |- context [mustache_on_arg ?a ?b ?c ?d ?e ?g] =>
      destruct (mustache_on_arg a b c d e g) as [[r x] h1]
    end;
    (destruct (negb (r =? 0)); [same_stop |]);
    destruct (set_frame_at_top s Hok (fun f0 => Builder.set_sec f0 x) _ Ef)
      as (Hok2 & Ef2 & Et2);
    rewrite Et in Et2; cbn [tl] in Et2;
    (apply same_turn_next; [| exact Hok2]);
    unfold array_advance, advance, in_use, store_sec;
    cbn [BuilderArray.data BuilderArray.pos BuilderArray.set_pos Builder.stack];
    change (frames_in_use (BuilderArray.set_pos ?a ?b)) with (frames_in_use a);
    rewrite Et2, Et; reflexivity.
Qed.

(** The loop with the array makes the calls of the loop with the entries in
    use and ends as it does. *)
Lemma array_build_loop_in_use (fuel : nat) : forall s h,
  array_ok s -> array_build_loop cb fuel s h = build_loop cb fuel (in_use s) h.
Proof.
  induction fuel as [| fuel IH]; intros s h Hok; cbn [array_build_loop build_loop];
    change (Builder.data (in_use s)) with (BuilderArray.data s);
    change (Builder.pos (in_use s)) with (BuilderArray.pos s);
    destruct (nth_error _ _) as [inst |]; try reflexivity.
  destruct (array_build_step_in_use s inst h Hok) as (E1 & E2 & E3).
  destruct (array_build_step cb s inst h) as [ev t].
  destruct (build_step cb (in_use s) inst h) as [ev' t'].
  cbn [fst snd] in *. subst ev' t'.
  destruct t as [s' h' | h' | e h' | w]; cbn [turn_in_use]; try reflexivity.
  rewrite (IH s' h' (E3 s' h' eq_refl)). reflexivity.
Qed.


Lemma array_start_ok m u1 u2 memory :
  Z.of_nat (List.length memory) = MUSTACHE_NESTING_LIMIT ->
  array_ok (array_start m u1 u2 memory)
  /\ in_use (array_start m u1 u2 memory)
     = {| Builder.data := m; Builder.pos := 0; Builder.stack := [root_frame m u1 u2] |}.
Proof.
  intros Hl. split.
  - split.
    + unfold array_start. cbn [BuilderArray.stack]. rewrite length_update_nth. exact Hl.
    + left. cbn. unfold MUSTACHE_NESTING_LIMIT. lia.
  - destruct memory as [| old rest]; [discriminate Hl |]. reflexivity.
Qed.

(** [mustache_build] with its array gives what it gives with the entries in
    use only, whatever the array holds when the function is entered. *)
Lemma mustache_build_array_in_use args memory fuel h :
  Z.of_nat (List.length memory) = MUSTACHE_NESTING_LIMIT ->
  mustache_build_array cb args memory fuel h = mustache_build cb args fuel h.
Proof.
  intros Hl. unfold mustache_build_array, mustache_build.
  destruct (mustache args) as [m |]; [| reflexivity].
  destruct (array_start_ok m (arg_udata1 args) (arg_udata2 args) memory Hl) as [Hok E].
  rewrite (array_build_loop_in_use fuel _ h Hok), E. reflexivity.
Qed.

End ArrayTurns.

(** C4: two builds of the same template with the same callbacks, the
    same [udata] and the same client state make the same calls in the same
    order with the same arguments, and end the same way: whatever the
    entries of the stack array of the builder hold when each build is
    entered (only [stack[0]] is stored to before the loop, and no entry is
    read before it is stored to), and whatever number of turns each build is
    allowed, as long as both end. *)
Theorem mustache_build_deterministic (H : Type) (cb : callbacks H)
    (args : mustache_build_args_s)
    (memory memory' : list Builder.mustache__section_stack_frame_s)
    (n n' : nat) (h : H) (ev ev' : list event) (r r' : build_result) :
  Z.of_nat (List.length memory) = MUSTACHE_NESTING_LIMIT ->
  Z.of_nat (List.length memory') = MUSTACHE_NESTING_LIMIT ->
  mustache_build_array cb args memory n h = (ev, r) ->
  mustache_build_array cb args memory' n' h = (ev', r') ->
  r <> BuildOutOfFuel -> r' <> BuildOutOfFuel ->
  ev = ev' /\ r = r'.
Proof.
  intros Hl Hl' E E' NF NF'.
  rewrite (mustache_build_array_in_use cb args memory n h Hl) in E.
  rewrite (mustache_build_array_in_use cb args memory' n' h Hl') in E'.
  pose proof (mustache_build_more_fuel cb args n h ev r E NF (Nat.max n n')) as X.
  pose proof (mustache_build_more_fuel cb args n' h ev' r' E' NF' (Nat.max n n')) as X'.
  rewrite X in X' by lia. specialize (X' ltac:(lia)).
  inversion X'. split; reflexivity.
Qed.

(* ------------------------------------------------------------------ *)
(** ** Inverted sections *)

Section Inverted.
Context {H : Type} (cb : callbacks H).

Lemma build_turns_app (a b : nat) : forall s h ev1 s1 h1 ev2 s2 h2,
  build_turns cb a s h = Some (ev1, s1, h1) ->
  build_turns cb b s1 h1 = Some (ev2, s2, h2) ->
  build_turns cb (a + b) s h = Some (ev1 ++ ev2, s2, h2).
Proof.
  induction a as [| a IH]; intros s h ev1 s1 h1 ev2 s2 h2 E1 E2.
  - cbn in E1. inversion E1; subst. exact E2.
  - cbn [build_turns Nat.add] in *.
    destruct (nth_error _ _) as [inst |]; [| discriminate].
    destruct (build_step cb s inst h) as [ev [s' h' | | |]]; try discriminate.
    destruct (build_turns cb a s' h') as [[[ev' s''] h''] |] eqn:Et; [| discriminate].
    inversion E1; subst.
    rewrite (IH _ _ _ _ _ _ _ _ Et E2). rewrite app_assoc. reflexivity.
Qed.

(** One inverted section, turn by turn: an inverted section whose test returns a value other than 0 is
    left in the same turn, behind its end, no instruction of its body
    being reached (the build stops if the value is -1).  When the test
    returns 0 the body is entered once, with the section's count and index
    both 1, so that the turn that reaches the section's end leaves it: the
    calls from the section's start to behind its end are the test, the
    start of the one repetition and the calls of the body, once. *)
Theorem inverted_section_once_or_never
    (s : Builder.mustache__builder_stack_s) (h : H)
    (inst : Inst.mustache__instruction_s)
    (top : Builder.mustache__section_stack_frame_s)
    (below : list Builder.mustache__section_stack_frame_s)
    (val : Z) (x : Builder.mustache_section_s) (h1 : H) :
  nth_error (instructions (Builder.data s)) (Z.to_nat (Builder.pos s)) = Some inst ->
  Inst.instruction inst = Inst.MUSTACHE_SECTION_START_INV ->
  Inst.name_pos (Inst.data inst) <> 0 ->
  Builder.stack s = top :: below ->
  zlength (Builder.stack s) < MUSTACHE_NESTING_LIMIT ->
  let e := Inst.end_ (Inst.data inst) in
  let name := name_of (Builder.data s) inst in
  let name_len := Inst.name_len (Inst.data inst) in
  let tested := Builder.set_stack s (entered_frame s inst top :: top :: below) in
  let test := Call (Builder.pos s) (view_of tested) (OnSectionTest name name_len 0) val in
  let running x' :=
    {| Builder.sec := x'; Builder.start := Builder.pos s; Builder.end_ := e;
       Builder.index := 1; Builder.count := 1;
       Builder.frame := zlength (Builder.stack s) |} in
  mustache_on_section_test cb h (view_of tested) name name_len 0 = (val, x, h1) ->
  (val <> 0 ->
   build_step cb s inst h
   = ([test],
      if val =? -1 then GotoUserError h1
      else Next {| Builder.data := Builder.data s; Builder.pos := u32 (e + 1);
                   Builder.stack := top :: below |} h1))
  /\ (val = 0 ->
      forall r x2 h2,
        mustache_on_section_start cb h1 (view_of tested) name name_len 0 = (r, x2, h2) ->
        r <> -1 ->
        let start := Call (Builder.pos s) (view_of tested)
                          (OnSectionStart name name_len 0) r in
        let body := {| Builder.data := Builder.data s;
                       Builder.pos := u32 (Builder.pos s + 1);
                       Builder.stack := running x2 :: top :: below |} in
        build_step cb s inst h = ([test; start], Next body h2)
        /\ forall k evb s3 h3 x3 below3 iend,
             build_turns cb k body h2 = Some (evb, s3, h3) ->
             Builder.pos s3 = e ->
             Builder.stack s3 = running x3 :: below3 ->
             nth_error (instructions (Builder.data s3)) (Z.to_nat e) = Some iend ->
             Inst.instruction iend = Inst.MUSTACHE_SECTION_END ->
             build_turns cb (S k + 1) s h
             = Some ([test; start] ++ evb,
                     {| Builder.data := Builder.data s3; Builder.pos := u32 (e + 1);
                        Builder.stack := below3 |}, h3)).
Proof.
  destruct s as [m p st]. cbn [Builder.data Builder.pos Builder.stack].
  intros Hi Ht Hn -> Hd.
  unfold entered_frame, view_of, mustache_section_text.
  cbn [Builder.data Builder.pos Builder.stack Builder.set_stack map Builder.sec].
  rewrite Hi, Ht.
  set (name := name_of m inst). set (name_len := Inst.name_len (Inst.data inst)).
  set (e := Inst.end_ (Inst.data inst)).
  set (v := {| view_sections := _; view_text := _ |}).
  intros Htest.
  assert (Hlim : (MUSTACHE_NESTING_LIMIT <=? zlength (top :: below)) = false)
    by (apply Z.leb_gt; exact Hd).
  assert (Hnp : negb (Inst.name_pos (Inst.data inst) =? 0) = true)
    by (apply negb_true_iff, Z.eqb_neq; exact Hn).
  (* the turn up to the result of the test *)
  assert (Henter : section_enter cb (Builder.mk_builder m p (top :: below)) inst h
    = if val =? -1 then ([Call p v (OnSectionTest name name_len 0) val], GotoUserError h1)
      else
        let '(ev', t') :=
          section_loop cb
            {| Builder.data := m; Builder.pos := p;
               Builder.stack :=
                 {| Builder.sec := x; Builder.start := p; Builder.end_ := e;
                    Builder.index := 0;
                    Builder.count := u32 (if val =? 0 then 1 else 0);
                    Builder.frame := zlength (top :: below) |}
                 :: top :: below |} h1 in
        (Call p v (OnSectionTest name name_len 0) val :: ev', t')).
  { unfold section_enter.
    cbn [Builder.stack Builder.set_stack Builder.data Builder.pos].
    rewrite Hlim, Hnp, Ht. cbn [Inst.tag_eqb].
    unfold view_of, mustache_section_text.
    cbn [Builder.data Builder.pos Builder.stack Builder.set_stack map Builder.sec].
    rewrite Hi, Ht. fold name name_len v. rewrite Htest.
    destruct (val =? -1); reflexivity. }
  assert (Hstep : build_step cb (Builder.mk_builder m p (top :: below)) inst h
                  = section_enter cb (Builder.mk_builder m p (top :: below)) inst h).
  { unfold build_step. rewrite Ht. reflexivity. }
  split.
  - intros Hv. rewrite Hstep, Henter.
    destruct (val =? -1); [reflexivity |].
    rewrite (proj2 (Z.eqb_neq val 0) Hv). reflexivity.
  - intros -> r x2 h2 Hstart Hr.
    assert (Es : build_step cb (Builder.mk_builder m p (top :: below)) inst h
                 = ([Call p v (OnSectionTest name name_len 0) 0;
                     Call p v (OnSectionStart name name_len 0) r],
                    Next {| Builder.data := m; Builder.pos := u32 (p + 1);
                            Builder.stack :=
                              {| Builder.sec := x2; Builder.start := p;
                                 Builder.end_ := e; Builder.index := 1;
                                 Builder.count := 1;
                                 Builder.frame := zlength (top :: below) |}
                              :: top :: below |} h2)).
    { rewrite Hstep, Henter. cbn [Z.eqb].
      unfold section_loop.
      cbn [Builder.stack Builder.set_stack Builder.data Builder.pos
           Builder.set_count Builder.set_sec Builder.index Builder.count
           Builder.start Builder.sec Builder.set_pos].
      change (0 <? u32 1) with true. cbn match.
      rewrite Hi, Hnp. unfold view_of, mustache_section_text.
      cbn [Builder.data Builder.pos Builder.stack Builder.set_stack Builder.set_pos
           Builder.set_sec map Builder.sec].
      rewrite Hi, Ht. fold name name_len v. rewrite Hstart.
      rewrite (proj2 (Z.eqb_neq r (-1)) Hr). reflexivity. }
    split; [exact Es |].
    intros k evb s3 h3 x3 below3 iend Eb Hp Hs3 Hie Hte.
    replace (S k + 1)%nat with (1 + (k + 1))%nat by lia.
    replace evb with (evb ++ []) by apply app_nil_r.
    eapply build_turns_app.
    + cbn [build_turns]. cbn [Builder.data Builder.pos]. rewrite Hi, Es.
      rewrite app_nil_r. reflexivity.
    + eapply build_turns_app; [exact Eb |].
      cbn [build_turns]. rewrite Hp, Hie.
      unfold build_step. rewrite Hte. unfold section_loop. rewrite Hs3.
      cbn [Builder.index Builder.count]. cbn [Z.ltb Z.compare].
      destruct s3 as [m3 p3 st3].
      cbn [Builder.stack Builder.set_stack Builder.data Builder.pos
           Builder.set_pos Builder.end_ advance].
      reflexivity.
Qed.

End Inverted.



(* ------------------------------------------------------------------ *)
(** ** The text a callback sees *)

(** Every callback that [mustache_build] calls at an instruction other
    than [MUSTACHE_SECTION_START], the callbacks of an inverted section
    among them, gets NULL and 0 from [mustache_section_text] when it passes
    a variable to store the length in. *)
Lemma section_text_in_callbacks {H : Type} (cb : callbacks H) m u1 u2 fuel h
    ev res p v c r inst :
  mustache_build cb {| mustache := Some m; arg_udata1 := u1; arg_udata2 := u2 |}
                 fuel h = (ev, res) ->
  In (Call p v c r) ev ->
  nth_error (instructions m) (Z.to_nat p) = Some inst ->
  Inst.instruction inst <> Inst.MUSTACHE_SECTION_START ->
  view_text v = TextReturn None 0.
Proof.
  intros E I Hi Ht.
  destruct (mustache_build_calls cb _ _ _ _ _ _ _ _ _ _ _ E I) as (i & Hi' & _ & ->).
  unfold text_at. apply section_text_null. exists inst. cbn. split; assumption.
Qed.

(* ------------------------------------------------------------------ *)
(** ** Unescaped variables *)

Lemma isspace_not_closing (c : Z) : isspace c = true -> c <> 0 /\ c <> 125.
Proof.
  unfold isspace. intros Hs. split; intros ->; discriminate.
Qed.

Lemma tag_body_clean (l n r : bytes) :
  tag_body l n r -> Forall (fun c => c <> 0 /\ c <> 125) (l ++ n ++ r).
Proof.
  intros (Fl & Fr & _ & _ & _ & Fn).
  rewrite !Forall_app. repeat split; try assumption.
  - eapply Forall_impl; [| exact Fl]. apply isspace_not_closing.
  - eapply Forall_impl; [| exact Fr]. apply isspace_not_closing.
Qed.

(** The parser at a tag [{{] sigil [x }}] with the sigil [{] or [&], in
    any state with the default delimiters: one instruction is added,
    [MUSTACHE_WRITE_ARG_UNESCAPED] for the trimmed name, and reading goes
    on behind the tag, one byte further for [{] when a [}] follows. *)
Lemma parse_step_unescaped (fs : filesystem) (s : Loader.mustache__loader_stack_s)
    (f : Loader.frame) (rest : list Loader.frame)
    (pre l n r tail : bytes) (sg : Z) :
  Loader.stack s = f :: rest ->
  Loader.del_start f = default_del_start ->
  Loader.del_end f = default_del_end ->
  Loader.data_pos f = zlength pre ->
  Loader.data s = pre ++ [123; 123; sg] ++ (l ++ n ++ r) ++ [125; 125] ++ tail ->
  sg = 123 \/ sg = 38 ->
  tag_body l n r ->
  zlength pre + zlength (l ++ n ++ r) + 3 < Loader.data_end f ->
  zlength (Loader.data s) < 4294967296 ->
  zlength n < 65536 ->
  zlength (Loader.i s) < INT32_MAX ->
  parse_step fs s f
  = Return 0
      (after_tag s (write_unescaped (zlength pre + 3 + zlength l) (zlength n))
                 (zlength pre + zlength (l ++ n ++ r) + 5
                  + (if (sg =? 123) && (byte_at tail 0 =? 125) then 1 else 0))).
Proof.
  intros Hst Hds Hde Hpos Hdata Hsg Hbody Hend Hsize Hn Hi.
  pose proof (tag_body_clean _ _ _ Hbody) as Hclean.
  destruct Hbody as (Fl & Fr & Hne & Hhd & Hlast & Fn).
  set (x := l ++ n ++ r) in *.
  pose proof (zlength_nonneg pre) as Hp0. pose proof (zlength_nonneg x) as Hx0.
  pose proof (zlength_nonneg l) as Hl0. pose proof (zlength_nonneg tail) as Ht0.
  assert (Hlen : zlength (Loader.data s) = zlength pre + zlength x + 5 + zlength tail).
  { rewrite Hdata. rewrite !zlength_app. unfold zlength at 2 4. cbn [List.length]. lia. }
  assert (Hz2 : zlength default_del_start = 2) by reflexivity.
  assert (Hz2' : zlength default_del_end = 2) by reflexivity.
  assert (E1 : skipn (Z.to_nat (zlength pre)) (Loader.data s)
               = 123 :: 123 :: sg :: x ++ 125 :: 125 :: tail).
  { rewrite Hdata.
    replace (zlength pre) with (zlength pre + 0) by lia.
    rewrite skipn_zlength_app by lia. reflexivity. }
  assert (E3 : skipn (Z.to_nat (zlength pre + 0 + 2)) (Loader.data s)
               = (sg :: x) ++ 125 :: 125 :: tail).
  { rewrite Hdata. replace (zlength pre + 0 + 2) with (zlength pre + 2) by lia.
    rewrite skipn_zlength_app by lia. reflexivity. }
  assert (E4 : strstr ((sg :: x) ++ 125 :: 125 :: tail) default_del_end
               = Some (zlength x + 1)).
  { unfold strstr. rewrite strstr_from_closing.
    - rewrite zlength_cons. reflexivity.
    - constructor; [| exact Hclean]. destruct Hsg as [-> | ->]; split; discriminate. }
  assert (Esig : byte_at (Loader.data s) (zlength pre + 0 + 2) = sg).
  { rewrite Hdata. replace (zlength pre + 0 + 2) with (zlength pre + 2) by lia.
    rewrite byte_at_app by lia. reflexivity. }
  unfold parse_step. rewrite Hpos, Hds, Hde, E1.
  change (strstr (123 :: 123 :: sg :: x ++ 125 :: 125 :: tail) default_del_start)
    with (Some 0).
  cbv iota beta. rewrite Hz2, Hz2', E3, E4.
  replace (Loader.data_end f <=? zlength pre + 0) with false
    by (symmetry; apply Z.leb_gt; lia).
  replace (Loader.data_end f <=? zlength pre + 0 + 2 + (zlength x + 1)) with false
    by (symmetry; apply Z.leb_gt; lia).
  change (0 =? 0) with true. cbv iota.
  replace (u32 (zlength pre + 0 + 2 + (zlength x + 1) + 2))
    with (zlength pre + zlength x + 5)
    by (unfold u32; rewrite Z.mod_small by lia; lia).
  unfold parse_tag.
  cbn [Loader.data Loader.set_top Loader.set_stack]. rewrite Esig.
  assert (Hsig : (sg =? 33) = false /\ (sg =? 61) = false /\ (sg =? 94) = false
                 /\ (sg =? 35) = false /\ (sg =? 62) = false /\ (sg =? 47) = false
                 /\ ((sg =? 123) || (sg =? 38)) = true).
  { destruct Hsg as [-> | ->]; repeat split. }
  destruct Hsig as (-> & -> & -> & -> & -> & -> & Hun).
  unfold tag_variable.
  cbn [Loader.data Loader.set_top Loader.set_stack Loader.data_pos Loader.del_end
       Loader.set_data_pos].
  rewrite Hde, Hun. cbn [negb orb].
  change (byte_at default_del_end 0 =? 125) with true.
  change (byte_at default_del_end (zlength default_del_end - 1) =? 125) with true.
  rewrite !andb_true_r.
  (* the byte behind the tag *)
  assert (Etail : byte_at (Loader.data s) (zlength pre + zlength x + 5) = byte_at tail 0).
  { rewrite Hdata.
    replace (pre ++ [123; 123; sg] ++ x ++ [125; 125] ++ tail)
      with ((pre ++ [123; 123; sg] ++ x ++ [125; 125]) ++ tail)
      by (rewrite <- !app_assoc; reflexivity).
    replace (zlength pre + zlength x + 5)
      with (zlength (pre ++ [123; 123; sg] ++ x ++ [125; 125]) + 0)
      by (rewrite !zlength_app; unfold zlength at 2 4; cbn [List.length]; lia).
    apply byte_at_app. lia. }
  rewrite Etail.
  (* the name *)
  pose proof (zlength_nonneg n) as Hn0. pose proof (zlength_nonneg r) as Hr0.
  assert (Hx : zlength x = zlength l + zlength n + zlength r)
    by (unfold x; rewrite !zlength_app; lia).
  assert (Efwd : skip_ws_fwd (Loader.data s) (zlength pre + 0 + 2 + 1)
                 = zlength pre + 3 + zlength l).
  { destruct n as [| c n'] eqn:En; [congruence |]. cbn [hd] in Hhd.
    unfold skip_ws_fwd. rewrite Hdata.
    replace (zlength pre + 0 + 2 + 1) with (zlength pre + 3) by lia.
    rewrite skipn_zlength_app by lia. change (Z.to_nat 3) with 3%nat.
    cbn [skipn app]. unfold x. rewrite <- !app_assoc. cbn [app].
    rewrite skip_ws_fwd_from_spaces by assumption. lia. }
  assert (Ebwd : skip_ws_bwd (Loader.data s) (zlength pre + 0 + 2 + (zlength x + 1) - 1)
                 = zlength pre + 3 + zlength l + zlength n - 1).
  { unfold skip_ws_bwd.
    destruct (Z.ltb_spec (zlength pre + 0 + 2 + (zlength x + 1) - 1) 0); [lia |].
    rewrite Hdata.
    pose proof (app_removelast_last 0 Hne) as Heq.
    remember (removelast n) as n0. remember (last n 0) as cl.
    set (a := pre ++ [123; 123; sg] ++ l ++ n0).
    replace (pre ++ [123; 123; sg] ++ x ++ [125; 125] ++ tail)
      with ((a ++ [cl]) ++ r ++ [125; 125] ++ tail)
      by (unfold a, x; rewrite Heq, <- !app_assoc; reflexivity).
    assert (Ha : zlength a = zlength pre + 3 + zlength l + zlength n - 1).
    { unfold a. rewrite Heq, !zlength_app. unfold zlength. cbn [List.length]. lia. }
    replace (Z.to_nat (zlength pre + 0 + 2 + (zlength x + 1) - 1))
      with (List.length a + List.length r)%nat
      by (rewrite Hx; unfold zlength in *; lia).
    rewrite skip_ws_bwd_from_spaces by (try assumption; lia).
    exact Ha. }
  unfold trim. rewrite Efwd, Ebwd.
  replace (zlength pre + 3 + zlength l + zlength n - 1 + 1
           - (zlength pre + 3 + zlength l)) with (zlength n) by lia.
  replace (u16 (zlength n)) with (zlength n)
    by (unfold u16; rewrite Z.mod_small; lia).
  replace (u32 (zlength pre + 3 + zlength l)) with (zlength pre + 3 + zlength l)
    by (unfold u32; rewrite Z.mod_small; lia).
  unfold mustache__instruction_push.
  cbn [Loader.i Loader.set_i Loader.set_top Loader.set_stack Loader.stack
       Loader.err Loader.data Loader.path snd tl].
  replace (INT32_MAX <=? zlength (Loader.i s)) with false
    by (symmetry; apply Z.leb_gt; lia).
  cbn [snd Loader.set_i Loader.i Loader.err Loader.data Loader.path Loader.stack].
  unfold after_tag, write_unescaped. rewrite Hst. cbn [tl].
  destruct ((sg =? 123) && (byte_at tail 0 =? 125)) eqn:Eb.
  - assert (0 < zlength tail).
    { destruct tail; [| rewrite zlength_cons; pose proof (zlength_nonneg tail); lia].
      apply andb_true_iff in Eb. destruct Eb as [_ Eb]. discriminate. }
    replace (u32 (zlength pre + zlength x + 5 + 1)) with (zlength pre + zlength x + 5 + 1)
      by (unfold u32; rewrite Z.mod_small; lia).
    unfold Loader.set_i, Loader.set_top, Loader.set_stack, Loader.set_data_pos.
    cbn [Loader.i Loader.err Loader.data Loader.path Loader.stack tl
         Loader.data_start Loader.data_pos Loader.data_end Loader.open_sections
         Loader.del_start Loader.del_end].
    rewrite Hst. reflexivity.
  - rewrite Z.add_0_r.
    unfold Loader.set_i, Loader.set_top, Loader.set_stack, Loader.set_data_pos.
    cbn [Loader.i Loader.err Loader.data Loader.path Loader.stack tl
         Loader.data_start Loader.data_pos Loader.data_end Loader.open_sections
         Loader.del_start Loader.del_end].
    rewrite Hst. reflexivity.
Qed.

(* ------------------------------------------------------------------ *)
(** ** Templates with the same texts *)

Section SameTexts.
Context {H : Type} (cb : callbacks H) (m1 m2 : mustache_s) (S : same_texts m1 m2).

Lemma view_of_same_texts p st :
  view_of (Builder.mk_builder m2 p st) = view_of (Builder.mk_builder m1 p st).
Proof.
  destruct S as [Si St]. unfold view_of, mustache_section_text.
  cbn [Builder.data Builder.pos Builder.stack]. rewrite <- Si.
  destruct (nth_error (instructions m1) (Z.to_nat p)) as [inst |] eqn:Ei; [| reflexivity].
  destruct (St inst (nth_error_In _ _ Ei)) as [_ Et].
  destruct (Inst.instruction inst); try reflexivity. rewrite Et. reflexivity.
Qed.

Lemma section_loop_same_texts p st h :
  section_loop cb (Builder.mk_builder m2 p st) h
  = let '(ev, t) := section_loop cb (Builder.mk_builder m1 p st) h in
    (ev, turn_with_template m2 t).
Proof.
  pose proof S as [Si St]. unfold section_loop, advance.
  unfold Builder.set_stack, Builder.set_pos.
  cbn [Builder.data Builder.pos Builder.stack].
  destruct st as [| f [| parent below]]; try reflexivity.
  - destruct (_ <? _); reflexivity.
  - destruct (_ <? _); [| reflexivity].
    rewrite <- Si.
    destruct (nth_error (instructions m1) _) as [inst |] eqn:Ei; [| reflexivity].
    destruct (St inst (nth_error_In _ _ Ei)) as [En _].
    destruct (negb _); [| reflexivity].
    rewrite view_of_same_texts, En.
    destruct (mustache_on_section_start _ _ _ _ _ _) as [[r x] h1].
    destruct (r =? -1); reflexivity.
Qed.

Lemma section_enter_same_texts p st inst h :
  In inst (instructions m1) ->
  section_enter cb (Builder.mk_builder m2 p st) inst h
  = let '(ev, t) := section_enter cb (Builder.mk_builder m1 p st) inst h in
    (ev, turn_with_template m2 t).
Proof.
  intros Hin. pose proof S as [Si St]. destruct (St inst Hin) as [En _].
  unfold section_enter, store_sec.
  unfold Builder.set_stack, Builder.set_pos.
  cbn [Builder.data Builder.pos Builder.stack].
  destruct st as [| top below]; [reflexivity |].
  destruct (_ <=? _); [reflexivity |].
  destruct (negb _).
  - rewrite view_of_same_texts, En.
    destruct (mustache_on_section_test _ _ _ _ _ _) as [[val x] h1].
    destruct (val =? -1); [reflexivity |].
    rewrite section_loop_same_texts.
    destruct (section_loop cb _ h1) as [ev' t']. reflexivity.
  - apply section_loop_same_texts.
Qed.

Lemma build_step_same_texts p st inst h :
  In inst (instructions m1) ->
  build_step cb (Builder.mk_builder m2 p st) inst h
  = let '(ev, t) := build_step cb (Builder.mk_builder m1 p st) inst h in
    (ev, turn_with_template m2 t).
Proof.
  intros Hin. pose proof S as [Si St]. destruct (St inst Hin) as [En _].
  unfold build_step, advance, store_sec.
  unfold Builder.set_stack, Builder.set_pos.
  destruct (Inst.instruction inst);
    try apply (section_enter_same_texts _ _ _ _ Hin);
    try apply section_loop_same_texts.
  all: cbn [Builder.data Builder.pos Builder.stack];
    destruct st as [| top below]; [reflexivity |];
    rewrite view_of_same_texts, En.
  - destruct (mustache_on_text _ _ _ _ _) as [[r x] h1].
    destruct (negb _); reflexivity.
  - destruct (mustache_on_arg _ _ _ _ _ _) as [[r x] h1].
    destruct (negb _); reflexivity.
  - destruct (mustache_on_arg _ _ _ _ _ _) as [[r x] h1].
    destruct (negb _); reflexivity.
Qed.

Lemma build_loop_same_texts fuel : forall p st h,
  build_loop cb fuel (Builder.mk_builder m2 p st) h
  = build_loop cb fuel (Builder.mk_builder m1 p st) h.
Proof.
  pose proof S as [Si St].
  induction fuel as [| fuel IH]; intros p st h; cbn [build_loop];
    cbn [Builder.data Builder.pos]; rewrite <- Si;
    destruct (nth_error (instructions m1) (Z.to_nat p)) as [inst |] eqn:Ei;
    try reflexivity.
  rewrite (build_step_same_texts _ _ _ _ (nth_error_In _ _ Ei)).
  destruct (build_step cb (Builder.mk_builder m1 p st) inst h) as [ev t] eqn:Es.
  pose proof (build_step_facts cb (Builder.mk_builder m1 p st) _ _ _ _ Ei Es)
    as (_ & _ & _ & F).
  destruct t as [[m' p' st'] h' | | |]; try reflexivity.
  specialize (F _ _ eq_refl). cbn in F. subst m'.
  unfold turn_with_template, with_template. cbv iota beta.
  cbn [Builder.pos Builder.stack].
  rewrite IH. reflexivity.
Qed.

Lemma mustache_build_same_texts u1 u2 fuel h :
  mustache_build cb {| mustache := Some m2; arg_udata1 := u1; arg_udata2 := u2 |} fuel h
  = mustache_build cb {| mustache := Some m1; arg_udata1 := u1; arg_udata2 := u2 |} fuel h.
Proof.
  pose proof S as [Si St]. unfold mustache_build. cbn [mustache arg_udata1 arg_udata2].
  unfold root_frame. rewrite <- Si. rewrite build_loop_same_texts. reflexivity.
Qed.

End SameTexts.

(* ------------------------------------------------------------------ *)
(** ** The two unescaped tags *)

Lemma zlength_triple_mustache x : zlength (triple_mustache x) = zlength x + 6.
Proof.
  unfold triple_mustache, zlength. rewrite !length_app. cbn [List.length]. lia.
Qed.

Lemma zlength_ampersand x : zlength (ampersand x) = zlength x + 5.
Proof.
  unfold ampersand, zlength. rewrite !length_app. cbn [List.length]. lia.
Qed.

(** Both tags in any template, at any place where the parser stands with
    the default delimiters, [pre1] and [pre2] being the data before the two
    tags (of the same length: they may differ, as the headers of the
    templates do): each tag adds the same instruction and is read to its
    end. *)
Lemma unescaped_tags_in_context (fs : filesystem)
    (s1 s2 : Loader.mustache__loader_stack_s) (f1 f2 : Loader.frame)
    (rest1 rest2 : list Loader.frame) (pre1 pre2 post1 post2 l n r : bytes) :
  let x := l ++ n ++ r in
  let inst := write_unescaped (zlength pre1 + 3 + zlength l) (zlength n) in
  tag_body l n r -> zlength n < 65536 ->
  zlength pre1 = zlength pre2 ->
  Loader.stack s1 = f1 :: rest1 -> Loader.stack s2 = f2 :: rest2 ->
  Loader.del_start f1 = default_del_start -> Loader.del_end f1 = default_del_end ->
  Loader.del_start f2 = default_del_start -> Loader.del_end f2 = default_del_end ->
  Loader.data_pos f1 = zlength pre1 -> Loader.data_pos f2 = zlength pre2 ->
  Loader.data s1 = pre1 ++ triple_mustache x ++ post1 ->
  Loader.data s2 = pre2 ++ ampersand x ++ post2 ->
  zlength pre1 + zlength (triple_mustache x) <= Loader.data_end f1 ->
  zlength pre2 + zlength (ampersand x) <= Loader.data_end f2 ->
  zlength (Loader.data s1) < 4294967296 -> zlength (Loader.data s2) < 4294967296 ->
  zlength (Loader.i s1) < INT32_MAX -> zlength (Loader.i s2) < INT32_MAX ->
  parse_step fs s1 f1
  = Return 0 (after_tag s1 inst (zlength pre1 + zlength (triple_mustache x)))
  /\ parse_step fs s2 f2
     = Return 0 (after_tag s2 inst (zlength pre2 + zlength (ampersand x))).
Proof.
  intros x inst Hb Hn Hpre St1 St2 D1 D1' D2 D2' P1 P2 Da1 Da2 E1 E2 Z1 Z2 I1 I2.
  rewrite zlength_triple_mustache in *. rewrite zlength_ampersand in *.
  split.
  - rewrite (parse_step_unescaped fs s1 f1 rest1 pre1 l n r (125 :: post1) 123);
      try assumption; try (left; reflexivity); try (fold x; lia).
    + fold x. cbn. do 2 f_equal. lia.
    + rewrite Da1. unfold triple_mustache. fold x. rewrite <- !app_assoc. reflexivity.
  - rewrite (parse_step_unescaped fs s2 f2 rest2 pre2 l n r post2 38);
      try assumption; try (right; reflexivity); try (fold x; lia).
    + fold x. cbn. unfold inst. rewrite Hpre. do 2 f_equal. lia.
    + rewrite Da2. unfold ampersand. fold x. rewrite <- !app_assoc. reflexivity.
Qed.

Lemma zlength_repeat {A} (x : A) (k : nat) : zlength (repeat x k) = Z.of_nat k.
Proof. unfold zlength. rewrite repeat_length. reflexivity. Qed.

Lemma firstn_zlength {A} (l : list A) : firstn (Z.to_nat (zlength l)) l = l.
Proof. unfold zlength. rewrite Nat2Z.id. apply firstn_all. Qed.

Lemma zlength_root_header (name : bytes) (data_len : Z) :
  zlength name < 65536 -> zlength (root_header name data_len) = 13 + zlength name.
Proof.
  intros Hn. pose proof (zlength_nonneg name) as H0.
  unfold root_header, mustache__data_segment_write.
  cbn [filename filename_len inst_start next path_len].
  replace (u16 (zlength name)) with (zlength name)
    by (unfold u16; rewrite Z.mod_small; lia).
  rewrite firstn_zlength. unfold mustache__data_segment_length.
  rewrite !zlength_app, zlength_repeat. unfold zlength in *.
  rewrite !length_app. cbn [List.length]. lia.
Qed.

Lemma root_header_inst_start (name : bytes) (data_len : Z) (rest : bytes) :
  inst_start (mustache__data_segment_read (root_header name data_len ++ rest)) = 0.
Proof.
  unfold root_header, mustache__data_segment_write. cbn [app inst_start].
  rewrite <- !app_assoc. cbn [app]. rewrite data_segment_read_bytes. reflexivity.
Qed.

Lemma load_data_root (name template : bytes) :
  zlength name < 65536 -> zlength template < 2147483648 ->
  mustache__load_data loader_start name (zlength name) template
  = (0, loader_at_root name template).
Proof.
  intros Hn Ht. pose proof (zlength_nonneg name). pose proof (zlength_nonneg template).
  unfold mustache__load_data, loader_start.
  cbn [Loader.data Loader.i Loader.stack Loader.set_data Loader.err Loader.path].
  change (zlength (@nil Z)) with 0.
  replace (UINT32_MAX <? 0 + zlength template) with false
    by (symmetry; apply Z.ltb_ge; unfold UINT32_MAX; lia).
  unfold mustache__instruction_push.
  cbn [Loader.data Loader.i Loader.stack Loader.set_data Loader.set_i Loader.err
       Loader.path snd app].
  change (INT32_MAX <=? zlength (@nil Inst.mustache__instruction_s)) with false.
  cbn [snd Loader.set_i Loader.stack Loader.set_stack Loader.i Loader.err
       Loader.data Loader.path app].
  change (MUSTACHE_NESTING_LIMIT <=? zlength (@nil Loader.frame) + 1) with false.
  cbv iota. unfold loader_at_root, root_frame_of, root_header.
  change (zlength (@nil Inst.mustache__instruction_s)) with 0.
  unfold mustache__data_segment_length.
  replace (u32 (0 + (13 + zlength name))) with (13 + zlength name)
    by (unfold u32; rewrite Z.mod_small; lia).
  reflexivity.
Qed.

(** A root template that is one tag: when the parser compiles the tag to
    [inst] and reads the template to its end, the load gives the three
    instructions of [one_instruction]. *)
Lemma load_one_tag (fs : filesystem) (name template : bytes)
    (inst : Inst.mustache__instruction_s) (k : nat) :
  zlength name < 65536 -> 0 < zlength template < 2147483648 ->
  parse_step fs (loader_at_root name template) (root_frame_of name template)
  = Return 0 (after_tag (loader_at_root name template) inst
                        (13 + zlength name + zlength template)) ->
  mustache_load fs {| LoadArgs.filename := name; LoadArgs.data := Some template |}
                (S (S k))
  = Loaded {| instructions := one_instruction inst;
              data_segment := root_header name (zlength template) ++ template |}
           MUSTACHE_OK.
Proof.
  intros Hn Ht Hp. unfold mustache_load. cbn [LoadArgs.data LoadArgs.filename].
  rewrite load_data_root by lia. cbn [Z.eqb].
  pose proof (zlength_root_header name (zlength template) Hn) as Hh.
  assert (Hend : Loader.data_end (root_frame_of name template)
                 = 13 + zlength name + zlength template).
  { unfold root_frame_of. cbn [Loader.data_end]. rewrite zlength_app, Hh. reflexivity. }
  (* the tag *)
  cbn [load_loop]. change (Loader.stack (loader_at_root name template))
    with [root_frame_of name template]. cbv iota.
  unfold load_step at 1. rewrite Hend.
  replace (Loader.data_pos (root_frame_of name template)
           <? 13 + zlength name + zlength template) with true
    by (symmetry; apply Z.ltb_lt; cbn [root_frame_of Loader.data_pos]; lia).
  rewrite Hp. cbn [Z.eqb].
  (* the end of the template *)
  set (s2 := after_tag _ _ _).
  assert (Hs2 : s2
    = {| Loader.i := [ {| Inst.instruction := Inst.MUSTACHE_SECTION_START;
                          Inst.data := Inst.zero |}; inst ];
         Loader.err := MUSTACHE_OK;
         Loader.data := root_header name (zlength template) ++ template;
         Loader.path := [];
         Loader.stack :=
           [ Loader.set_data_pos (root_frame_of name template)
                                 (13 + zlength name + zlength template) ] |})
    by reflexivity.
  rewrite Hs2. clear Hs2 s2. cbn [load_loop Loader.stack]. unfold load_step.
  cbn [Loader.set_data_pos Loader.data_pos Loader.data_end].
  rewrite Hend, Z.ltb_irrefl.
  unfold close_template.
  cbn [Loader.open_sections Loader.set_data_pos root_frame_of Z.eqb negb
       Loader.data_start Loader.data Loader.i Loader.stack Z.to_nat skipn].
  rewrite root_header_inst_start.
  unfold mustache__instruction_push.
  cbn [Loader.i Loader.set_i Z.to_nat update_nth firstn skipn app].
  replace (INT32_MAX <=? _) with false by reflexivity.
  cbn [snd Loader.set_i Loader.set_stack Loader.stack Loader.i Loader.data tl app].
  destruct k; reflexivity.
Qed.

Lemma slice_nothing (data : bytes) (pos : Z) : slice data pos 0 = [].
Proof. reflexivity. Qed.

Lemma name_in_tag (pre l n r rest : bytes) (a b c : Z) :
  slice (pre ++ [a; b; c] ++ (l ++ n ++ r) ++ rest)
        (zlength pre + 3 + zlength l) (zlength n) = n.
Proof.
  replace (pre ++ [a; b; c] ++ (l ++ n ++ r) ++ rest)
    with ((pre ++ [a; b; c] ++ l) ++ n ++ r ++ rest)
    by (rewrite <- !app_assoc; reflexivity).
  replace (zlength pre + 3 + zlength l) with (zlength (pre ++ [a; b; c] ++ l))
    by (rewrite !zlength_app; unfold zlength; cbn [List.length]; lia).
  apply slice_app.
Qed.

(** The two tags alone: for every name (trimmed of the white space around
    it) the templates [{{{x}}}] and [{{&x}}] compile to the same instructions, a
    [MUSTACHE_WRITE_ARG_UNESCAPED] for the name between the opening and the
    closing of the template; the builds of the two make the same calls, in
    the same order, with the same results, and each call of
    [mustache_on_arg] is for that name with [escape] 0.  (In a larger
    template the two tags add that same instruction, by
    [unescaped_tags_in_context].) *)
Theorem triple_mustache_is_ampersand (fs : filesystem) (name l n r : bytes) (k : nat) :
  tag_body l n r -> zlength name < 65536 -> zlength (l ++ n ++ r) < 65536 ->
  let x := l ++ n ++ r in
  exists m1 m2 inst,
    mustache_load fs {| LoadArgs.filename := name;
                        LoadArgs.data := Some (triple_mustache x) |} (S (S k))
    = Loaded m1 MUSTACHE_OK
    /\ mustache_load fs {| LoadArgs.filename := name;
                           LoadArgs.data := Some (ampersand x) |} (S (S k))
       = Loaded m2 MUSTACHE_OK
    /\ instructions m1 = one_instruction inst
    /\ instructions m2 = one_instruction inst
    /\ Inst.instruction inst = Inst.MUSTACHE_WRITE_ARG_UNESCAPED
    /\ name_of m1 inst = n /\ name_of m2 inst = n
    /\ forall (H : Type) (cb : callbacks H) (u1 u2 : Z) (fuel : nat) (h : H),
         mustache_build cb {| mustache := Some m1; arg_udata1 := u1; arg_udata2 := u2 |}
                        fuel h
         = mustache_build cb {| mustache := Some m2; arg_udata1 := u1; arg_udata2 := u2 |}
                          fuel h
         /\ forall p v name' len e r',
              In (Call p v (OnArg name' len e) r')
                 (fst (mustache_build cb {| mustache := Some m1; arg_udata1 := u1;
                                            arg_udata2 := u2 |} fuel h)) ->
              name' = n /\ len = zlength n /\ e = 0.
Proof.
  intros Hb Hname Hx x.
  pose proof (zlength_nonneg name) as Hn0. pose proof (zlength_nonneg x) as Hx0.
  assert (Hn : zlength n < 65536).
  { rewrite !zlength_app in Hx.
    pose proof (zlength_nonneg l). pose proof (zlength_nonneg r). lia. }
  change (zlength x < 65536) in Hx.
  set (t1 := triple_mustache x). set (t2 := ampersand x).
  set (h1 := root_header name (zlength t1)). set (h2 := root_header name (zlength t2)).
  set (inst := write_unescaped (13 + zlength name + 3 + zlength l) (zlength n)).
  assert (Hh1 : zlength h1 = 13 + zlength name) by (apply zlength_root_header; lia).
  assert (Hh2 : zlength h2 = 13 + zlength name) by (apply zlength_root_header; lia).
  assert (Ht1 : zlength t1 = zlength x + 6) by apply zlength_triple_mustache.
  assert (Ht2 : zlength t2 = zlength x + 5) by apply zlength_ampersand.
  destruct (unescaped_tags_in_context fs
              (loader_at_root name t1) (loader_at_root name t2)
              (root_frame_of name t1) (root_frame_of name t2) [] []
              h1 h2 [] [] l n r) as [P1 P2];
    try reflexivity; try assumption; try lia.
  1-8: cbn [root_frame_of loader_at_root Loader.data_pos Loader.data_end
            Loader.data Loader.i]; fold x t1 t2 h1 h2;
       rewrite ?app_nil_r, ?zlength_app; first [reflexivity | lia].
  fold x t1 t2 in P1, P2. rewrite Hh1 in P1. rewrite ?Hh1, ?Hh2 in P2.
  fold inst in P1, P2.
  exists {| instructions := one_instruction inst; data_segment := h1 ++ t1 |},
         {| instructions := one_instruction inst; data_segment := h2 ++ t2 |}, inst.
  assert (N1 : name_of {| instructions := one_instruction inst;
                          data_segment := h1 ++ t1 |} inst = n).
  { unfold name_of, inst, write_unescaped, t1, triple_mustache, x.
    cbn [data_segment Inst.data Inst.name_pos Inst.name_len].
    rewrite <- Hh1. apply name_in_tag. }
  assert (N2 : name_of {| instructions := one_instruction inst;
                          data_segment := h2 ++ t2 |} inst = n).
  { unfold name_of, inst, write_unescaped, t2, ampersand, x.
    cbn [data_segment Inst.data Inst.name_pos Inst.name_len].
    rewrite <- Hh2. apply name_in_tag. }
  split; [apply load_one_tag; try lia; exact P1 |].
  split; [apply load_one_tag; try lia; exact P2 |].
  split; [reflexivity |]. split; [reflexivity |]. split; [reflexivity |].
  split; [exact N1 |]. split; [exact N2 |].
  intros H cb u1 u2 fuel h. split.
  - symmetry. apply mustache_build_same_texts. split; [reflexivity |].
    cbn [instructions one_instruction]. intros i [<- | [<- | [<- | []]]].
    + split; reflexivity.
    + split; [rewrite N1, N2; reflexivity | reflexivity].
    + split; reflexivity.
  - intros p v name' len e r' Hin.
    destruct (mustache_build _ _ _ _) as [ev res] eqn:Eb. cbn [fst] in Hin.
    destruct (mustache_build_calls cb _ _ _ _ _ _ _ _ _ _ _ Eb Hin)
      as (i & Hi & (-> & -> & Htag) & _).
    apply nth_error_In in Hi. cbn [instructions one_instruction] in Hi.
    destruct Hi as [<- | [<- | [<- | []]]].
    + destruct Htag as [[X _] | [X _]]; discriminate.
    + destruct Htag as [[X _] | [_ ->]]; [discriminate |].
      repeat split. exact N1.
    + destruct Htag as [[X _] | [X _]]; discriminate.
Qed.


(* ------------------------------------------------------------------ *)
(** ** Calls that stop a build *)

Section Stops.
Context {H : Type} (cb : callbacks H).

Lemma section_loop_stops s h ev t :
  section_loop cb s h = (ev, t) -> turn_stops ev t.
Proof.
  destruct s as [m p st]. unfold section_loop.
  cbn -[view_of u32 zlength name_of]. intros E.
  destruct st as [| f below]; [inv_pair; constructor |].
  destruct (Builder.index f <? Builder.count f); [| inv_pair; constructor].
  destruct below as [| parent below']; [inv_pair; constructor |].
  destruct (nth_error _ _) as [inst |]; [| inv_pair; constructor].
  destruct (negb _); [| inv_pair; constructor].
  destruct (mustache_on_section_start _ _ _ _ _ _) as [[r x] h1].
  destruct (r =? -1) eqn:Er; inv_pair; cbn [turn_stops].
  - apply Z.eqb_eq in Er. eexists [], _. repeat split; [exact Er | constructor].
  - apply Z.eqb_neq in Er. constructor; [exact Er | constructor].
Qed.

Lemma section_enter_stops s inst h ev t :
  section_enter cb s inst h = (ev, t) -> turn_stops ev t.
Proof.
  destruct s as [m p st]. unfold section_enter.
  cbn -[section_loop view_of u32 zlength name_of]. intros E.
  destruct st as [| top below]; [inv_pair; split; [reflexivity | constructor] |].
  destruct (MUSTACHE_NESTING_LIMIT <=? _); [inv_pair; split; [reflexivity | constructor] |].
  destruct (negb _); [| apply section_loop_stops in E; exact E].
  destruct (mustache_on_section_test _ _ _ _ _ _) as [[val x] h1].
  destruct (val =? -1) eqn:Ev.
  - inv_pair. apply Z.eqb_eq in Ev. eexists [], _. repeat split; [exact Ev | constructor].
  - apply Z.eqb_neq in Ev.
    match type of E with
    | (let '(ev', t) := section_loop cb ?s2 ?h2 in _) = _ =>
      destruct (section_loop cb s2 h2) as [ev' t'] eqn:El;
      apply section_loop_stops in El
    end.
    inv_pair. destruct t; cbn [turn_stops] in *.
    + constructor; assumption.
    + destruct El as (ev0 & e & -> & He & F).
      exists (Call p (view_of
                {| Builder.data := m; Builder.pos := p;
                   Builder.stack :=
                     {| Builder.sec := Builder.sec top;
                        Builder.start :=
                          match Inst.instruction inst with
                          | Inst.MUSTACHE_SECTION_GOTO => Inst.len (Inst.data inst)
                          | _ => p
                          end;
                        Builder.end_ := Inst.end_ (Inst.data inst);
                        Builder.index := 0; Builder.count := 1;
                        Builder.frame := zlength (top :: below) |} :: top :: below |})
                (OnSectionTest (name_of m inst) (Inst.name_len (Inst.data inst))
                   (if Inst.tag_eqb (Inst.instruction inst) Inst.MUSTACHE_SECTION_START
                    then 1 else 0)) val :: ev0), e.
      repeat split; [exact He |]. constructor; assumption.
    + destruct El as [-> F]. split; [reflexivity |]. constructor; assumption.
    + constructor; assumption.
Qed.

Lemma build_step_stops s inst h ev t :
  build_step cb s inst h = (ev, t) -> turn_stops ev t.
Proof.
  unfold build_step. intros E.
  destruct (Inst.instruction inst) eqn:Et;
    try (apply section_enter_stops in E; exact E);
    try (apply section_loop_stops in E; exact E).
  all: destruct s as [m p st]; cbn -[view_of u32 zlength name_of] in E;
    destruct st as [| top below]; [inv_pair; constructor |].
  all: match type of E with
       | context [mustache_on_text ?a ?b ?c ?d ?e] =>
         destruct (mustache_on_text a b c d e) as [[r x] h1]
       | context [mustache_on_arg ?a ?b ?c ?d ?e ?f] =>
         destruct (mustache_on_arg a b c d e f) as [[r x] h1]
       end;
    destruct (r =? 0) eqn:Er; cbn -[view_of u32 zlength name_of] in E; inv_pair;
    cbn [turn_stops].
  all: first [ apply Z.eqb_eq in Er; subst r;
               constructor; [intros X; apply X; reflexivity | constructor]
             | apply Z.eqb_neq in Er; eexists [], _;
               repeat split; [exact Er | constructor] ].
Qed.

(** The whole loop: a call that stops the build is the last event of the
    loop, which then ends at [user_error]; the loop ends at [error] only
    with [MUSTACHE_ERR_TOO_DEEP]. *)
Lemma build_loop_stops fuel : forall s h ev e,
  build_loop cb fuel s h = (ev, e) ->
  Forall is_call ev
  /\ match e with
     | LoopUserError _ =>
       exists ev0 c, ev = ev0 ++ [c] /\ stops c /\ Forall (fun x => ~ stops x) ev0
     | LoopError e' _ => e' = MUSTACHE_ERR_TOO_DEEP /\ Forall (fun x => ~ stops x) ev
     | _ => Forall (fun x => ~ stops x) ev
     end.
Proof.
  intros s h ev e E. split; [apply (build_loop_facts cb fuel _ _ _ _ E) |].
  revert s h ev e E.
  induction fuel as [| fuel IH]; intros s h ev e E; cbn [build_loop] in E;
    destruct (nth_error _ _) as [inst |] eqn:Ei.
  1, 2, 4: inv_pair; constructor.
  destruct (build_step cb s inst h) as [ev1 t] eqn:Es.
  apply build_step_stops in Es.
  destruct t as [s' h' | h' | e' h' | w]; cbn [turn_stops] in Es.
  - destruct (build_loop cb fuel s' h') as [ev2 e2] eqn:El.
    apply IH in El. inv_pair.
    destruct e; try (apply Forall_app; split; assumption).
    + destruct El as (ev0 & c & -> & Hc & F).
      exists (ev1 ++ ev0), c. rewrite app_assoc. repeat split; [exact Hc |].
      apply Forall_app; split; assumption.
    + destruct El as [-> F]. split; [reflexivity |].
      apply Forall_app; split; assumption.
  - inv_pair. exact Es.
  - inv_pair. exact Es.
  - inv_pair. exact Es.
Qed.

End Stops.

(** X1: a call of [mustache_on_text] or [mustache_on_arg] that returns anything
    but 0, or a section callback that returns -1, is the last call of the
    build: [mustache_on_formatting_error] follows it and [mustache_build]
    returns -1 with [MUSTACHE_ERR_USER_ERROR]. *)
Theorem stopping_call_is_last (H : Type) (cb : callbacks H)
    (args : mustache_build_args_s) (fuel : nat) (h : H)
    (ev : list event) (res : build_result) :
  mustache_build cb args fuel h = (ev, res) ->
  Exists stops ev ->
  exists calls c h',
    ev = calls ++ [c; FormattingError (arg_udata1 args) (arg_udata2 args)]
    /\ stops c
    /\ Forall is_call calls
    /\ Forall (fun x => ~ stops x) calls
    /\ res = Built (-1) MUSTACHE_ERR_USER_ERROR h'.
Proof.
  unfold mustache_build, build_error. intros E A.
  destruct (mustache args) as [m |].
  - destruct (build_loop _ _ _ _) as [ev1 e] eqn:El.
    apply build_loop_stops in El. destruct El as [F1 F2].
    assert (No : Forall (fun x => ~ stops x) ev1 -> ~ Exists stops ev1).
    { intros F X. apply Exists_exists in X. destruct X as (x & Hx & Sx).
      rewrite Forall_forall in F. exact (F x Hx Sx). }
    destruct e as [h1 | h1 | e1 h1 | w |]; inv_pair;
      try (exfalso; apply (No F2); exact A).
    + destruct F2 as (ev0 & c & -> & Hc & F).
      exists ev0, c, (mustache_on_formatting_error cb h1 (arg_udata1 args) (arg_udata2 args)).
      rewrite <- app_assoc. repeat split; try assumption.
      apply Forall_app in F1. apply F1.
    + destruct F2 as [-> F2]. apply Exists_app in A. destruct A as [A | A].
      * exfalso. apply (No F2), A.
      * inversion A as [? ? Y | ? ? Y]; [destruct Y | inversion Y].
  - inv_pair. inversion A as [? ? Y | ? ? Y]; [destruct Y | inversion Y].
Qed.

(** X2: what [mustache_build] returns: 0 with [MUSTACHE_OK] after calls none of
    which stopped it and no call of [mustache_on_formatting_error]; or -1
    with another error after calls that end with the one call of
    [mustache_on_formatting_error], and when the error is not
    [MUSTACHE_ERR_USER_ERROR] none of the calls before it stopped the
    build. *)
Theorem build_result_and_trace (H : Type) (cb : callbacks H)
    (args : mustache_build_args_s) (fuel : nat) (h : H)
    (ev : list event) (r : Z) (e : mustache_error_en) (h' : H) :
  mustache_build cb args fuel h = (ev, Built r e h') ->
  (r = 0 /\ e = MUSTACHE_OK /\ Forall is_call ev /\ Forall (fun x => ~ stops x) ev)
  \/ (r = -1
      /\ e <> MUSTACHE_OK
      /\ exists calls,
           ev = calls ++ [FormattingError (arg_udata1 args) (arg_udata2 args)]
           /\ Forall is_call calls
           /\ (e <> MUSTACHE_ERR_USER_ERROR -> Forall (fun x => ~ stops x) calls)).
Proof.
  unfold mustache_build, build_error. intros E.
  destruct (mustache args) as [m |].
  - destruct (build_loop _ _ _ _) as [ev1 e1] eqn:El.
    apply build_loop_stops in El. destruct El as [F1 F2].
    destruct e1 as [h1 | h1 | e2 h1 | w |]; inv_pair.
    + left. repeat split; assumption.
    + right. split; [reflexivity |]. split; [discriminate |].
      exists ev1. repeat split; [exact F1 | congruence].
    + right. destruct F2 as [-> F2]. split; [reflexivity |].
      split; [discriminate |]. exists ev1.
      repeat split; [exact F1 | intros _; exact F2].
  - inv_pair. right. split; [reflexivity |]. split; [discriminate |].
    exists []. repeat split; [constructor | congruence].
Qed.

(* ------------------------------------------------------------------ *)
(** ** Section callbacks and the stack of the builder *)

Section Pointwise.
Context {H : Type} (cb : callbacks H) (P : event -> Prop).

(** A property of events that holds for the events of every turn holds for
    the events of the loop. *)
Lemma build_loop_pointwise :
  (forall s inst h, Forall P (fst (build_step cb s inst h))) ->
  forall fuel s h, Forall P (fst (build_loop cb fuel s h)).
Proof.
  intros Hstep. induction fuel as [| fuel IH]; intros s h; cbn [build_loop];
    destruct (nth_error _ _) as [inst |]; try constructor.
  specialize (Hstep s inst h).
  destruct (build_step cb s inst h) as [ev1 t]. cbn [fst] in Hstep.
  destruct t as [s' h' | h' | e' h' | w]; try exact Hstep.
  specialize (IH s' h'). destruct (build_loop cb fuel s' h') as [ev2 e2].
  cbn [fst] in *. apply Forall_app; split; assumption.
Qed.

Lemma mustache_build_pointwise :
  (forall s inst h, Forall P (fst (build_step cb s inst h))) ->
  (forall u1 u2, P (FormattingError u1 u2)) ->
  forall args fuel h, Forall P (fst (mustache_build cb args fuel h)).
Proof.
  intros Hstep Herr args fuel h. unfold mustache_build, build_error.
  destruct (mustache args) as [m |]; [| repeat constructor; apply Herr].
  match goal with
  | |- context [build_loop cb fuel ?s0 h] =>
    pose proof (build_loop_pointwise Hstep fuel s0 h) as F;
    destruct (build_loop cb fuel s0 h) as [ev e]
  end.
  cbn [fst] in F.
  destruct e; cbn [fst]; try exact F;
    apply Forall_app; split; try exact F; repeat constructor; apply Herr.
Qed.

End Pointwise.

Section ParentUdata.
Context {H : Type} (cb : callbacks H).

Lemma section_loop_parent_udata s h :
  Forall sees_parent_udata (fst (section_loop cb s h)).
Proof.
  destruct s as [m p st]. unfold section_loop.
  cbn -[u32 zlength name_of].
  destruct st as [| f below]; [constructor |].
  destruct (Builder.index f <? Builder.count f); [| constructor].
  destruct below as [| parent below']; [constructor |].
  destruct (nth_error _ _) as [inst |]; [| constructor].
  destruct (negb _); [| constructor].
  destruct (mustache_on_section_start _ _ _ _ _ _) as [[r x] h1].
  destruct (r =? -1); cbn [fst]; repeat constructor;
    cbn [sees_parent_udata view_sections]; eexists _, _; reflexivity.
Qed.

Lemma section_enter_parent_udata s inst h :
  Forall sees_parent_udata (fst (section_enter cb s inst h)).
Proof.
  destruct s as [m p st]. unfold section_enter.
  cbn -[section_loop u32 zlength name_of].
  destruct st as [| top below]; [constructor |].
  destruct (MUSTACHE_NESTING_LIMIT <=? _); [constructor |].
  destruct (negb _); [| apply section_loop_parent_udata].
  destruct (mustache_on_section_test _ _ _ _ _ _) as [[val x] h1].
  destruct (val =? -1).
  - cbn [fst]. repeat constructor. cbn. eexists _, _; reflexivity.
  - match goal with
    | |- context [section_loop cb ?s2 ?h2] =>
      pose proof (section_loop_parent_udata s2 h2) as F;
      destruct (section_loop cb s2 h2) as [ev' t']
    end.
    cbn [fst] in *. constructor; [| exact F]. cbn. eexists _, _; reflexivity.
Qed.

Lemma build_step_parent_udata s inst h :
  Forall sees_parent_udata (fst (build_step cb s inst h)).
Proof.
  unfold build_step.
  destruct (Inst.instruction inst);
    try apply section_enter_parent_udata; try apply section_loop_parent_udata.
  all: destruct (Builder.stack s); [constructor |].
  all: match goal with
       | |- context [mustache_on_text ?a ?b ?c ?d ?e] =>
         destruct (mustache_on_text a b c d e) as [[r x] h1]
       | |- context [mustache_on_arg ?a ?b ?c ?d ?e ?f] =>
         destruct (mustache_on_arg a b c d e f) as [[r x] h1]
       end;
    destruct (negb _); cbn [fst]; repeat constructor.
Qed.

End ParentUdata.

(** X3: both section callbacks are called for a stack entry into which the
    [udata] of the entry below was copied just before: what
    [mustache_on_section_test] stored in its section is gone when
    [mustache_on_section_start] is called, and [mustache_section_parent]
    of such a section skips the entry below it. *)
Theorem section_callbacks_see_parent_udata (H : Type) (cb : callbacks H)
    (args : mustache_build_args_s) (fuel : nat) (h : H)
    (p : Z) (v : section_view) (c : callback) (r : Z) :
  In (Call p v c r) (fst (mustache_build cb args fuel h)) ->
  (exists n l k, c = OnSectionTest n l k) \/ (exists n l k, c = OnSectionStart n l k) ->
  exists x rest,
    view_sections v = x :: x :: rest
    /\ mustache_section_parent (view_sections v) = mustache_section_parent (x :: rest).
Proof.
  intros I Hc.
  pose proof (mustache_build_pointwise cb sees_parent_udata
                (build_step_parent_udata cb) (fun _ _ => Logic.I) args fuel h) as F.
  rewrite Forall_forall in F. specialize (F _ I).
  assert (X : exists x rest, view_sections v = x :: x :: rest).
  { destruct Hc as [(n & l & k & ->) | (n & l & k & ->)]; exact F. }
  destruct X as (x & rest & E). exists x, rest. split; [exact E |].
  rewrite E. cbn [mustache_section_parent section_parent_from].
  rewrite !Z.eqb_refl. reflexivity.
Qed.

(** X4: [mustache_section_parent] gives the nearest entry below the section
    whose [udata1] or [udata2] differs from the section's own, and NULL
    when there is none: entries that hold the same two values are passed
    over. *)
Theorem section_parent_is_nearest_other (x : Builder.mustache_section_s)
    (below : list Builder.mustache_section_s) :
  let same g := Builder.udata1 g = Builder.udata1 x
                /\ Builder.udata2 g = Builder.udata2 x in
  match mustache_section_parent (x :: below) with
  | Some f =>
    exists passed rest,
      below = passed ++ f :: rest /\ Forall same passed /\ ~ same f
  | None => Forall same below
  end.
Proof.
  intros same. cbn [mustache_section_parent].
  induction below as [| g below IH]; [constructor |].
  cbn [section_parent_from].
  destruct (Z.eqb_spec (Builder.udata1 x) (Builder.udata1 g)) as [E1 | E1];
    destruct (Z.eqb_spec (Builder.udata2 x) (Builder.udata2 g)) as [E2 | E2];
    cbn [negb orb].
  2-4: exists [], below; repeat split; [constructor | intros [A B]; congruence].
  destruct (section_parent_from x below) as [f |].
  - destruct IH as (passed & rest & -> & F & N).
    exists (g :: passed), rest. repeat split; [| exact N].
    constructor; [split; congruence | exact F].
  - constructor; [split; congruence | exact IH].
Qed.

(** X5: the [escape] argument of [mustache_on_arg] tells the kind of the
    instruction the call is made at: 1 at a [MUSTACHE_WRITE_ARG], 0 at a
    [MUSTACHE_WRITE_ARG_UNESCAPED]; the name is the one the instruction
    points to. *)
Theorem arg_escape_flag (H : Type) (cb : callbacks H)
    (m : mustache_s) (u1 u2 : Z) (fuel : nat) (h : H)
    (ev : list event) (res : build_result)
    (pos : Z) (v : section_view) (name : bytes) (name_len escape r : Z) :
  mustache_build cb {| mustache := Some m; arg_udata1 := u1; arg_udata2 := u2 |}
                 fuel h = (ev, res) ->
  In (Call pos v (OnArg name name_len escape) r) ev ->
  exists inst,
    nth_error (instructions m) (Z.to_nat pos) = Some inst
    /\ name = name_of m inst
    /\ name_len = Inst.name_len (Inst.data inst)
    /\ (escape = 1 <-> Inst.instruction inst = Inst.MUSTACHE_WRITE_ARG)
    /\ (escape = 0 <-> Inst.instruction inst = Inst.MUSTACHE_WRITE_ARG_UNESCAPED).
Proof.
  intros E I.
  destruct (mustache_build_calls cb _ _ _ _ _ _ _ _ _ _ _ E I)
    as (inst & Hi & (-> & -> & Ht) & _).
  exists inst. split; [exact Hi |]. split; [reflexivity |]. split; [reflexivity |].
  destruct Ht as [[Ht ->] | [Ht ->]]; rewrite Ht; repeat split;
    intros; try reflexivity; discriminate.
Qed.


(* ------------------------------------------------------------------ *)
(** ** Headers written and read *)

(** X7: the round trip of a header whose fields are within their 32-bit and
    16-bit ranges gives the four fields back exactly when the 32-bit ones
    are below 2048 and the 16-bit ones below 512. *)
Theorem data_segment_roundtrip_exactly_when_small (seg : mustache__data_segment_s) :
  0 <= inst_start seg < 2 ^ 32 -> 0 <= next seg < 2 ^ 32 ->
  0 <= filename_len seg < 2 ^ 16 -> 0 <= path_len seg < 2 ^ 16 ->
  let back := mustache__data_segment_read (mustache__data_segment_write seg) in
  (inst_start back = inst_start seg <-> inst_start seg < 2048)
  /\ (next back = next seg <-> next seg < 2048)
  /\ (filename_len back = filename_len seg <-> filename_len seg < 512)
  /\ (path_len back = path_len seg <-> path_len seg < 512).
Proof.
  intros H1 H2 H3 H4 back.
  destruct (data_segment_read_write seg) as (E1 & E2 & E3 & E4).
  subst back. rewrite E1, E2, E3, E4.
  pose proof (Z.mod_pos_bound (inst_start seg) 2048).
  pose proof (Z.mod_pos_bound (next seg) 2048).
  pose proof (Z.mod_pos_bound (filename_len seg) 512).
  pose proof (Z.mod_pos_bound (path_len seg) 512).
  repeat split; intros X; try lia; apply Z.mod_small; lia.
Qed.

(** X8: the name of a header: [mustache__data_segment_write] stores the
    [filename_len] bytes of the name behind the twelve bytes of the fields
    and a NUL behind them, the number of bytes it returns is what
    [mustache__data_segment_length] tells, and
    [mustache__data_segment_read] points at the name. *)
Theorem data_segment_name_roundtrip (seg : mustache__data_segment_s) (rest : bytes) :
  0 <= filename_len seg <= zlength (filename seg) ->
  let n := filename_len seg in
  let written := mustache__data_segment_write seg in
  zlength written = mustache__data_segment_length n
  /\ firstn (Z.to_nat n) (filename (mustache__data_segment_read (written ++ rest)))
     = firstn (Z.to_nat n) (filename seg)
  /\ byte_at (written ++ rest) (12 + n) = 0.
Proof.
  intros Hn n written. subst written. unfold mustache__data_segment_write.
  fold n. set (nm := firstn (Z.to_nat n) (filename seg)).
  assert (Hl : zlength nm = n).
  { unfold nm, zlength in *. rewrite firstn_length_le by lia. lia. }
  split; [| split].
  - rewrite !zlength_app, Hl. unfold mustache__data_segment_length, zlength.
    cbn [List.length]. lia.
  - cbn [app]. rewrite data_segment_read_bytes. cbn [filename].
    rewrite <- app_assoc. rewrite <- Hl at 1. unfold zlength. rewrite Nat2Z.id.
    rewrite firstn_app, firstn_all, Nat.sub_diag. cbn [firstn]. apply app_nil_r.
  - cbn [app]. unfold byte_at.
    destruct (Z.ltb_spec (12 + n) 0); [lia |].
    replace (Z.to_nat (12 + n)) with (12 + List.length nm)%nat
      by (unfold zlength in Hl; lia).
    cbn [Nat.add nth]. rewrite <- app_assoc.
    rewrite app_nth2, Nat.sub_diag by lia. reflexivity.
Qed.

Lemma bytes_eqb_refl (a : bytes) : bytes_eqb a a = true.
Proof. induction a as [| x a IH]; cbn; [| rewrite Z.eqb_refl, IH]; reflexivity. Qed.

Lemma bytes_eqb_eq (a b : bytes) : bytes_eqb a b = true -> a = b.
Proof.
  revert b. induction a as [| x a IH]; intros [| y b] E; cbn in E;
    try reflexivity; try discriminate.
  apply andb_true_iff in E. destruct E as [E1 E2].
  apply Z.eqb_eq in E1. apply IH in E2. congruence.
Qed.

(** The walk from [off] with enough fuel: it stops going round only at a
    header whose [next] is read as zero, and what it finds is the
    [inst_start] of a header with the name looked for. *)
Lemma segment_walk_ends (data name : bytes) (name_len : Z) (fuel : nat) :
  forall off v e r,
  0 <= off -> zlength data - off <= Z.of_nat fuel ->
  segment_walk (S fuel) data name name_len off = (v, e, r) ->
  match r with
  | WalkStuck Hangs =>
    0 <= e < zlength data
    /\ next (mustache__data_segment_read (skipn (Z.to_nat e) data)) = 0
  | WalkFound p =>
    let seg := mustache__data_segment_read (skipn (Z.to_nat e) data) in
    0 <= e < zlength data
    /\ filename_len seg = name_len
    /\ firstn (Z.to_nat name_len) (filename seg) = firstn (Z.to_nat name_len) name
    /\ inst_start seg = p
  | WalkStuck ReadsOutOfBounds => 0 <= e /\ zlength data - 11 < e < zlength data
  | WalkStuck NullWrite => False
  | WalkMissing => zlength data <= e
  end.
Proof.
  induction fuel as [| fuel IH]; intros off v e r H0 Hf E.
  - cbn [segment_walk] in E.
    destruct (Z.ltb_spec off (zlength data)) as [L | L]; [cbn in Hf; lia |].
    inversion E; subst. exact L.
  - remember (S fuel) as b eqn:Eb. cbn [segment_walk] in E.
    destruct (Z.ltb_spec off (zlength data)) as [L | L];
      [| inversion E; subst; exact L].
    destruct (Z.ltb_spec (zlength data + 1) (off + 12)) as [B | B];
      [inversion E; subst; lia |].
    destruct (_ && _) eqn:Em.
    + inversion E; subst. apply andb_true_iff in Em. destruct Em as [M1 M2].
      apply Z.eqb_eq in M1. apply bytes_eqb_eq in M2.
      cbv zeta. repeat split; try assumption; lia.
    + destruct (Z.eqb_spec (next (mustache__data_segment_read
                                    (skipn (Z.to_nat off) data))) 0) as [N | N].
      * inversion E; subst. split; [lia | exact N].
      * pose proof (next_nonneg (skipn (Z.to_nat off) data)) as Hn.
        destruct (segment_walk b data name name_len _) as [[v1 e1] r1] eqn:Ew.
        inversion E; subst. eapply IH; [| | exact Ew]; lia.
Qed.

(** X9: [mustache__file_is_loaded] does not come back only when a header it
    reads has a [next] of zero or lies across the end of the buffer. *)
Theorem file_is_loaded_stuck (s : Loader.mustache__loader_stack_s)
    (name : bytes) (name_len : Z) (w : stuck) :
  mustache__file_is_loaded s name name_len = inr w ->
  exists off,
    0 <= off < zlength (Loader.data s)
    /\ ((w = Hangs
         /\ next (mustache__data_segment_read
                    (skipn (Z.to_nat off) (Loader.data s))) = 0)
        \/ (w = ReadsOutOfBounds /\ zlength (Loader.data s) - 11 < off)).
Proof.
  unfold mustache__file_is_loaded. intros E.
  destruct (segment_walk _ _ _ _ _) as [[v e] r] eqn:Ew.
  apply segment_walk_ends in Ew; [| lia | unfold zlength; lia].
  destruct r as [p | | w']; try discriminate. inversion E; subst w'.
  exists e. destruct w.
  - split; [apply Ew |]. left. split; [reflexivity | apply Ew].
  - split; [lia |]. right. split; [reflexivity | lia].
  - destruct Ew.
Qed.

(** X10: a position that [mustache__file_is_loaded] returns, other than
    [(uint32_t)-1], is the [inst_start] read from a header of the buffer
    whose name is the one looked for. *)
Theorem file_is_loaded_found (s : Loader.mustache__loader_stack_s)
    (name : bytes) (name_len p : Z) :
  mustache__file_is_loaded s name name_len = inl p ->
  p <> UINT32_MAX ->
  exists off,
    let seg := mustache__data_segment_read (skipn (Z.to_nat off) (Loader.data s)) in
    0 <= off < zlength (Loader.data s)
    /\ filename_len seg = name_len
    /\ firstn (Z.to_nat name_len) (filename seg) = firstn (Z.to_nat name_len) name
    /\ inst_start seg = p.
Proof.
  unfold mustache__file_is_loaded. intros E Hp.
  destruct (segment_walk _ _ _ _ _) as [[v e] r] eqn:Ew.
  apply segment_walk_ends in Ew; [| lia | unfold zlength; lia].
  destruct r as [p' | | w']; try discriminate; inversion E; subst; [| congruence].
  exists e. exact Ew.
Qed.

Lemma segment_walk_step (fuel : nat) (data name : bytes) (name_len off : Z) :
  segment_walk (S fuel) data name name_len off
  = if off <? zlength data then
      if zlength data + 1 <? off + 12 then ([off], off, WalkStuck ReadsOutOfBounds)
      else
        let seg := mustache__data_segment_read (skipn (Z.to_nat off) data) in
        if (filename_len seg =? name_len)
           && bytes_eqb (firstn (Z.to_nat name_len) (filename seg))
                        (firstn (Z.to_nat name_len) name)
        then ([off], off, WalkFound (inst_start seg))
        else if next seg =? 0 then ([off], off, WalkStuck Hangs)
        else
          let '(v, e, r) := segment_walk fuel data name name_len (off + next seg) in
          (off :: v, e, r)
    else ([], off, WalkMissing).
Proof. reflexivity. Qed.

(** X11: the template that was loaded first is found again under its name, at
    instruction 0, when the name is shorter than 512 bytes. *)
Theorem root_template_is_found (name template : bytes) :
  zlength name < 512 -> zlength template < 2147483648 ->
  mustache__file_is_loaded
    (snd (mustache__load_data loader_start name (zlength name) template))
    name (zlength name)
  = inl 0.
Proof.
  intros Hn Ht. pose proof (zlength_nonneg name) as Hn0.
  rewrite load_data_root by lia. cbn [snd].
  unfold mustache__file_is_loaded, loader_at_root. cbn [Loader.data].
  set (data := root_header name (zlength template) ++ template).
  assert (Hh : zlength (root_header name (zlength template)) = 13 + zlength name)
    by (apply zlength_root_header; lia).
  assert (Hd : zlength data = 13 + zlength name + zlength template)
    by (unfold data; rewrite zlength_app, Hh; reflexivity).
  pose proof (zlength_nonneg template) as Ht0.
  rewrite segment_walk_step.
  replace (0 <? zlength data) with true by (symmetry; apply Z.ltb_lt; lia).
  replace (zlength data + 1 <? 0 + 12) with false by (symmetry; apply Z.ltb_ge; lia).
  change (Z.to_nat 0) with 0%nat. rewrite skipn_O.
  assert (Hseg : filename_len (mustache__data_segment_read data) = zlength name
                 /\ firstn (Z.to_nat (zlength name))
                           (filename (mustache__data_segment_read data)) = name).
  { unfold data, root_header, mustache__data_segment_write.
    cbn [filename filename_len inst_start next path_len].
    replace (u16 (zlength name)) with (zlength name)
      by (unfold u16; rewrite Z.mod_small; lia).
    rewrite firstn_zlength. cbn [app]. rewrite <- !app_assoc. cbn [app].
    rewrite data_segment_read_bytes. cbn [filename filename_len]. split.
    - rewrite pack16_low_bits. unfold u16.
      rewrite (Z.mod_small (zlength name) 512) by lia. apply Z.mod_small. lia.
    - unfold zlength. rewrite Nat2Z.id.
      rewrite firstn_app, firstn_all, Nat.sub_diag. cbn [firstn]. apply app_nil_r. }
  assert (Hst : inst_start (mustache__data_segment_read data) = 0)
    by (unfold data; apply root_header_inst_start).
  cbv zeta. destruct Hseg as [Hf1 Hf2]. rewrite Hf1, Hf2, Hst.
  rewrite Z.eqb_refl, firstn_zlength, bytes_eqb_refl. reflexivity.
Qed.

(* ------------------------------------------------------------------ *)
(** ** Files and paths *)

(** X12: the folder of a name as [mustache__load_data] finds it: the bytes up
    to and with the last [/] or [\] among the first [n], none when there is
    no such byte. *)
Theorem path_len_is_last_separator (name : bytes) (n : nat) :
  let sep c := c = 47 \/ c = 92 in
  let r := path_len_scan name n in
  0 <= r <= Z.of_nat n
  /\ (0 < r -> sep (nth (Z.to_nat (r - 1)) name 0))
  /\ (forall k, (Z.to_nat r <= k < n)%nat -> ~ sep (nth k name 0)).
Proof.
  intros sep. induction n as [| n IH]; cbn [path_len_scan].
  - cbv zeta. split; [lia |]. split; [lia |]. intros k Hk. lia.
  - cbv zeta in *.
    assert (Hsep : (nth n name 0 =? 47) || (nth n name 0 =? 92) = true
                   <-> sep (nth n name 0)).
    { unfold sep. rewrite orb_true_iff, !Z.eqb_eq. reflexivity. }
    destruct ((nth n name 0 =? 47) || (nth n name 0 =? 92)).
    + split; [lia |]. split.
      * intros _. replace (Z.to_nat (Z.of_nat (S n) - 1)) with n by lia.
        apply Hsep. reflexivity.
      * intros k Hk. lia.
    + destruct IH as (I1 & I2 & I3). split; [lia |]. split; [exact I2 |].
      intros k Hk. destruct (Nat.eq_dec k n) as [-> | Hne].
      * intros X. apply Hsep in X. discriminate.
      * apply I3. lia.
Qed.

Section NoFiles.
Variable fs : filesystem.
Hypothesis Hfs : forall p, fs p = None.

Lemma probe_without_files folder folder_len name name_len :
  probe fs folder folder_len name name_len
  = FileMissing ((folder ++ name) ++ dot_mustache).
Proof. unfold probe. rewrite !Hfs. reflexivity. Qed.

Lemma path_search_without_files data name name_len frames :
  forall path old_path_len,
  exists p, path_search fs data name name_len frames path old_path_len = FileMissing p.
Proof.
  induction frames as [| f rest IH]; intros path old; cbn [path_search].
  - eexists; reflexivity.
  - destruct (_ && _); [apply IH |].
    rewrite probe_without_files. destruct (_ =? 0); [eexists; reflexivity | apply IH].
Qed.

End NoFiles.

(** X13: a partial for which no file is found: when its name is the name of the
    first template loaded, the loader adds a [MUSTACHE_SECTION_GOTO] to
    instruction 0; else it fails with [MUSTACHE_ERR_FILE_NOT_FOUND], and
    adds no instruction and no data. *)
Theorem load_file_without_files (fs : filesystem)
    (s : Loader.mustache__loader_stack_s) (name : bytes) (name_len : Z) :
  (forall p, fs p = None) ->
  0 < name_len < 8192 ->
  zlength (Loader.i s) < INT32_MAX ->
  let seg := mustache__data_segment_read (Loader.data s) in
  let root_name :=
    negb (zlength (Loader.data s) =? 0)
    && (filename_len seg =? name_len)
    && bytes_eqb (firstn (Z.to_nat name_len) (filename seg))
                 (firstn (Z.to_nat name_len) name) in
  exists s',
    mustache__load_file fs s name name_len = Return (if root_name then 0 else -1) s'
    /\ Loader.data s' = Loader.data s
    /\ Loader.stack s' = Loader.stack s
    /\ if root_name
       then Loader.i s'
            = Loader.i s
              ++ [ {| Inst.instruction := Inst.MUSTACHE_SECTION_GOTO;
                      Inst.data := {| Inst.end_ := u32 (zlength (Loader.i s));
                                      Inst.len := 0; Inst.name_pos := 0;
                                      Inst.name_len := 0; Inst.offset := 0 |} |} ]
            /\ Loader.err s' = Loader.err s
       else Loader.i s' = Loader.i s
            /\ Loader.err s' = MUSTACHE_ERR_FILE_NOT_FOUND.
Proof.
  intros Hfs Hn Hi seg root_name. unfold mustache__load_file.
  destruct (Z.eqb_spec name_len 0); [lia |].
  destruct (Z.ltb_spec name_len 0); [lia |].
  destruct (Z.leb_spec 8192 name_len); [lia |]. cbn [orb].
  assert (Hfound : exists p,
            match Loader.data s with
            | [] => probe fs [] 0 name name_len
            | _ => path_search fs (Loader.data s) name name_len
                               (Loader.stack s) (Loader.path s) 0
            end = FileMissing p).
  { destruct (Loader.data s).
    - rewrite probe_without_files by exact Hfs. eexists; reflexivity.
    - apply path_search_without_files, Hfs. }
  destruct Hfound as [p ->].
  cbn [Loader.set_path Loader.data Loader.i].
  fold seg. fold root_name. destruct root_name.
  - unfold mustache__instruction_push.
    change (Loader.i (Loader.set_path s p)) with (Loader.i s).
    destruct (Z.leb_spec INT32_MAX (zlength (Loader.i s))); [lia |].
    eexists. split; [reflexivity |]. repeat split.
  - eexists. split; [reflexivity |]. repeat split.
Qed.

(** X14: [mustache_load] without data looks at the length of the file name
    before it looks for the file: an empty name gives
    [MUSTACHE_ERR_FILE_NAME_TOO_SHORT], a name of 8192 bytes or more
    [MUSTACHE_ERR_FILE_NAME_TOO_LONG], whatever files there are. *)
Theorem load_checks_name_length (fs : filesystem) (name : bytes) (fuel : nat) :
  zlength name = 0 \/ 8192 <= zlength name ->
  mustache_load fs {| LoadArgs.filename := name; LoadArgs.data := None |} fuel
  = LoadFailed (if zlength name =? 0 then MUSTACHE_ERR_FILE_NAME_TOO_SHORT
                else MUSTACHE_ERR_FILE_NAME_TOO_LONG).
Proof.
  intros Hn. unfold mustache_load, mustache__load_file.
  cbn [LoadArgs.data LoadArgs.filename].
  destruct (Z.eqb_spec (zlength name) 0); [reflexivity |].
  destruct (Z.ltb_spec (zlength name) 0);
    [pose proof (zlength_nonneg name); lia |].
  destruct (Z.leb_spec 8192 (zlength name)); [reflexivity | lia].
Qed.

(* ------------------------------------------------------------------ *)
(** ** What the loader keeps *)

Lemma load_loop_turns (fs : filesystem) (n k : nat) :
  forall s s', load_turns n fs s = Some s' ->
  load_loop (n + k) fs s = load_loop k fs s'.
Proof.
  induction n as [| n IH]; intros s s' E; cbn [load_turns] in E.
  - inversion E. reflexivity.
  - cbn [Nat.add load_loop]. destruct (Loader.stack s) as [| f rest]; [discriminate |].
    destruct (load_step fs s f) as [r s1 | w]; [| discriminate].
    destruct (r =? 0); [| discriminate]. apply IH, E.
Qed.

Lemma same_instruction_refl a : same_instruction a a.
Proof. repeat split. Qed.

Lemma same_instruction_trans a b c :
  same_instruction a b -> same_instruction b c -> same_instruction a c.
Proof. unfold same_instruction. intuition congruence. Qed.

Lemma Forall2_same_refl l : Forall2 same_instruction l l.
Proof. induction l; constructor; [apply same_instruction_refl | assumption]. Qed.

Lemma grows_from_refl l : grows_from l l.
Proof. exists l, []. split; [symmetry; apply app_nil_r | apply Forall2_same_refl]. Qed.

Lemma grows_from_app l more : grows_from l (l ++ more).
Proof. exists l, more. split; [reflexivity | apply Forall2_same_refl]. Qed.

Lemma Forall2_same_trans l1 : forall l2 l3,
  Forall2 same_instruction l1 l2 -> Forall2 same_instruction l2 l3 ->
  Forall2 same_instruction l1 l3.
Proof.
  induction l1 as [| a l1 IH]; intros l2 l3 A B; inversion A; subst;
    inversion B; subst; constructor.
  - eapply same_instruction_trans; eassumption.
  - eapply IH; eassumption.
Qed.

Lemma grows_from_trans l1 l2 l3 :
  grows_from l1 l2 -> grows_from l2 l3 -> grows_from l1 l3.
Proof.
  intros (k1 & m1 & -> & F1) (k2 & m2 & -> & F2).
  apply Forall2_app_inv_l in F2. destruct F2 as (k2a & k2b & Fa & Fb & ->).
  exists k2a, (k2b ++ m2). split; [rewrite app_assoc; reflexivity |].
  eapply Forall2_same_trans; eassumption.
Qed.

Lemma grows_from_update f l : forall n,
  (forall x, nth_error l n = Some x -> same_instruction x (f x)) ->
  grows_from l (update_nth n f l).
Proof.
  intros n Hf. exists (update_nth n f l), []. split; [symmetry; apply app_nil_r |].
  revert n Hf. induction l as [| a l IH]; intros [| n] Hf; unfold update_nth;
    cbn [firstn skipn app].
  - constructor.
  - constructor.
  - constructor; [apply Hf; reflexivity | apply Forall2_same_refl].
  - constructor; [apply same_instruction_refl |]. apply (IH n). exact Hf.
Qed.

Lemma loader_grows_refl s : loader_grows s s.
Proof.
  split; [apply grows_from_refl | exists []; symmetry; apply app_nil_r].
Qed.

Lemma loader_grows_trans s1 s2 s3 :
  loader_grows s1 s2 -> loader_grows s2 s3 -> loader_grows s1 s3.
Proof.
  intros [G1 [m1 D1]] [G2 [m2 D2]]. split.
  - eapply grows_from_trans; eassumption.
  - exists (m1 ++ m2). rewrite D2, D1, app_assoc. reflexivity.
Qed.

(** A state that differs from [s] in neither instructions nor data. *)
Lemma loader_grows_same s s' :
  Loader.i s' = Loader.i s -> Loader.data s' = Loader.data s -> loader_grows s s'.
Proof.
  intros Ei Ed. unfold loader_grows. rewrite Ei, Ed. apply loader_grows_refl.
Qed.

Lemma instruction_push_grows s inst :
  loader_grows s (snd (mustache__instruction_push s inst)).
Proof.
  unfold mustache__instruction_push. destruct (_ <=? _); cbn [snd].
  - apply loader_grows_same; reflexivity.
  - split; [apply grows_from_app | exists []; symmetry; apply app_nil_r].
Qed.

Lemma load_data_grows s name name_len data :
  loader_grows s (snd (mustache__load_data s name name_len data)).
Proof.
  unfold mustache__load_data. destruct (_ <? _); cbn [snd];
    [apply loader_grows_same; reflexivity |].
  match goal with
  | |- context [mustache__instruction_push ?s1 ?x] =>
    pose proof (instruction_push_grows s1 x) as G;
    destruct (mustache__instruction_push s1 x) as [r s2]
  end.
  cbn [snd] in *.
  assert (G0 : loader_grows s s2).
  { eapply loader_grows_trans; [| exact G].
    split; [apply grows_from_refl | eexists; reflexivity]. }
  destruct (_ <=? _); cbn [snd];
    (eapply loader_grows_trans; [exact G0 | apply loader_grows_same; reflexivity]).
Qed.

Lemma load_file_grows fs s name name_len r s' :
  mustache__load_file fs s name name_len = Return r s' -> loader_grows s s'.
Proof.
  unfold mustache__load_file. intros E.
  destruct (_ =? 0); [inversion E; apply loader_grows_same; reflexivity |].
  destruct (_ || _); [inversion E; apply loader_grows_same; reflexivity |].
  match type of E with
  | match ?found with _ => _ end = _ => destruct found as [p l c | p]
  end.
  - destruct (_ <=? _); [inversion E; apply loader_grows_same; reflexivity |].
    destruct (mustache__file_is_loaded _ _ _) as [pre | w]; [| discriminate].
    destruct (negb _).
    + match type of E with
      | context [mustache__instruction_push ?s1 ?x] =>
        pose proof (instruction_push_grows s1 x) as G;
        destruct (mustache__instruction_push s1 x) as [r1 s2]
      end.
      inversion E; subst. cbn [snd] in G.
      eapply loader_grows_trans; [| exact G]. apply loader_grows_same; reflexivity.
    + match type of E with
      | context [mustache__load_data ?s1 ?a ?b ?c] =>
        pose proof (load_data_grows s1 a b c) as G;
        destruct (mustache__load_data s1 a b c) as [r1 s2]
      end.
      inversion E; subst. cbn [snd] in G.
      eapply loader_grows_trans; [| exact G]. apply loader_grows_same; reflexivity.
  - destruct (_ && _).
    + match type of E with
      | context [mustache__instruction_push ?s1 ?x] =>
        pose proof (instruction_push_grows s1 x) as G;
        destruct (mustache__instruction_push s1 x) as [r1 s2]
      end.
      inversion E; subst. cbn [snd] in G.
      eapply loader_grows_trans; [| exact G]. apply loader_grows_same; reflexivity.
    + inversion E. apply loader_grows_same; reflexivity.
Qed.

Ltac grows_same := apply loader_grows_same; reflexivity.

Ltac grows_push :=
  match goal with
  | |- context [mustache__instruction_push ?s1 ?x] =>
    let G := fresh "G" in
    pose proof (instruction_push_grows s1 x) as G;
    destruct (mustache__instruction_push s1 x) as [? ?]; cbn [snd] in *
  | E : context [mustache__instruction_push ?s1 ?x] |- _ =>
    let G := fresh "G" in
    pose proof (instruction_push_grows s1 x) as G;
    destruct (mustache__instruction_push s1 x) as [? ?]; cbn [snd] in *
  end.

Lemma fail_grows s e r s' : fail s e = Return r s' -> loader_grows s s'.
Proof. unfold fail. intros E. inversion E. grows_same. Qed.

Lemma tag_delimiters_grows s f beg end_ r s' :
  tag_delimiters s f beg end_ = Return r s' -> loader_grows s s'.
Proof.
  unfold tag_delimiters. intros E.
  repeat match type of E with
         | (if ?c then _ else _) = _ => destruct c
         end;
    first [ apply fail_grows in E; eapply loader_grows_trans; [| exact E]; grows_same
          | inversion E; grows_same ].
Qed.

Lemma tag_section_start_grows s f esc beg end_ r s' :
  tag_section_start s f esc beg end_ = Return r s' -> loader_grows s s'.
Proof.
  unfold tag_section_start. intros E.
  destruct (trim _ _ _) as [b e].
  destruct (_ <=? _);
    [apply fail_grows in E; eapply loader_grows_trans; [| exact E]; grows_same |].
  grows_push. inversion E; subst.
  eapply loader_grows_trans; [| exact G]. destruct (_ <=? _); grows_same.
Qed.

Lemma tag_section_end_grows s f org beg end_ r s' :
  tag_section_end s f org beg end_ = Return r s' -> loader_grows s s'.
Proof.
  unfold tag_section_end. intros E.
  destruct (trim _ _ _) as [b e].
  destruct (_ =? 0); [apply fail_grows in E; exact E |].
  destruct (find_opener _ _ _) as [pos |]; [| apply fail_grows in E; exact E].
  destruct (nth_error _ _) as [op |] eqn:Eop; [| apply fail_grows in E; exact E].
  destruct (_ || _); [apply fail_grows in E; exact E |].
  grows_push. inversion E; subst.
  eapply loader_grows_trans; [| eapply loader_grows_trans; [exact G | grows_same]].
  split; [| exists []; symmetry; apply app_nil_r].
  cbn [Loader.i Loader.set_i]. apply grows_from_update.
  intros x Hx. assert (x = op) by congruence. subst x. repeat split.
Qed.

Lemma tag_variable_grows s f sigil beg end_ r s' :
  tag_variable s f sigil beg end_ = Return r s' -> loader_grows s s'.
Proof.
  unfold tag_variable. intros E. destruct (trim _ _ _) as [b e].
  grows_push. inversion E; subst.
  eapply loader_grows_trans; [| exact G]. grows_same.
Qed.

Lemma parse_tag_grows fs s f org beg end_ r s' :
  parse_tag fs s f org beg end_ = Return r s' -> loader_grows s s'.
Proof.
  unfold parse_tag. intros E.
  repeat match type of E with
         | (if ?c then _ else _) = _ => destruct c
         end.
  - inversion E. apply loader_grows_refl.
  - eapply tag_delimiters_grows, E.
  - eapply tag_section_start_grows, E.
  - eapply tag_section_start_grows, E.
  - unfold tag_partial in E. destruct (trim _ _ _) as [b e].
    eapply load_file_grows, E.
  - eapply tag_section_end_grows, E.
  - eapply tag_variable_grows, E.
Qed.

Lemma text_rest_grows s f r s' :
  text_rest s f = Return r s' -> loader_grows s s'.
Proof.
  unfold text_rest. intros E. grows_push. inversion E; subst.
  eapply loader_grows_trans; [exact G | grows_same].
Qed.

Lemma parse_step_grows fs s f r s' :
  parse_step fs s f = Return r s' -> loader_grows s s'.
Proof.
  unfold parse_step. intros E.
  destruct (strstr _ _) as [off |]; [| eapply text_rest_grows, E].
  destruct (_ <=? _); [eapply text_rest_grows, E |].
  match type of E with
  | context [if off =? 0 then s else ?s1] =>
    assert (G : loader_grows s (if off =? 0 then s else s1))
      by (destruct (off =? 0); [apply loader_grows_refl | apply instruction_push_grows]);
    destruct (if off =? 0 then s else s1) as [i0 e0 d0 p0 st0] eqn:Es1
  end.
  destruct (strstr _ _) as [off_end |];
    [| apply fail_grows in E; eapply loader_grows_trans; eassumption].
  destruct (_ <=? _);
    [apply fail_grows in E; eapply loader_grows_trans; eassumption |].
  apply parse_tag_grows in E.
  eapply loader_grows_trans; [exact G |].
  eapply loader_grows_trans; [| exact E]. grows_same.
Qed.

Lemma close_template_grows s f r s' :
  close_template s f = Return r s' -> loader_grows s s'.
Proof.
  unfold close_template. intros E.
  destruct (negb _); [apply fail_grows in E; exact E |].
  grows_push. inversion E; subst.
  eapply loader_grows_trans; [| eapply loader_grows_trans; [exact G | grows_same]].
  split; [| exists []; symmetry; apply app_nil_r].
  cbn [Loader.i Loader.set_i]. apply grows_from_update.
  intros x _. repeat split.
Qed.

Lemma load_step_grows fs s f r s' :
  load_step fs s f = Return r s' -> loader_grows s s'.
Proof.
  unfold load_step. destruct (_ <? _);
    [apply parse_step_grows | apply close_template_grows].
Qed.

Lemma load_turns_grows fs n : forall s s',
  load_turns n fs s = Some s' -> loader_grows s s'.
Proof.
  induction n as [| n IH]; intros s s' E; cbn [load_turns] in E.
  - inversion E. apply loader_grows_refl.
  - destruct (Loader.stack s) as [| f rest]; [discriminate |].
    destruct (load_step fs s f) as [r s1 | w] eqn:Es; [| discriminate].
    destruct (r =? 0); [| discriminate].
    eapply loader_grows_trans; [eapply load_step_grows, Es | apply IH, E].
Qed.

Lemma load_loop_grows fs fuel : forall s m e,
  load_loop fuel fs s = Loaded m e ->
  grows_from (Loader.i s) (instructions m)
  /\ exists more, data_segment m = Loader.data s ++ more.
Proof.
  induction fuel as [| fuel IH]; intros s m e E; cbn [load_loop] in E;
    destruct (Loader.stack s) as [| f rest];
    try (inversion E; subst; cbn [instructions data_segment];
         split; [apply grows_from_refl | exists []; symmetry; apply app_nil_r]);
    try discriminate.
  destruct (load_step fs s f) as [r s1 | w] eqn:Es; [| discriminate].
  destruct (r =? 0); [| discriminate].
  apply load_step_grows in Es. apply IH in E. destruct E as [G [more D]].
  destruct Es as [G1 [m1 D1]]. split.
  - eapply grows_from_trans; eassumption.
  - exists (m1 ++ more). rewrite D, D1, app_assoc. reflexivity.
Qed.

(** X15: the loader only adds: the instructions it has written stay in their
    places with their kind and their name, and the bytes of the data
    buffer stay as they are, through any number of turns of the loading
    loop. *)
Theorem loader_only_adds (fs : filesystem) (n : nat)
    (s s' : Loader.mustache__loader_stack_s) :
  load_turns n fs s = Some s' ->
  (forall k inst,
     nth_error (Loader.i s) k = Some inst ->
     exists inst',
       nth_error (Loader.i s') k = Some inst' /\ same_instruction inst inst')
  /\ exists more, Loader.data s' = Loader.data s ++ more.
Proof.
  intros E. apply load_turns_grows in E. destruct E as [(kept & more & E & F) D].
  split; [| exact D].
  intros k inst Hk. rewrite E.
  assert (X : exists inst', nth_error kept k = Some inst' /\ same_instruction inst inst').
  { clear E. revert k Hk. induction F as [| a b l l' Hab F IH]; intros [| k] Hk;
      cbn [nth_error] in *; try discriminate.
    - inversion Hk; subst. exists b. split; [reflexivity | exact Hab].
    - apply IH, Hk. }
  destruct X as (inst' & Hk' & S). exists inst'. split; [| exact S].
  rewrite nth_error_app1; [exact Hk' |]. apply nth_error_Some. congruence.
Qed.

(** X16: a template given to [mustache_load] as data is kept in the data
    segment of the compiled template, behind the header with its name, and
    the compiled template begins with the [MUSTACHE_SECTION_START] of the
    root, which has no name. *)
Theorem loaded_template_keeps_its_text (fs : filesystem) (name template : bytes)
    (fuel : nat) (m : mustache_s) (e : mustache_error_en) :
  zlength name < 65536 -> zlength template < 2147483648 ->
  mustache_load fs {| LoadArgs.filename := name; LoadArgs.data := Some template |} fuel
  = Loaded m e ->
  (exists more,
     data_segment m = root_header name (zlength template) ++ template ++ more)
  /\ slice (data_segment m) (13 + zlength name) (zlength template) = template
  /\ exists i0 rest,
       instructions m = i0 :: rest
       /\ Inst.instruction i0 = Inst.MUSTACHE_SECTION_START
       /\ Inst.name_pos (Inst.data i0) = 0.
Proof.
  intros Hn Ht E. unfold mustache_load in E. cbn [LoadArgs.data LoadArgs.filename] in E.
  rewrite load_data_root in E by assumption. cbn [Z.eqb] in E.
  apply load_loop_grows in E. destruct E as [(kept & more & Ei & F) [more' D]].
  cbn [loader_at_root Loader.i Loader.data] in *.
  assert (Hd : data_segment m = root_header name (zlength template) ++ template ++ more')
    by (rewrite D, <- app_assoc; reflexivity).
  split; [exists more'; exact Hd |]. split.
  - rewrite Hd. rewrite <- (zlength_root_header name (zlength template)) by assumption.
    apply slice_app.
  - inversion F as [| a b l l' Hab F']; subst. inversion F'; subst.
    exists b, more. split; [exact Ei |].
    destruct Hab as (A & B & _). cbn in A, B. split; congruence.
Qed.

(* ------------------------------------------------------------------ *)
(** ** The bounds of the loader's arrays *)

Lemma zlength_slice (data : bytes) (pos n : Z) : zlength (slice data pos n) <= Z.max 0 n.
Proof.
  unfold slice, zlength. rewrite length_firstn. lia.
Qed.

Lemma push_keeps_stack s inst :
  Loader.stack (snd (mustache__instruction_push s inst)) = Loader.stack s.
Proof. unfold mustache__instruction_push. destruct (_ <=? _); reflexivity. Qed.

Lemma loader_ok_same_stack s s' :
  Loader.stack s' = Loader.stack s -> loader_ok s -> loader_ok s'.
Proof. unfold loader_ok. intros ->. auto. Qed.

Lemma loader_ok_new_top s s' f f' rest :
  Loader.stack s = f :: rest -> Loader.stack s' = f' :: rest ->
  frame_ok f' -> loader_ok s -> loader_ok s'.
Proof.
  unfold loader_ok. intros -> -> Hf [Hd Hall]. split.
  - rewrite zlength_cons in *. exact Hd.
  - inversion Hall; subst. constructor; assumption.
Qed.

Lemma frame_ok_data_pos f p : frame_ok f -> frame_ok (Loader.set_data_pos f p).
Proof. intros H; exact H. Qed.

Lemma load_data_ok s name name_len data s' :
  mustache__load_data s name name_len data = (0, s') -> loader_ok s -> loader_ok s'.
Proof.
  unfold mustache__load_data. intros E [Hd Hall].
  destruct (_ <? _); [discriminate |].
  match type of E with
  | context [mustache__instruction_push ?s1 ?x] =>
    pose proof (push_keeps_stack s1 x) as K;
    destruct (mustache__instruction_push s1 x) as [r1 s2]
  end.
  cbn [snd Loader.set_data Loader.stack] in *.
  destruct (Z.leb_spec MUSTACHE_NESTING_LIMIT (zlength (Loader.stack s2) + 1));
    [discriminate |].
  inversion E; subst. split; cbn [Loader.stack Loader.set_stack].
  - rewrite zlength_cons. lia.
  - rewrite K. constructor; [| exact Hall].
    repeat split; cbn; unfold MUSTACHE_NESTING_LIMIT; lia.
Qed.

Lemma load_file_ok fs s name name_len s' :
  mustache__load_file fs s name name_len = Return 0 s' -> loader_ok s -> loader_ok s'.
Proof.
  unfold mustache__load_file. intros E Hok.
  destruct (_ =? 0); [discriminate |].
  destruct (_ || _); [discriminate |].
  match type of E with
  | match ?found with _ => _ end = _ => destruct found as [p l c | p]
  end.
  - destruct (_ <=? _); [discriminate |].
    destruct (mustache__file_is_loaded _ _ _) as [pre | w]; [| discriminate].
    destruct (negb _).
    + match type of E with
      | context [mustache__instruction_push ?s1 ?x] =>
        pose proof (push_keeps_stack s1 x) as K;
        destruct (mustache__instruction_push s1 x) as [r1 s2]
      end.
      inversion E; subst. eapply loader_ok_same_stack; [exact K | exact Hok].
    + destruct (mustache__load_data _ _ _ _) as [r1 s2] eqn:El.
      inversion E; subst. eapply load_data_ok; [exact El | exact Hok].
  - destruct (_ && _); [| discriminate].
    match type of E with
    | context [mustache__instruction_push ?s1 ?x] =>
      pose proof (push_keeps_stack s1 x) as K;
      destruct (mustache__instruction_push s1 x) as [r1 s2]
    end.
    inversion E; subst. eapply loader_ok_same_stack; [exact K | exact Hok].
Qed.

Section Tags.
Variables (s : Loader.mustache__loader_stack_s) (f : Loader.frame)
          (rest : list Loader.frame).
Hypothesis Hst : Loader.stack s = f :: rest.
Hypothesis Hok : loader_ok s.

Lemma top_frame_ok : frame_ok f.
Proof. destruct Hok as [_ Hall]. rewrite Hst in Hall. inversion Hall; assumption. Qed.

Lemma tag_delimiters_ok beg end_ s' :
  tag_delimiters s f beg end_ = Return 0 s' -> loader_ok s'.
Proof.
  unfold tag_delimiters, fail. intros E. pose proof top_frame_ok as (F1 & F2 & F3).
  destruct (negb _); [discriminate |].
  destruct (_ || _); [discriminate |].
  match type of E with
  | (if MUSTACHE_DELIMITER_LENGTH_LIMIT <=? ?a then _ else _) = _ =>
    destruct (Z.leb_spec MUSTACHE_DELIMITER_LENGTH_LIMIT a) as [| L1]; [discriminate |]
  end.
  destruct (_ =? _); [discriminate |].
  match type of E with
  | (if MUSTACHE_DELIMITER_LENGTH_LIMIT <=? ?a then _ else _) = _ =>
    destruct (Z.leb_spec MUSTACHE_DELIMITER_LENGTH_LIMIT a) as [| L2]; [discriminate |]
  end.
  inversion E; subst.
  eapply loader_ok_new_top; [exact Hst | cbn; rewrite Hst; reflexivity | | exact Hok].
  unfold frame_ok. cbn [Loader.set_delimiters Loader.del_start Loader.del_end
                        Loader.open_sections].
  split; [| split; [| exact F3]].
  - eapply Z.le_lt_trans; [apply zlength_slice |].
    unfold MUSTACHE_DELIMITER_LENGTH_LIMIT in *. lia.
  - eapply Z.le_lt_trans; [apply zlength_slice |].
    unfold MUSTACHE_DELIMITER_LENGTH_LIMIT in *. lia.
Qed.

Lemma tag_section_start_ok esc beg end_ s' :
  tag_section_start s f esc beg end_ = Return 0 s' -> loader_ok s'.
Proof.
  unfold tag_section_start, fail. intros E. pose proof top_frame_ok as (F1 & F2 & F3).
  destruct (trim _ _ _) as [b e].
  cbn [Loader.open_sections Loader.set_open_sections] in E.
  destruct (Z.leb_spec MUSTACHE_NESTING_LIMIT (u16 (Loader.open_sections f + 1)));
    [discriminate |].
  match type of E with
  | context [mustache__instruction_push ?s1 ?x] =>
    pose proof (push_keeps_stack s1 x) as K;
    destruct (mustache__instruction_push s1 x) as [r1 s2]
  end.
  inversion E; subst. cbn [snd] in K.
  eapply loader_ok_new_top; [exact Hst | | | exact Hok].
  - rewrite K. destruct (_ <=? _); cbn; rewrite Hst; reflexivity.
  - repeat split; cbn; try assumption.
    unfold u16. apply Z.mod_pos_bound. lia.
Qed.

Lemma tag_section_end_ok org beg end_ s' :
  tag_section_end s f org beg end_ = Return 0 s' -> loader_ok s'.
Proof.
  unfold tag_section_end, fail. intros E. pose proof top_frame_ok as (F1 & F2 & F3).
  destruct (trim _ _ _) as [b e].
  destruct (Z.eqb_spec (Loader.open_sections f) 0); [discriminate |].
  destruct (find_opener _ _ _) as [pos |]; [| discriminate].
  destruct (nth_error _ _) as [op |]; [| discriminate].
  destruct (_ || _); [discriminate |].
  match type of E with
  | context [mustache__instruction_push ?s1 ?x] =>
    pose proof (push_keeps_stack s1 x) as K;
    destruct (mustache__instruction_push s1 x) as [r1 s2]
  end.
  inversion E; subst. cbn [snd] in K.
  eapply loader_ok_new_top; [exact Hst | | | exact Hok].
  - cbn. rewrite K. cbn. rewrite Hst. reflexivity.
  - repeat split; cbn; try assumption; unfold u16;
      rewrite Z.mod_small; unfold MUSTACHE_NESTING_LIMIT in *; lia.
Qed.

Lemma tag_variable_ok sigil beg end_ s' :
  tag_variable s f sigil beg end_ = Return 0 s' -> loader_ok s'.
Proof.
  unfold tag_variable. intros E. pose proof top_frame_ok as F.
  destruct (trim _ _ _) as [b e].
  match type of E with
  | context [mustache__instruction_push ?s1 ?x] =>
    pose proof (push_keeps_stack s1 x) as K;
    destruct (mustache__instruction_push s1 x) as [r1 s2]
  end.
  inversion E; subst. cbn [snd] in K.
  eapply loader_ok_new_top; [exact Hst | | | exact Hok].
  - rewrite K. cbn. rewrite Hst. reflexivity.
  - destruct (_ && _); exact F.
Qed.

Lemma text_rest_ok s' : text_rest s f = Return 0 s' -> loader_ok s'.
Proof.
  unfold text_rest. intros E. pose proof top_frame_ok as F.
  match type of E with
  | context [mustache__instruction_push ?s1 ?x] =>
    pose proof (push_keeps_stack s1 x) as K;
    destruct (mustache__instruction_push s1 x) as [r1 s2]
  end.
  inversion E; subst. cbn [snd] in K.
  eapply loader_ok_new_top;
    [exact Hst | cbn; rewrite K, Hst; reflexivity | exact F | exact Hok].
Qed.

Lemma close_template_ok s' : close_template s f = Return 0 s' -> loader_ok s'.
Proof.
  unfold close_template, fail. intros E.
  destruct (negb _); [discriminate |].
  match type of E with
  | context [mustache__instruction_push ?s1 ?x] =>
    pose proof (push_keeps_stack s1 x) as K;
    destruct (mustache__instruction_push s1 x) as [r1 s2]
  end.
  inversion E; subst. cbn [snd] in K. destruct Hok as [Hd Hall].
  split; cbn [Loader.stack Loader.set_stack]; rewrite K; cbn [Loader.stack Loader.set_i];
    rewrite Hst in *; cbn [tl].
  - rewrite zlength_cons in Hd. lia.
  - inversion Hall; assumption.
Qed.

End Tags.

Lemma parse_tag_ok fs s f rest org beg end_ s' :
  Loader.stack s = f :: rest -> loader_ok s ->
  parse_tag fs s f org beg end_ = Return 0 s' -> loader_ok s'.
Proof.
  unfold parse_tag. intros Hst Hok E.
  repeat match type of E with
         | (if ?c then _ else _) = _ => destruct c
         end.
  - inversion E; subst. exact Hok.
  - eapply tag_delimiters_ok; eassumption.
  - eapply tag_section_start_ok; eassumption.
  - eapply tag_section_start_ok; eassumption.
  - unfold tag_partial in E. destruct (trim _ _ _) as [b e].
    eapply load_file_ok; eassumption.
  - eapply tag_section_end_ok; eassumption.
  - eapply tag_variable_ok; eassumption.
Qed.

Lemma parse_step_ok fs s f rest s' :
  Loader.stack s = f :: rest -> loader_ok s ->
  parse_step fs s f = Return 0 s' -> loader_ok s'.
Proof.
  unfold parse_step, fail. intros Hst Hok E.
  destruct (strstr _ _) as [off |]; [| eapply text_rest_ok; eassumption].
  destruct (_ <=? _); [eapply text_rest_ok; eassumption |].
  match type of E with
  | context [if off =? 0 then s else ?s1] =>
    assert (K : Loader.stack (if off =? 0 then s else s1) = Loader.stack s)
      by (destruct (off =? 0); [reflexivity | apply push_keeps_stack]);
    destruct (if off =? 0 then s else s1) as [i0 e0 d0 p0 st0] eqn:Es1
  end.
  cbn [Loader.stack] in K. subst st0.
  destruct (strstr _ _) as [off_end |]; [| discriminate].
  destruct (_ <=? _); [discriminate |].
  eapply parse_tag_ok in E; [exact E | cbn; rewrite Hst; reflexivity |].
  eapply loader_ok_new_top; [exact Hst | cbn; rewrite Hst; reflexivity | | exact Hok].
  apply frame_ok_data_pos. eapply top_frame_ok; eassumption.
Qed.

Lemma load_step_ok fs s f rest s' :
  Loader.stack s = f :: rest -> loader_ok s ->
  load_step fs s f = Return 0 s' -> loader_ok s'.
Proof.
  unfold load_step. intros Hst Hok. destruct (_ <? _).
  - eapply parse_step_ok; eassumption.
  - eapply close_template_ok; eassumption.
Qed.

(** X17: the loader stays within its arrays: through any number of turns of
    the loading loop that begins with the first template, every delimiter
    has at most ten bytes, every entry counts fewer open sections than
    [MUSTACHE_NESTING_LIMIT], and the stack index is below that limit. *)
Theorem loader_stays_in_bounds (fs : filesystem) (n : nat)
    (name template : bytes) (s0 s' : Loader.mustache__loader_stack_s) :
  mustache__load_data loader_start name (zlength name) template = (0, s0) ->
  load_turns n fs s0 = Some s' ->
  zlength (Loader.stack s') < MUSTACHE_NESTING_LIMIT
  /\ Forall (fun f =>
               zlength (Loader.del_start f) < MUSTACHE_DELIMITER_LENGTH_LIMIT
               /\ zlength (Loader.del_end f) < MUSTACHE_DELIMITER_LENGTH_LIMIT
               /\ 0 <= Loader.open_sections f < MUSTACHE_NESTING_LIMIT)
            (Loader.stack s').
Proof.
  intros E0 E. apply load_data_ok in E0; [| split; [reflexivity | constructor]].
  change (loader_ok s'). revert s0 E0 E.
  induction n as [| n IH]; intros s Hok E; cbn [load_turns] in E.
  - inversion E; subst. exact Hok.
  - destruct (Loader.stack s) as [| f rest] eqn:Hst; [discriminate |].
    destruct (load_step fs s f) as [r s1 | w] eqn:Es; [| discriminate].
    destruct (Z.eqb_spec r 0) as [-> |]; [| discriminate].
    eapply IH; [| exact E]. eapply load_step_ok; eassumption.
Qed.

(* ------------------------------------------------------------------ *)
(** ** Closing a section *)

(** The opener that the backward scan finds is a section start below the
    position the scan began at. *)
Lemma find_opener_is_section_start (l : list Inst.mustache__instruction_s) :
  forall pos nested p,
  find_opener l pos nested = Some p ->
  (p < pos)%nat
  /\ exists op,
       nth_error l p = Some op
       /\ (Inst.instruction op = Inst.MUSTACHE_SECTION_START
           \/ Inst.instruction op = Inst.MUSTACHE_SECTION_START_INV).
Proof.
  induction pos as [| pos IH]; intros nested p E; cbn [find_opener] in E;
    [discriminate |].
  destruct (nth_error l pos) as [x |] eqn:Ex; [| discriminate].
  destruct (Inst.instruction x) eqn:Et;
    try (apply IH in E; destruct E as [L R]; split; [lia | exact R]).
  all: destruct (nested =? 0);
    [ inversion E; subst; split; [lia |]; exists x; split; [exact Ex | auto]
    | apply IH in E; destruct E as [L R]; split; [lia | exact R] ].
Qed.

(** X18: a closing tag that is accepted: it names the nearest section start
    that is still open, writes into that instruction the position of the
    [MUSTACHE_SECTION_END] it adds, which lies behind it, and the length of
    the text between the two tags, and gives the [MUSTACHE_SECTION_END] the
    same data. *)
Theorem section_end_links_its_start (s : Loader.mustache__loader_stack_s)
    (f : Loader.frame) (org_beg beg end_ : Z) (s' : Loader.mustache__loader_stack_s) :
  tag_section_end s f org_beg beg end_ = Return 0 s' ->
  zlength (Loader.i s) < INT32_MAX ->
  let count := List.length (Loader.i s) in
  let name := trim (Loader.data s) (beg + 1) end_ in
  exists pos op closed,
    nth_error (Loader.i s) pos = Some op
    /\ (Inst.instruction op = Inst.MUSTACHE_SECTION_START
        \/ Inst.instruction op = Inst.MUSTACHE_SECTION_START_INV)
    /\ Inst.name_len (Inst.data op) = snd name - fst name
    /\ slice (Loader.data s) (fst name) (Inst.name_len (Inst.data op))
       = slice (Loader.data s) (Inst.name_pos (Inst.data op))
               (Inst.name_len (Inst.data op))
    /\ closed = Inst.set_len (Inst.set_end (Inst.data op) (Z.of_nat count))
                  (u32 (org_beg - (Inst.name_pos (Inst.data op)
                                   + Inst.offset (Inst.data op))))
    /\ (pos < count)%nat
    /\ List.length (Loader.i s') = S count
    /\ nth_error (Loader.i s') pos
       = Some {| Inst.instruction := Inst.instruction op; Inst.data := closed |}
    /\ nth_error (Loader.i s') count
       = Some {| Inst.instruction := Inst.MUSTACHE_SECTION_END; Inst.data := closed |}.
Proof.
  intros E Hi count name. unfold tag_section_end, fail in E.
  destruct (trim _ _ _) as [b e] eqn:Et. subst name. cbn [fst snd].
  destruct (_ =? 0); [discriminate |].
  destruct (find_opener _ _ _) as [pos |] eqn:Ef; [| discriminate].
  destruct (nth_error _ _) as [op |] eqn:Eop; [| discriminate].
  destruct (_ || _) eqn:Ename; [discriminate |].
  apply orb_false_iff in Ename. destruct Ename as [N1 N2].
  apply negb_false_iff in N1, N2. apply Z.eqb_eq in N1. apply bytes_eqb_eq in N2.
  apply find_opener_is_section_start in Ef. destruct Ef as [Hpos (op' & Eop' & Htag)].
  assert (op' = op) by congruence. subst op'.
  assert (Hu : u32 (zlength (Loader.i s)) = Z.of_nat count).
  { unfold u32, zlength, count in *. apply Z.mod_small. unfold INT32_MAX in Hi. lia. }
  unfold mustache__instruction_push in E.
  cbn [Loader.i Loader.set_i] in E.
  assert (Hlen : zlength (update_nth pos
                   (fun x => {| Inst.instruction := Inst.instruction x;
                                Inst.data := Inst.set_len
                                  (Inst.set_end (Inst.data op) (u32 (zlength (Loader.i s))))
                                  (u32 (org_beg - (Inst.name_pos (Inst.data op)
                                                   + Inst.offset (Inst.data op)))) |})
                   (Loader.i s)) = zlength (Loader.i s))
    by (unfold zlength; rewrite length_update_nth; reflexivity).
  cbn [Inst.set_end Inst.name_pos Inst.offset Inst.end_ Inst.len Inst.name_len] in E, Hlen.
  cbn [Inst.set_end Inst.set_len Inst.name_pos Inst.offset Inst.end_ Inst.len
       Inst.name_len].
  rewrite Hlen in E.
  destruct (Z.leb_spec INT32_MAX (zlength (Loader.i s))); [lia |].
  cbn [snd Loader.set_i Loader.i] in E. inversion E; subst s'. clear E.
  cbn [Loader.i Loader.set_top Loader.set_stack Loader.set_i].
  rewrite Hu in *.
  eexists pos, op, _. split; [exact Eop |]. split; [exact Htag |].
  split; [exact N1 |]. split; [exact N2 |]. split; [reflexivity |].
  split; [exact Hpos |]. split; [| split].
  - rewrite length_app, length_update_nth. cbn [List.length]. fold count. lia.
  - rewrite nth_error_app1 by (rewrite length_update_nth; exact Hpos).
    rewrite (nth_error_update_nth _ _ _ _ Eop). reflexivity.
  - rewrite nth_error_app2 by (rewrite length_update_nth; fold count; lia).
    rewrite length_update_nth. fold count. rewrite Nat.sub_diag. reflexivity.
Qed.

(* ------------------------------------------------------------------ *)
(** ** Templates without tags *)

Lemma skipn_root_header (name template : bytes) :
  zlength name < 65536 ->
  skipn (Z.to_nat (13 + zlength name)) (root_header name (zlength template) ++ template)
  = template.
Proof.
  intros Hn. rewrite <- (zlength_root_header name (zlength template)) by assumption.
  replace (zlength (root_header name (zlength template)))
    with (zlength (root_header name (zlength template)) + 0) by lia.
  rewrite skipn_zlength_app by lia. reflexivity.
Qed.

(** X19: a template in which [strstr] finds no [{{] compiles to one
    [MUSTACHE_WRITE_TEXT] between the start and the end of the root.  The
    instruction points at the template's first byte; its length is the
    template's length cut to 16 bits, so it names the whole text when that
    is shorter than 65536 bytes; every call of [mustache_on_text] in a build
    is for this text. *)
Theorem template_without_tags (fs : filesystem) (name template : bytes) (k : nat) :
  zlength name < 65536 -> 0 < zlength template < 2147483648 ->
  strstr template default_del_start = None ->
  let inst := write_text (13 + zlength name) (u16 (zlength template)) in
  let m := {| instructions := one_instruction inst;
              data_segment := root_header name (zlength template) ++ template |} in
  mustache_load fs {| LoadArgs.filename := name; LoadArgs.data := Some template |}
                (S (S k))
  = Loaded m MUSTACHE_OK
  /\ name_of m inst = firstn (Z.to_nat (u16 (zlength template))) template
  /\ (zlength template < 65536 -> name_of m inst = template)
  /\ forall (H : Type) (cb : callbacks H) (u1 u2 : Z) (fuel : nat) (h : H)
            p v data len r,
       In (Call p v (OnText data len) r)
          (fst (mustache_build cb {| mustache := Some m; arg_udata1 := u1;
                                     arg_udata2 := u2 |} fuel h)) ->
       data = firstn (Z.to_nat (u16 (zlength template))) template
       /\ len = u16 (zlength template).
Proof.
  intros Hn Ht Hs inst m.
  pose proof (zlength_nonneg name) as Hn0.
  pose proof (zlength_root_header name (zlength template) Hn) as Hh.
  assert (Hname : name_of m inst = firstn (Z.to_nat (u16 (zlength template))) template).
  { unfold name_of, m, inst, write_text, slice.
    cbn [data_segment Inst.data Inst.name_pos Inst.name_len].
    rewrite skipn_root_header by assumption. reflexivity. }
  split; [| split; [exact Hname | split]].
  - apply load_one_tag; try assumption.
    unfold parse_step.
    cbn [loader_at_root root_frame_of Loader.data Loader.data_pos Loader.del_start].
    rewrite skipn_root_header by assumption. rewrite Hs.
    unfold text_rest, mustache__instruction_push.
    cbn [loader_at_root root_frame_of Loader.i Loader.data_pos Loader.data_end].
    change (INT32_MAX <=? zlength [ {| Inst.instruction := Inst.MUSTACHE_SECTION_START;
                                       Inst.data := Inst.zero |} ]) with false.
    cbv iota. cbn [snd]. rewrite zlength_app, Hh.
    replace (13 + zlength name + zlength template - (13 + zlength name))
      with (zlength template) by lia.
    reflexivity.
  - intros Hlt. rewrite Hname. unfold u16. rewrite Z.mod_small by lia.
    apply firstn_zlength.
  - intros H cb u1 u2 fuel h p v data len r Hin.
    destruct (mustache_build _ _ _ _) as [ev res] eqn:Eb. cbn [fst] in Hin.
    destruct (mustache_build_calls cb _ _ _ _ _ _ _ _ _ _ _ Eb Hin)
      as (i & Hi & (Htag & -> & ->) & _).
    apply nth_error_In in Hi. cbn [instructions m one_instruction] in Hi.
    destruct Hi as [<- | [<- | [<- | []]]]; try discriminate.
    split; [exact Hname | reflexivity].
Qed.

(* ------------------------------------------------------------------ *)
(** ** From the text to the tag *)

(** The first [{{] behind bytes that have neither NUL nor [{] among
    them. *)
Lemma strstr_from_opening (t tail : bytes) (acc : Z) :
  plain_text t ->
  strstr_from (t ++ 123 :: 123 :: tail) [123; 123] acc = Some (acc + zlength t).
Proof.
  intros F. revert acc. induction F as [| c t [H0 H1] F IH]; intros acc.
  - cbn. f_equal. unfold zlength. cbn. lia.
  - cbn [app strstr_from prefix_match].
    rewrite (proj2 (Z.eqb_neq c 0) H0).
    replace (123 =? c) with false
      by (symmetry; apply Z.eqb_neq; congruence).
    cbn [andb]. rewrite IH. f_equal. rewrite zlength_cons. lia.
Qed.

(** The name between the white space of a tag, as the tag cases trim it:
    [a] is all that stands before the tag's body and [b] all behind it. *)
Lemma trim_tag_body (a l n r b : bytes) :
  tag_body l n r ->
  trim (a ++ (l ++ n ++ r) ++ b) (zlength a) (zlength a + zlength (l ++ n ++ r))
  = (zlength a + zlength l, zlength a + zlength l + zlength n).
Proof.
  intros (Fl & Fr & Hne & Hhd & Hlast & Fn).
  pose proof (zlength_nonneg a) as Ha0. pose proof (zlength_nonneg l) as Hl0.
  pose proof (zlength_nonneg n) as Hn0. pose proof (zlength_nonneg r) as Hr0.
  assert (Hn1 : 0 < zlength n).
  { destruct n; [congruence | rewrite zlength_cons; pose proof (zlength_nonneg n); lia]. }
  unfold trim. f_equal.
  - destruct n as [| c n'] eqn:En; [congruence |]. cbn [hd] in Hhd.
    unfold skip_ws_fwd.
    replace (zlength a) with (zlength a + 0) at 1 by lia.
    rewrite skipn_zlength_app by lia. cbn [Z.to_nat skipn].
    rewrite <- !app_assoc. cbn [app].
    rewrite skip_ws_fwd_from_spaces by assumption. reflexivity.
  - unfold skip_ws_bwd.
    destruct (Z.ltb_spec (zlength a + zlength (l ++ n ++ r) - 1) 0) as [L | L].
    { rewrite !zlength_app in L. lia. }
    pose proof (app_removelast_last 0 Hne) as Heq.
    remember (removelast n) as n0. remember (last n 0) as cl.
    set (a' := a ++ l ++ n0).
    replace (a ++ (l ++ n ++ r) ++ b) with ((a' ++ [cl]) ++ r ++ b)
      by (unfold a'; rewrite Heq, <- !app_assoc; reflexivity).
    assert (Ha' : zlength a' = zlength a + zlength l + zlength n - 1).
    { unfold a'. rewrite Heq, !zlength_app. unfold zlength. cbn [List.length]. lia. }
    replace (Z.to_nat (zlength a + zlength (l ++ n ++ r) - 1))
      with (List.length a' + List.length r)%nat
      by (rewrite !zlength_app; unfold zlength in *; lia).
    rewrite skip_ws_bwd_from_spaces by (try assumption; lia).
    lia.
Qed.

Section Scan.
Variables (fs : filesystem) (s : Loader.mustache__loader_stack_s)
          (f : Loader.frame) (pre text body tail : bytes).
Hypothesis Hds : Loader.del_start f = default_del_start.
Hypothesis Hde : Loader.del_end f = default_del_end.
Hypothesis Hpos : Loader.data_pos f = zlength pre.
Hypothesis Hdata :
  Loader.data s = pre ++ text ++ [123; 123] ++ body ++ [125; 125] ++ tail.
Hypothesis Htext : plain_text text.
Hypothesis Hbody : tag_inside body.
Hypothesis Hend : zlength pre + zlength text + zlength body + 2 < Loader.data_end f.
Hypothesis Hsize : zlength (Loader.data s) < 4294967296.
Hypothesis Hi : zlength (Loader.i s) < INT32_MAX.

(** The parser before text that a tag follows, with the default
    delimiters: it compiles the text, when there is any, moves the reading
    position behind the tag and goes to the case of the tag. *)
Lemma parse_step_scan :
  let org_beg := zlength pre + zlength text in
  let f1 := Loader.set_data_pos f (org_beg + zlength body + 4) in
  parse_step fs s f
  = parse_tag fs
      (Loader.set_top (with_text s (zlength pre) (zlength text)) f1) f1
      org_beg (org_beg + 2) (org_beg + 2 + zlength body).
Proof.
  intros org_beg f1.
  pose proof (zlength_nonneg pre) as Hp0. pose proof (zlength_nonneg text) as Ht0.
  pose proof (zlength_nonneg body) as Hb0. pose proof (zlength_nonneg tail) as Hl0.
  assert (Hlen : zlength (Loader.data s)
                 = zlength pre + zlength text + zlength body + 4 + zlength tail).
  { rewrite Hdata. rewrite !zlength_app. unfold zlength at 3 5. cbn [List.length]. lia. }
  assert (E1 : skipn (Z.to_nat (zlength pre)) (Loader.data s)
               = text ++ 123 :: 123 :: body ++ 125 :: 125 :: tail).
  { rewrite Hdata. replace (zlength pre) with (zlength pre + 0) by lia.
    rewrite skipn_zlength_app by lia. reflexivity. }
  assert (E2 : skipn (Z.to_nat (org_beg + 2)) (Loader.data s)
               = body ++ 125 :: 125 :: tail).
  { rewrite Hdata. unfold org_beg.
    replace (pre ++ text ++ [123; 123] ++ body ++ [125; 125] ++ tail)
      with ((pre ++ text ++ [123; 123]) ++ body ++ [125; 125] ++ tail)
      by (rewrite <- !app_assoc; reflexivity).
    replace (zlength pre + zlength text + 2)
      with (zlength (pre ++ text ++ [123; 123]) + 0)
      by (rewrite !zlength_app; unfold zlength at 3; cbn [List.length]; lia).
    rewrite skipn_zlength_app by lia. reflexivity. }
  unfold parse_step. rewrite Hpos, Hds, Hde, E1.
  unfold strstr at 1. rewrite strstr_from_opening by assumption.
  rewrite Z.add_0_l. fold org_beg.
  replace (Loader.data_end f <=? org_beg) with false
    by (symmetry; apply Z.leb_gt; unfold org_beg; lia).
  change (zlength default_del_start) with 2. change (zlength default_del_end) with 2.
  assert (Es1 : (if zlength text =? 0 then s
                 else snd (mustache__instruction_push s
                             {| Inst.instruction := Inst.MUSTACHE_WRITE_TEXT;
                                Inst.data := {| Inst.end_ := 0; Inst.len := 0;
                                                Inst.name_pos := zlength pre;
                                                Inst.name_len := u16 (zlength text);
                                                Inst.offset := 0 |} |}))
                = if zlength text =? 0 then s
                  else Loader.set_i s (Loader.i s
                         ++ [write_text (zlength pre) (u16 (zlength text))])).
  { destruct (zlength text =? 0); [reflexivity |].
    unfold mustache__instruction_push.
    destruct (Z.leb_spec INT32_MAX (zlength (Loader.i s))); [lia | reflexivity]. }
  rewrite Es1. clear Es1. fold (with_text s (zlength pre) (zlength text)).
  rewrite E2.
  unfold strstr. rewrite strstr_from_closing by assumption. rewrite Z.add_0_l.
  replace (Loader.data_end f <=? org_beg + 2 + zlength body) with false
    by (symmetry; apply Z.leb_gt; unfold org_beg; lia).
  replace (u32 (org_beg + 2 + zlength body + 2)) with (org_beg + zlength body + 4)
    by (unfold u32, org_beg; rewrite Z.mod_small by lia; lia).
  reflexivity.
Qed.

End Scan.

(* ------------------------------------------------------------------ *)
(** ** The tags in their place *)

Section TagsInPlace.
Variables (fs : filesystem) (s : Loader.mustache__loader_stack_s)
          (f : Loader.frame) (rest : list Loader.frame)
          (pre text tail : bytes).
Hypothesis Hst : Loader.stack s = f :: rest.
Hypothesis Hds : Loader.del_start f = default_del_start.
Hypothesis Hde : Loader.del_end f = default_del_end.
Hypothesis Hpos : Loader.data_pos f = zlength pre.
Hypothesis Htext : plain_text text.
Hypothesis Hsize : zlength (Loader.data s) < 4294967296.
Hypothesis Hi : zlength (Loader.i s) + 1 < INT32_MAX.

Lemma with_text_parts :
  Loader.data (with_text s (zlength pre) (zlength text)) = Loader.data s
  /\ Loader.stack (with_text s (zlength pre) (zlength text)) = Loader.stack s
  /\ zlength (Loader.i (with_text s (zlength pre) (zlength text)))
     <= zlength (Loader.i s) + 1.
Proof.
  unfold with_text. destruct (_ =? 0); cbn; repeat split; try lia.
  rewrite zlength_app. unfold zlength at 2. cbn. lia.
Qed.

(** X20: a comment compiles to nothing: the text before it is compiled, and
    reading goes on behind the tag. *)
Theorem comment_compiles_to_nothing (c : bytes) :
  Loader.data s = pre ++ text ++ [123; 123] ++ (33 :: c) ++ [125; 125] ++ tail ->
  tag_inside c ->
  zlength pre + zlength text + zlength c + 3 < Loader.data_end f ->
  parse_step fs s f
  = Return 0 (Loader.set_top (with_text s (zlength pre) (zlength text))
                (Loader.set_data_pos f (zlength pre + zlength text + zlength c + 5))).
Proof.
  intros Hdata Hc Hend.
  rewrite (parse_step_scan fs s f pre text (33 :: c) tail);
    try assumption; try lia.
  - rewrite zlength_cons. unfold parse_tag.
    destruct with_text_parts as (Hd & _ & _).
    cbn [Loader.data Loader.set_top Loader.set_stack]. rewrite Hd, Hdata.
    replace (pre ++ text ++ [123; 123] ++ (33 :: c) ++ [125; 125] ++ tail)
      with ((pre ++ text ++ [123; 123]) ++ (33 :: c) ++ [125; 125] ++ tail)
      by (rewrite <- !app_assoc; reflexivity).
    replace (zlength pre + zlength text + 2)
      with (zlength (pre ++ text ++ [123; 123]) + 0)
      by (rewrite !zlength_app; unfold zlength at 3; cbn [List.length]; lia).
    rewrite byte_at_app by lia. cbn [app byte_at Z.ltb Z.compare Z.to_nat nth Z.eqb Pos.eqb].
    do 3 f_equal. lia.
  - constructor; [split; discriminate | exact Hc].
  - rewrite zlength_cons. lia.
Qed.

(** A section tag [{{#] or [{{^] compiles to one instruction, which
    names the trimmed name and tells, as an offset from the name, where the
    text behind the tag begins; the entry of the template counts one more
    open section. *)
Lemma parse_step_section_start (sg : Z) (l n r : bytes) :
  sg = 35 \/ sg = 94 ->
  Loader.data s = pre ++ text ++ [123; 123] ++ (sg :: l ++ n ++ r) ++ [125; 125] ++ tail ->
  tag_body l n r ->
  zlength pre + zlength text + zlength (l ++ n ++ r) + 3 < Loader.data_end f ->
  zlength n + zlength r + 2 < 65536 ->
  0 <= Loader.open_sections f -> Loader.open_sections f + 1 < MUSTACHE_NESTING_LIMIT ->
  let at_ := zlength pre + zlength text + 3 + zlength l in
  let behind := zlength pre + zlength text + zlength (l ++ n ++ r) + 5 in
  exists s',
    parse_step fs s f = Return 0 s'
    /\ Loader.i s'
       = Loader.i (with_text s (zlength pre) (zlength text))
         ++ [section_start (sg =? 94) at_ (zlength n) (behind - at_)]
    /\ Loader.data s' = Loader.data s
    /\ Loader.stack s'
       = Loader.set_open_sections (Loader.set_data_pos f behind)
                                  (Loader.open_sections f + 1) :: rest.
Proof.
  intros Hsg Hdata Hb Hend Hoff Ho0 Ho1 at_ behind.
  pose proof (tag_body_clean _ _ _ Hb) as Hclean.
  set (x := l ++ n ++ r) in *.
  pose proof (zlength_nonneg pre) as Hp0. pose proof (zlength_nonneg text) as Ht0.
  pose proof (zlength_nonneg x) as Hx0. pose proof (zlength_nonneg l) as Hl0.
  pose proof (zlength_nonneg n) as Hn0. pose proof (zlength_nonneg r) as Hr0.
  pose proof (zlength_nonneg tail) as Hta0.
  assert (Hx : zlength x = zlength l + zlength n + zlength r)
    by (unfold x; rewrite !zlength_app; lia).
  assert (Hlen : zlength (Loader.data s)
                 = zlength pre + zlength text + zlength x + 5 + zlength tail).
  { rewrite Hdata. unfold zlength. rewrite !length_app. cbn [List.length].
    rewrite ?length_app. cbn [List.length]. lia. }
  rewrite (parse_step_scan fs s f pre text (sg :: x) tail);
    try assumption; try lia.
  2: constructor; [destruct Hsg as [-> | ->]; split; discriminate | exact Hclean].
  2: rewrite zlength_cons; lia.
  rewrite zlength_cons.
  destruct with_text_parts as (Hd & Hs1 & Hi1).
  set (s1 := with_text s (zlength pre) (zlength text)) in *.
  set (a := pre ++ text ++ [123; 123; sg]).
  assert (Ha : zlength a = zlength pre + zlength text + 3).
  { unfold a. rewrite !zlength_app. unfold zlength at 3. cbn [List.length]. lia. }
  assert (Hdata' : Loader.data s = a ++ x ++ [125; 125] ++ tail).
  { rewrite Hdata. unfold a. rewrite <- !app_assoc. reflexivity. }
  unfold parse_tag. cbn [Loader.data Loader.set_top Loader.set_stack]. rewrite Hd.
  assert (Esig : byte_at (Loader.data s) (zlength pre + zlength text + 2) = sg).
  { rewrite Hdata.
    replace (pre ++ text ++ [123; 123] ++ (sg :: x) ++ [125; 125] ++ tail)
      with ((pre ++ text ++ [123; 123]) ++ (sg :: x) ++ [125; 125] ++ tail)
      by (rewrite <- !app_assoc; reflexivity).
    replace (zlength pre + zlength text + 2)
      with (zlength (pre ++ text ++ [123; 123]) + 0)
      by (rewrite !zlength_app; unfold zlength at 3; cbn [List.length]; lia).
    rewrite byte_at_app by lia. reflexivity. }
  rewrite Esig.
  assert (Etrim : trim (Loader.data s) (zlength pre + zlength text + 2 + 1)
                       (zlength pre + zlength text + 2 + (zlength x + 1))
                  = (at_, at_ + zlength n)).
  { rewrite Hdata'.
    replace (zlength pre + zlength text + 2 + 1) with (zlength a) by lia.
    replace (zlength pre + zlength text + 2 + (zlength x + 1))
      with (zlength a + zlength x) by lia.
    replace (a ++ x ++ [125; 125] ++ tail) with (a ++ x ++ ([125; 125] ++ tail))
      by reflexivity.
    unfold x. rewrite (trim_tag_body a l n r _ Hb). unfold at_. f_equal; lia. }
  assert (Hcase : (sg =? 33) = false /\ (sg =? 61) = false
                  /\ ((sg =? 94) = true \/ ((sg =? 94) = false /\ (sg =? 35) = true))).
  { destruct Hsg as [-> | ->]; repeat split; auto. }
  destruct Hcase as (-> & -> & Hcase).
  assert (Hstart : forall esc,
            esc = negb (sg =? 94) ->
            exists s',
              tag_section_start
                (Loader.set_stack s1
                   (Loader.set_data_pos f (zlength pre + zlength text + (zlength x + 1) + 4)
                    :: tl (Loader.stack s1)))
                (Loader.set_data_pos f (zlength pre + zlength text + (zlength x + 1) + 4))
                esc (zlength pre + zlength text + 2)
                (zlength pre + zlength text + 2 + (zlength x + 1))
              = Return 0 s'
              /\ Loader.i s' = Loader.i s1
                   ++ [section_start (sg =? 94) at_ (zlength n) (behind - at_)]
              /\ Loader.data s' = Loader.data s
              /\ Loader.stack s'
                 = Loader.set_open_sections (Loader.set_data_pos f behind)
                     (Loader.open_sections f + 1) :: rest).
  { intros esc Hesc. unfold tag_section_start.
    cbn [Loader.data Loader.set_stack]. rewrite Hd, Etrim.
    cbn [Loader.open_sections Loader.set_data_pos Loader.set_open_sections
         Loader.data_pos].
    replace (u16 (Loader.open_sections f + 1)) with (Loader.open_sections f + 1)
      by (unfold u16; rewrite Z.mod_small; unfold MUSTACHE_NESTING_LIMIT in *; lia).
    destruct (Z.leb_spec MUSTACHE_NESTING_LIMIT (Loader.open_sections f + 1)); [lia |].
    unfold mustache__instruction_push.
    replace (u32 at_) with at_
      by (unfold u32, at_; rewrite Z.mod_small; lia).
    replace (u16 (at_ + zlength n - at_)) with (zlength n)
      by (unfold u16; rewrite Z.mod_small; lia).
    replace (zlength pre + zlength text + (zlength x + 1) + 4) with behind
      by (unfold behind; lia).
    replace (u16 (behind - at_)) with (behind - at_)
      by (unfold u16, behind, at_; rewrite Z.mod_small; lia).
    destruct (UINT16_MAX <=? at_);
      cbn [Loader.i Loader.set_err Loader.set_top Loader.set_stack];
      (destruct (Z.leb_spec INT32_MAX (zlength (Loader.i s1))); [lia |]);
      eexists; (split; [reflexivity |]);
      cbn [Loader.i Loader.set_i Loader.data Loader.stack Loader.set_err
           Loader.set_top Loader.set_stack tl];
      rewrite Hd, Hesc; unfold section_start;
      (destruct (sg =? 94); cbn [negb]; repeat split);
      rewrite Hs1, Hst; reflexivity. }
  destruct (Hstart (negb (sg =? 94)) eq_refl) as (s' & Hs' & Hparts).
  exists s'. split; [| exact Hparts]. rewrite <- Hs'.
  destruct Hcase as [E94 | [E94 E35]]; rewrite E94, ?E35; reflexivity.
Qed.

(** X21: a tag that is not closed before the data ends or a NUL stands in
    the way: the load fails with [MUSTACHE_ERR_CLOSURE_MISMATCH]. *)
Theorem unclosed_tag_is_a_mismatch (open_tag : bytes) :
  Loader.data s = pre ++ text ++ [123; 123] ++ open_tag ->
  strstr open_tag default_del_end = None ->
  zlength pre + zlength text < Loader.data_end f ->
  exists s',
    parse_step fs s f = Return (-1) s'
    /\ Loader.err s' = MUSTACHE_ERR_CLOSURE_MISMATCH.
Proof.
  intros Hdata Hnone Hend.
  pose proof (zlength_nonneg pre) as Hp0. pose proof (zlength_nonneg text) as Ht0.
  assert (E1 : skipn (Z.to_nat (zlength pre)) (Loader.data s)
               = text ++ 123 :: 123 :: open_tag).
  { rewrite Hdata. replace (zlength pre) with (zlength pre + 0) by lia.
    rewrite skipn_zlength_app by lia. reflexivity. }
  assert (E2 : skipn (Z.to_nat (zlength pre + zlength text + 2)) (Loader.data s)
               = open_tag).
  { rewrite Hdata.
    replace (pre ++ text ++ [123; 123] ++ open_tag)
      with ((pre ++ text ++ [123; 123]) ++ open_tag)
      by (rewrite <- !app_assoc; reflexivity).
    replace (zlength pre + zlength text + 2)
      with (zlength (pre ++ text ++ [123; 123]) + 0)
      by (rewrite !zlength_app; unfold zlength at 3; cbn [List.length]; lia).
    rewrite skipn_zlength_app by lia. reflexivity. }
  unfold parse_step. rewrite Hpos, Hds, Hde, E1.
  unfold strstr at 1. rewrite strstr_from_opening by assumption.
  rewrite Z.add_0_l.
  replace (Loader.data_end f <=? zlength pre + zlength text) with false
    by (symmetry; apply Z.leb_gt; lia).
  change (zlength default_del_start) with 2. rewrite E2, Hnone.
  unfold fail. eexists. split; reflexivity.
Qed.

(** X22: a closing tag in a template that has no section open, whatever is
    open in the templates that include it: the load fails with
    [MUSTACHE_ERR_CLOSURE_MISMATCH]. *)
Theorem closing_tag_without_section (body : bytes) :
  Loader.data s = pre ++ text ++ [123; 123] ++ (47 :: body) ++ [125; 125] ++ tail ->
  tag_inside body ->
  zlength pre + zlength text + zlength body + 3 < Loader.data_end f ->
  Loader.open_sections f = 0 ->
  exists s',
    parse_step fs s f = Return (-1) s'
    /\ Loader.err s' = MUSTACHE_ERR_CLOSURE_MISMATCH.
Proof.
  intros Hdata Hbody Hend Hopen.
  pose proof (zlength_nonneg pre) as Hp0. pose proof (zlength_nonneg text) as Ht0.
  rewrite (parse_step_scan fs s f pre text (47 :: body) tail);
    try assumption; try lia.
  2: constructor; [split; discriminate | exact Hbody].
  2: rewrite zlength_cons; lia.
  unfold parse_tag.
  destruct with_text_parts as (Hd & _ & _).
  cbn [Loader.data Loader.set_top Loader.set_stack]. rewrite Hd.
  assert (Esig : byte_at (Loader.data s) (zlength pre + zlength text + 2) = 47).
  { rewrite Hdata.
    replace (pre ++ text ++ [123; 123] ++ (47 :: body) ++ [125; 125] ++ tail)
      with ((pre ++ text ++ [123; 123]) ++ (47 :: body) ++ [125; 125] ++ tail)
      by (rewrite <- !app_assoc; reflexivity).
    replace (zlength pre + zlength text + 2)
      with (zlength (pre ++ text ++ [123; 123]) + 0)
      by (rewrite !zlength_app; unfold zlength at 3; cbn [List.length]; lia).
    rewrite byte_at_app by lia. reflexivity. }
  rewrite Esig. cbn [Z.eqb Pos.eqb].
  unfold tag_section_end. destruct (trim _ _ _) as [b e].
  cbn [Loader.open_sections Loader.set_data_pos]. rewrite Hopen. cbn [Z.eqb].
  unfold fail. eexists. split; reflexivity.
Qed.

Lemma find_opener_app (l m : list Inst.mustache__instruction_s) :
  forall pos nested,
  (pos <= List.length l)%nat ->
  find_opener (l ++ m) pos nested = find_opener l pos nested.
Proof.
  induction pos as [| pos IH]; intros nested Hp; cbn [find_opener]; [reflexivity |].
  rewrite nth_error_app1 by lia.
  destruct (nth_error l pos) as [x |]; [| reflexivity].
  destruct (Inst.instruction x); try (apply IH; lia);
    destruct (nested =? 0); try reflexivity; apply IH; lia.
Qed.

(** A closing tag [{{/] for the nearest open section: the text before it
    is compiled, the section start gets the position of the
    [MUSTACHE_SECTION_END] that is added and the length of the text between
    the two tags, and the entry of the template counts one open section
    less. *)
Lemma parse_step_section_end (l n r : bytes) (pos : nat)
    (op : Inst.mustache__instruction_s) :
  Loader.data s = pre ++ text ++ [123; 123] ++ (47 :: l ++ n ++ r) ++ [125; 125] ++ tail ->
  tag_body l n r ->
  zlength pre + zlength text + zlength (l ++ n ++ r) + 3 < Loader.data_end f ->
  0 < Loader.open_sections f < MUSTACHE_NESTING_LIMIT ->
  find_opener (Loader.i s) (List.length (Loader.i s)) 0 = Some pos ->
  nth_error (Loader.i s) pos = Some op ->
  Inst.name_len (Inst.data op) = zlength n ->
  slice (Loader.data s) (Inst.name_pos (Inst.data op)) (zlength n) = n ->
  let s1 := with_text s (zlength pre) (zlength text) in
  let behind := zlength pre + zlength text + zlength (l ++ n ++ r) + 5 in
  let closed :=
    Inst.set_len (Inst.set_end (Inst.data op) (zlength (Loader.i s1)))
      (u32 (zlength pre + zlength text
            - (Inst.name_pos (Inst.data op) + Inst.offset (Inst.data op)))) in
  exists s',
    parse_step fs s f = Return 0 s'
    /\ Loader.i s'
       = update_nth pos
           (fun x => {| Inst.instruction := Inst.instruction x; Inst.data := closed |})
           (Loader.i s1)
         ++ [ {| Inst.instruction := Inst.MUSTACHE_SECTION_END; Inst.data := closed |} ]
    /\ Loader.data s' = Loader.data s
    /\ Loader.stack s'
       = Loader.set_open_sections (Loader.set_data_pos f behind)
                                  (Loader.open_sections f - 1) :: rest.
Proof.
  intros Hdata Hb Hend Hopen Hfind Hop Hnl Hname s1 behind closed.
  pose proof (tag_body_clean _ _ _ Hb) as Hclean.
  set (x := l ++ n ++ r) in *.
  pose proof (zlength_nonneg pre) as Hp0. pose proof (zlength_nonneg text) as Ht0.
  pose proof (zlength_nonneg x) as Hx0. pose proof (zlength_nonneg l) as Hl0.
  pose proof (zlength_nonneg n) as Hn0. pose proof (zlength_nonneg r) as Hr0.
  pose proof (zlength_nonneg tail) as Hta0.
  assert (Hx : zlength x = zlength l + zlength n + zlength r)
    by (unfold x; rewrite !zlength_app; lia).
  assert (Hlen : zlength (Loader.data s)
                 = zlength pre + zlength text + zlength x + 5 + zlength tail).
  { rewrite Hdata. unfold zlength. rewrite !length_app. cbn [List.length].
    rewrite ?length_app. cbn [List.length]. lia. }
  rewrite (parse_step_scan fs s f pre text (47 :: x) tail);
    try assumption; try lia.
  2: constructor; [split; discriminate | exact Hclean].
  2: rewrite zlength_cons; lia.
  rewrite zlength_cons.
  destruct with_text_parts as (Hd & Hs1 & Hi1). fold s1 in Hd, Hs1, Hi1 |- *.
  set (a := pre ++ text ++ [123; 123; 47]).
  assert (Ha : zlength a = zlength pre + zlength text + 3).
  { unfold a. rewrite !zlength_app. unfold zlength at 3. cbn [List.length]. lia. }
  assert (Hdata' : Loader.data s = a ++ x ++ [125; 125] ++ tail).
  { rewrite Hdata. unfold a. rewrite <- !app_assoc. reflexivity. }
  unfold parse_tag. cbn [Loader.data Loader.set_top Loader.set_stack]. rewrite Hd.
  assert (Esig : byte_at (Loader.data s) (zlength pre + zlength text + 2) = 47).
  { rewrite Hdata.
    replace (pre ++ text ++ [123; 123] ++ (47 :: x) ++ [125; 125] ++ tail)
      with ((pre ++ text ++ [123; 123]) ++ (47 :: x) ++ [125; 125] ++ tail)
      by (rewrite <- !app_assoc; reflexivity).
    replace (zlength pre + zlength text + 2)
      with (zlength (pre ++ text ++ [123; 123]) + 0)
      by (rewrite !zlength_app; unfold zlength at 3; cbn [List.length]; lia).
    rewrite byte_at_app by lia. reflexivity. }
  rewrite Esig. cbn [Z.eqb Pos.eqb].
  set (at_ := zlength pre + zlength text + 3 + zlength l).
  assert (Etrim : trim (Loader.data s) (zlength pre + zlength text + 2 + 1)
                       (zlength pre + zlength text + 2 + (zlength x + 1))
                  = (at_, at_ + zlength n)).
  { rewrite Hdata'.
    replace (zlength pre + zlength text + 2 + 1) with (zlength a) by lia.
    replace (zlength pre + zlength text + 2 + (zlength x + 1))
      with (zlength a + zlength x) by lia.
    replace (a ++ x ++ [125; 125] ++ tail) with (a ++ x ++ ([125; 125] ++ tail))
      by reflexivity.
    unfold x. rewrite (trim_tag_body a l n r _ Hb). unfold at_. f_equal; lia. }
  assert (Hnm : slice (Loader.data s) at_ (zlength n) = n).
  { rewrite Hdata. unfold at_, x.
    replace (pre ++ text ++ [123; 123] ++ (47 :: l ++ n ++ r) ++ [125; 125] ++ tail)
      with ((pre ++ text) ++ [123; 123; 47] ++ (l ++ n ++ r) ++ [125; 125] ++ tail)
      by (rewrite <- (app_assoc pre text); reflexivity).
    replace (zlength pre + zlength text) with (zlength (pre ++ text))
      by apply zlength_app.
    apply name_in_tag. }
  assert (Hfind1 : find_opener (Loader.i s1) (List.length (Loader.i s1)) 0 = Some pos
                   /\ nth_error (Loader.i s1) pos = Some op).
  { apply find_opener_is_section_start in Hfind as Hp. destruct Hp as [Hp _].
    unfold s1, with_text. destruct (_ =? 0); [split; assumption |].
    cbn [Loader.i Loader.set_i]. rewrite length_app. cbn [List.length].
    rewrite Nat.add_1_r. cbn [find_opener].
    rewrite nth_error_app2, Nat.sub_diag by lia. cbn [nth_error write_text Inst.instruction].
    rewrite find_opener_app by lia. rewrite nth_error_app1 by lia.
    split; assumption. }
  destruct Hfind1 as [Hf1 Hop1].
  unfold tag_section_end.
  set (f1 := Loader.set_data_pos f (zlength pre + zlength text + (zlength x + 1) + 4)).
  set (s1' := Loader.set_top s1 f1).
  change (Loader.data s1') with (Loader.data s1).
  change (Loader.i s1') with (Loader.i s1).
  change (Loader.open_sections f1) with (Loader.open_sections f).
  rewrite Hd, Etrim.
  destruct (Z.eqb_spec (Loader.open_sections f) 0); [lia |].
  rewrite Hf1, Hop1, Hnl.
  replace (at_ + zlength n - at_) with (zlength n) by lia.
  rewrite Z.eqb_refl, Hnm, Hname, bytes_eqb_refl. cbn [negb orb].
  replace (u32 (zlength (Loader.i s1))) with (zlength (Loader.i s1))
    by (unfold u32; rewrite Z.mod_small;
        [reflexivity | pose proof (zlength_nonneg (Loader.i s1));
                       unfold INT32_MAX in *; lia]).
  cbn [Inst.set_end Inst.name_pos Inst.offset].
  fold closed.
  unfold mustache__instruction_push.
  set (upd := update_nth pos _ (Loader.i s1)).
  change (Loader.i (Loader.set_i s1' upd)) with upd.
  replace (zlength upd) with (zlength (Loader.i s1))
    by (unfold upd, zlength; rewrite length_update_nth; reflexivity).
  destruct (Z.leb_spec INT32_MAX (zlength (Loader.i s1))); [lia |].
  eexists. split; [reflexivity |].
  cbn [snd Loader.i Loader.set_i Loader.set_top Loader.set_stack Loader.data
       Loader.stack tl s1'].
  rewrite Hs1, Hst. cbn [tl].
  replace (u16 (Loader.open_sections f - 1)) with (Loader.open_sections f - 1)
    by (unfold u16; rewrite Z.mod_small; unfold MUSTACHE_NESTING_LIMIT in *; lia).
  unfold f1.
  replace (zlength pre + zlength text + (zlength x + 1) + 4) with behind
    by (unfold behind; lia).
  split; [reflexivity |]. split; [exact Hd | reflexivity].
Qed.

End TagsInPlace.

(* ------------------------------------------------------------------ *)
(** ** The text of a section, compiled *)

Lemma zlength_section_template x body y :
  zlength (section_template x body y) = zlength x + zlength body + zlength y + 10.
Proof.
  unfold section_template, zlength. rewrite !length_app. cbn [List.length]. lia.
Qed.

Lemma load_loop_turn (fuel : nat) (fs : filesystem)
    (s : Loader.mustache__loader_stack_s) (f : Loader.frame) (rest : list Loader.frame) :
  Loader.stack s = f :: rest ->
  load_loop (S fuel) fs s
  = match load_step fs s f with
    | Stuck w => LoadStuck w
    | Return r s' => if r =? 0 then load_loop fuel fs s' else LoadFailed (Loader.err s')
    end.
Proof. intros E. cbn [load_loop]. rewrite E. reflexivity. Qed.

Lemma load_step_parses (fs : filesystem) (s : Loader.mustache__loader_stack_s)
    (f : Loader.frame) :
  Loader.data_pos f < Loader.data_end f -> load_step fs s f = parse_step fs s f.
Proof.
  intros L. unfold load_step. destruct (Z.ltb_spec (Loader.data_pos f) (Loader.data_end f));
    [reflexivity | lia].
Qed.

Lemma load_step_closes (fs : filesystem) (s : Loader.mustache__loader_stack_s)
    (f : Loader.frame) :
  Loader.data_end f <= Loader.data_pos f -> load_step fs s f = close_template s f.
Proof.
  intros L. unfold load_step. destruct (Z.ltb_spec (Loader.data_pos f) (Loader.data_end f));
    [lia | reflexivity].
Qed.

(** X23: the template [{{#x}}body{{/x}}], with white space allowed around the
    name in both tags and a body of plain text: the section start at
    instruction 1 names the trimmed name and ends at the
    [MUSTACHE_SECTION_END] at instruction 3, and [mustache_section_text]
    gives every callback called at instruction 1 the body as it stands in
    the template, with its length. *)
Theorem section_text_is_its_body (fs : filesystem)
    (name l n r l' r' body : bytes) (k : nat) :
  tag_body l n r -> tag_body l' n r' -> plain_text body -> body <> [] ->
  zlength name < 65536 ->
  let template := section_template (l ++ n ++ r) body (l' ++ n ++ r') in
  zlength template < 65536 ->
  exists m op,
    mustache_load fs {| LoadArgs.filename := name; LoadArgs.data := Some template |}
                  (S (S (S k)))
    = Loaded m MUSTACHE_OK
    /\ intruction_count m = 5
    /\ nth_error (instructions m) 1 = Some op
    /\ Inst.instruction op = Inst.MUSTACHE_SECTION_START
    /\ Inst.end_ (Inst.data op) = 3
    /\ nth_error (instructions m) 3
       = Some {| Inst.instruction := Inst.MUSTACHE_SECTION_END; Inst.data := Inst.data op |}
    /\ name_of m op = n
    /\ text_at m 1 = TextReturn (Some body) (zlength body)
    /\ forall (H : Type) (cb : callbacks H) (u1 u2 : Z) (fuel : nat) (h : H) v c res,
         In (Call 1 v c res)
            (fst (mustache_build cb {| mustache := Some m; arg_udata1 := u1;
                                       arg_udata2 := u2 |} fuel h)) ->
         view_text v = TextReturn (Some body) (zlength body).
Proof.
  intros Hb Hb' Hbody Hne Hname template Htl.
  set (x := l ++ n ++ r) in *. set (y := l' ++ n ++ r') in *.
  pose proof (zlength_section_template x body y) as Ht. fold template in Ht.
  pose proof (zlength_nonneg name) as Hn0. pose proof (zlength_nonneg x) as Hx0.
  pose proof (zlength_nonneg y) as Hy0. pose proof (zlength_nonneg body) as Hbo0.
  pose proof (zlength_nonneg l) as Hl0. pose proof (zlength_nonneg n) as Hnn0.
  pose proof (zlength_nonneg r) as Hr0.
  assert (Hx : zlength x = zlength l + zlength n + zlength r)
    by (unfold x; rewrite !zlength_app; lia).
  assert (Hbl : 0 < zlength body).
  { destruct body; [congruence | rewrite zlength_cons; pose proof (zlength_nonneg body); lia]. }
  set (hd := root_header name (zlength template)).
  assert (Hh : zlength hd = 13 + zlength name) by (apply zlength_root_header; lia).
  set (s0 := loader_at_root name template). set (f0 := root_frame_of name template).
  assert (Hend0 : Loader.data_end f0 = 13 + zlength name + zlength template).
  { unfold f0, root_frame_of. cbn [Loader.data_end]. fold hd. rewrite zlength_app, Hh.
    reflexivity. }
  assert (Hsz : zlength (Loader.data s0) = 13 + zlength name + zlength template).
  { unfold s0, loader_at_root. cbn [Loader.data]. fold hd. rewrite zlength_app, Hh.
    reflexivity. }
  (* the opening tag *)
  destruct (parse_step_section_start fs s0 f0 [] hd [] (body ++ [123; 123; 47] ++ y ++ [125; 125])
              eq_refl eq_refl eq_refl) with (sg := 35) (l := l) (n := n) (r := r)
    as (s1 & P1 & I1 & D1 & S1); try assumption; fold x.
  1: unfold f0, root_frame_of; cbn [Loader.data_pos]; lia.
  1: constructor.
  1: rewrite Hsz; lia.
  1: unfold s0, loader_at_root, zlength, INT32_MAX; cbn; lia.
  1: left; reflexivity.
  1: reflexivity.
  1: rewrite Hend0, Ht; change (zlength (@nil Z)) with 0; lia.
  1: lia.
  1: unfold f0, root_frame_of; cbn [Loader.open_sections]; lia.
  1: unfold f0, root_frame_of, MUSTACHE_NESTING_LIMIT; cbn [Loader.open_sections]; lia.
  change (zlength (@nil Z)) with 0 in I1, S1. rewrite !Z.add_0_r in I1, S1.
  change (with_text s0 (zlength hd) 0) with s0 in I1.
  change (35 =? 94) with false in I1.
  set (at1 := zlength hd + 3 + zlength l) in *.
  set (behind1 := zlength hd + zlength x + 5) in *.
  set (op0 := section_start false at1 (zlength n) (behind1 - at1)) in *.
  set (f1 := Loader.set_open_sections (Loader.set_data_pos f0 behind1)
               (Loader.open_sections f0 + 1)) in *.
  (* the body and the closing tag *)
  set (pre1 := hd ++ [123; 123; 35] ++ x ++ [125; 125]).
  assert (Hp1 : zlength pre1 = behind1).
  { unfold pre1, behind1. rewrite !zlength_app. unfold zlength at 2 4.
    cbn [List.length]. lia. }
  assert (Hd1 : Loader.data s1
                = pre1 ++ body ++ [123; 123] ++ (47 :: y) ++ [125; 125] ++ []).
  { rewrite D1. unfold s0, loader_at_root, template, section_template, pre1.
    cbn [Loader.data]. fold hd. rewrite <- !app_assoc. reflexivity. }
  assert (Hop0 : slice (Loader.data s1) at1 (zlength n) = n).
  { rewrite D1. unfold s0, loader_at_root, template, section_template, at1, x.
    cbn [Loader.data]. fold hd. apply name_in_tag. }
  destruct (parse_step_section_end fs s1 f1 [] pre1 body [] S1 eq_refl eq_refl)
    with (l := l') (n := n) (r := r') (pos := 1%nat) (op := op0)
    as (s2 & P2 & I2 & D2 & S2); try assumption; fold y.
  1: unfold f1; cbn [Loader.data_pos Loader.set_open_sections Loader.set_data_pos];
     symmetry; exact Hp1.
  1: rewrite D1, Hsz; lia.
  1: rewrite I1; unfold s0, loader_at_root, zlength, INT32_MAX; cbn; lia.
  1: unfold f1; cbn [Loader.data_end Loader.set_open_sections Loader.set_data_pos];
     rewrite Hend0, Ht, Hp1; unfold behind1; rewrite Hh; lia.
  1: unfold f1, f0, root_frame_of, MUSTACHE_NESTING_LIMIT;
     cbn [Loader.open_sections Loader.set_open_sections]; lia.
  1: rewrite I1; reflexivity.
  1: rewrite I1; reflexivity.
  1: reflexivity.
  assert (Hw : Loader.i (with_text s1 (zlength pre1) (zlength body))
               = Loader.i s0 ++ [op0; write_text behind1 (zlength body)]).
  { unfold with_text. destruct (Z.eqb_spec (zlength body) 0); [lia |].
    cbn [Loader.i Loader.set_i]. rewrite I1, Hp1, <- app_assoc.
    unfold u16. rewrite Z.mod_small by lia. reflexivity. }
  set (closed := {| Inst.end_ := 3; Inst.len := zlength body; Inst.name_pos := at1;
                    Inst.name_len := zlength n; Inst.offset := behind1 - at1 |}).
  set (op := {| Inst.instruction := Inst.MUSTACHE_SECTION_START; Inst.data := closed |}).
  assert (I2' : Loader.i s2
                = [ {| Inst.instruction := Inst.MUSTACHE_SECTION_START;
                       Inst.data := Inst.zero |};
                    op; write_text behind1 (zlength body);
                    {| Inst.instruction := Inst.MUSTACHE_SECTION_END;
                       Inst.data := closed |} ]).
  { rewrite I2, Hw.
    replace (zlength (Loader.i s0 ++ [op0; write_text behind1 (zlength body)]))
      with 3 by reflexivity.
    unfold op0, section_start.
    cbn [Inst.data Inst.set_end Inst.set_len Inst.len Inst.name_pos Inst.name_len
         Inst.offset Inst.end_ Inst.instruction].
    replace (u32 (zlength pre1 + zlength body - (at1 + (behind1 - at1))))
      with (zlength body)
      by (rewrite Hp1; unfold u32; rewrite Z.mod_small by lia; lia).
    reflexivity. }
  (* the end of the template *)
  set (m := {| instructions :=
                 [ {| Inst.instruction := Inst.MUSTACHE_SECTION_START;
                      Inst.data := Inst.set_end Inst.zero 4 |};
                   op; write_text behind1 (zlength body);
                   {| Inst.instruction := Inst.MUSTACHE_SECTION_END; Inst.data := closed |};
                   {| Inst.instruction := Inst.MUSTACHE_SECTION_END;
                      Inst.data := Inst.zero |} ];
               data_segment := hd ++ template |}).
  set (f2 := Loader.set_open_sections
               (Loader.set_data_pos f1 (zlength pre1 + zlength body + zlength y + 5))
               (Loader.open_sections f1 - 1)) in *.
  assert (Hclose : close_template s2 f2
                   = Return 0 (Loader.set_stack
                                 (Loader.set_i s2 (instructions m)) [])).
  { unfold close_template.
    change (Loader.open_sections f2) with 0. cbn [Z.eqb negb].
    change (Loader.data_start f2) with 0. change (Z.to_nat 0) with 0%nat.
    rewrite skipn_O, D2, D1. change (Loader.data s0) with (hd ++ template).
    assert (Hz : inst_start (mustache__data_segment_read (hd ++ template)) = 0)
      by (unfold hd; apply root_header_inst_start).
    rewrite !Hz.
    rewrite I2'. unfold mustache__instruction_push.
    change (Z.to_nat 0) with 0%nat.
    unfold update_nth. cbn [firstn skipn app Loader.i Loader.set_i Inst.instruction
                            Inst.data].
    replace (INT32_MAX <=? _) with false by reflexivity.
    cbn [snd Loader.set_i Loader.set_stack Loader.stack Loader.i Loader.data tl app].
    rewrite S2. reflexivity. }
  assert (Hload : mustache_load fs {| LoadArgs.filename := name;
                                      LoadArgs.data := Some template |} (S (S (S k)))
                  = Loaded m MUSTACHE_OK).
  { unfold mustache_load. cbn [LoadArgs.data LoadArgs.filename].
    rewrite load_data_root by lia. cbn [Z.eqb]. fold s0.
    rewrite (load_loop_turn _ fs s0 f0 []) by reflexivity.
    rewrite load_step_parses
      by (rewrite Hend0; unfold f0, root_frame_of; cbn [Loader.data_pos]; lia).
    rewrite P1. cbn [Z.eqb].
    rewrite (load_loop_turn _ fs s1 f1 []) by exact S1.
    rewrite load_step_parses
      by (unfold f1;
          cbn [Loader.data_pos Loader.data_end Loader.set_open_sections
               Loader.set_data_pos];
          rewrite Hend0, Ht; unfold behind1; rewrite Hh; lia).
    rewrite P2. cbn [Z.eqb].
    rewrite (load_loop_turn _ fs s2 f2 []) by exact S2.
    rewrite load_step_closes
      by (unfold f2, f1;
          cbn [Loader.data_pos Loader.data_end Loader.set_open_sections
               Loader.set_data_pos];
          rewrite Hend0, Ht, Hp1; unfold behind1; rewrite Hh; lia).
    rewrite Hclose. cbn [Z.eqb].
    destruct k; cbn [load_loop Loader.stack Loader.i Loader.data Loader.set_stack
                     Loader.set_i];
      rewrite D2, D1; reflexivity. }
  assert (Htext : text_at m 1 = TextReturn (Some body) (zlength body)).
  { unfold text_at, mustache_section_text.
    cbn [Builder.data Builder.pos]. change (Z.to_nat 1) with 1%nat.
    cbn [m instructions nth_error op Inst.instruction Inst.data closed Inst.name_pos
         Inst.offset Inst.len data_segment].
    replace (at1 + (behind1 - at1)) with (zlength pre1) by lia.
    do 2 f_equal.
    unfold template, section_template.
    replace (hd ++ [123; 123; 35] ++ x ++ [125; 125] ++ body
                ++ [123; 123; 47] ++ y ++ [125; 125])
      with (pre1 ++ body ++ [123; 123; 47] ++ y ++ [125; 125])
      by (unfold pre1; rewrite <- !app_assoc; reflexivity).
    apply slice_app. }
  exists m, op. split; [exact Hload |]. split; [reflexivity |].
  split; [reflexivity |]. split; [reflexivity |]. split; [reflexivity |].
  split; [reflexivity |]. split; [| split; [exact Htext |]].
  - unfold name_of, m, op, closed.
    cbn [data_segment Inst.data Inst.name_pos Inst.name_len].
    rewrite <- Hop0 at 2. rewrite D1. reflexivity.
  - intros H cb u1 u2 fuel h v c res Hin.
    destruct (mustache_build _ _ _ _) as [ev rs] eqn:Eb. cbn [fst] in Hin.
    destruct (mustache_build_calls cb _ _ _ _ _ _ _ _ _ _ _ Eb Hin)
      as (i & _ & _ & ->).
    exact Htext.
Qed.

(* ------------------------------------------------------------------ *)
(** ** White space around a name *)

Lemma skip_ws_fwd_from_stops (l : bytes) : forall pos,
  let q := skip_ws_fwd_from l pos in
  pos <= q <= pos + zlength l
  /\ isspace (nth (Z.to_nat (q - pos)) l 0) = false
  /\ forall k, (k < Z.to_nat (q - pos))%nat -> isspace (nth k l 0) = true.
Proof.
  induction l as [| c l IH]; intros pos; cbn [skip_ws_fwd_from].
  - cbv zeta. rewrite Z.sub_diag. change (zlength (@nil Z)) with 0.
    split; [lia |]. split; [reflexivity |]. intros k Hk. cbn in Hk. lia.
  - destruct (isspace c) eqn:Ec.
    + specialize (IH (pos + 1)). cbv zeta in *. destruct IH as (I1 & I2 & I3).
      rewrite zlength_cons. split; [lia |].
      replace (Z.to_nat (skip_ws_fwd_from l (pos + 1) - pos))
        with (S (Z.to_nat (skip_ws_fwd_from l (pos + 1) - (pos + 1)))) by lia.
      split; [exact I2 |]. intros [| k] Hk; [exact Ec | apply I3; lia].
    + cbv zeta. rewrite Z.sub_diag. rewrite zlength_cons.
      pose proof (zlength_nonneg l).
      split; [lia |]. split; [exact Ec |]. intros k Hk. cbn in Hk. lia.
Qed.

(** X24: [MUSTACHE_IGNORE_WHITESPACE(str, 1)]: the place it stops at is the
    first from [pos] on that holds no white space, the NUL behind the data
    at the latest. *)
Theorem skip_ws_fwd_stops (data : bytes) (pos : Z) :
  0 <= pos ->
  let q := skip_ws_fwd data pos in
  pos <= q
  /\ isspace (byte_at data q) = false
  /\ forall k, pos <= k < q -> isspace (byte_at data k) = true.
Proof.
  intros H0. unfold skip_ws_fwd.
  pose proof (skip_ws_fwd_from_stops (skipn (Z.to_nat pos) data) pos) as S.
  cbv zeta in *. destruct S as (S1 & S2 & S3).
  set (q := skip_ws_fwd_from (skipn (Z.to_nat pos) data) pos) in *.
  assert (Hnth : forall k, nth k (skipn (Z.to_nat pos) data) 0
                           = byte_at data (pos + Z.of_nat k)).
  { intros k. unfold byte_at. destruct (Z.ltb_spec (pos + Z.of_nat k) 0); [lia |].
    rewrite nth_skipn. f_equal. lia. }
  split; [lia |]. split.
  - rewrite Hnth in S2. replace (pos + Z.of_nat (Z.to_nat (q - pos))) with q in S2 by lia.
    exact S2.
  - intros k Hk. specialize (S3 (Z.to_nat (k - pos))). rewrite Hnth in S3.
    replace (pos + Z.of_nat (Z.to_nat (k - pos))) with k in S3 by lia.
    apply S3. lia.
Qed.

(* ------------------------------------------------------------------ *)
(** ** The errors of a load *)

Lemma instruction_push_error s inst r s' :
  mustache__instruction_push s inst = (r, s') -> r <> 0 -> load_error (Loader.err s').
Proof.
  unfold mustache__instruction_push. destruct (_ <=? _); intros E Hr;
    inversion E; subst; [exact I | congruence].
Qed.

Lemma load_data_error s name name_len data r s' :
  mustache__load_data s name name_len data = (r, s') -> r <> 0 ->
  load_error (Loader.err s').
Proof.
  unfold mustache__load_data. intros E Hr.
  destruct (_ <? _); [inversion E; exact I |].
  destruct (_ <=? _); inversion E; subst; [exact I | congruence].
Qed.

Lemma load_file_error fs s name name_len r s' :
  mustache__load_file fs s name name_len = Return r s' -> r <> 0 ->
  load_error (Loader.err s').
Proof.
  unfold mustache__load_file. intros E Hr.
  destruct (_ =? 0); [inversion E; exact I |].
  destruct (_ || _); [inversion E; exact I |].
  match type of E with
  | match ?found with _ => _ end = _ => destruct found as [p l c | p]
  end.
  - destruct (_ <=? _); [inversion E; exact I |].
    destruct (mustache__file_is_loaded _ _ _) as [pre | w]; [| discriminate].
    destruct (negb _).
    + destruct (mustache__instruction_push _ _) as [r1 s1] eqn:Ep.
      inversion E; subst. eapply instruction_push_error; eassumption.
    + destruct (mustache__load_data _ _ _ _) as [r1 s1] eqn:El.
      inversion E; subst. eapply load_data_error; eassumption.
  - destruct (_ && _).
    + destruct (mustache__instruction_push _ _) as [r1 s1] eqn:Ep.
      inversion E; subst. eapply instruction_push_error; eassumption.
    + inversion E. exact I.
Qed.

Lemma fail_error s e r s' :
  fail s e = Return r s' -> load_error e -> load_error (Loader.err s').
Proof. unfold fail. intros E He. inversion E. exact He. Qed.

Lemma parse_tag_error fs s f org beg end_ r s' :
  parse_tag fs s f org beg end_ = Return r s' -> r <> 0 -> load_error (Loader.err s').
Proof.
  unfold parse_tag. intros E Hr.
  repeat match type of E with
         | (if ?c then _ else _) = _ => destruct c
         end.
  - inversion E. congruence.
  - unfold tag_delimiters in E.
    repeat match type of E with
           | (if ?c then _ else _) = _ => destruct c
           end;
      first [ eapply fail_error; [exact E | exact I] | inversion E; congruence ].
  - unfold tag_section_start in E. destruct (trim _ _ _) as [b e].
    destruct (_ <=? _); [eapply fail_error; [exact E | exact I] |].
    destruct (mustache__instruction_push _ _) as [r1 s1] eqn:Ep.
    inversion E; subst. eapply instruction_push_error; eassumption.
  - unfold tag_section_start in E. destruct (trim _ _ _) as [b e].
    destruct (_ <=? _); [eapply fail_error; [exact E | exact I] |].
    destruct (mustache__instruction_push _ _) as [r1 s1] eqn:Ep.
    inversion E; subst. eapply instruction_push_error; eassumption.
  - unfold tag_partial in E. destruct (trim _ _ _) as [b e].
    eapply load_file_error; eassumption.
  - unfold tag_section_end in E. destruct (trim _ _ _) as [b e].
    destruct (_ =? 0); [eapply fail_error; [exact E | exact I] |].
    destruct (find_opener _ _ _); [| eapply fail_error; [exact E | exact I]].
    destruct (nth_error _ _); [| eapply fail_error; [exact E | exact I]].
    destruct (_ || _); [eapply fail_error; [exact E | exact I] |].
    inversion E. congruence.
  - unfold tag_variable in E. destruct (trim _ _ _) as [b e].
    inversion E. congruence.
Qed.

Lemma load_step_error fs s f r s' :
  load_step fs s f = Return r s' -> r <> 0 -> load_error (Loader.err s').
Proof.
  unfold load_step. intros E Hr. destruct (_ <? _).
  - unfold parse_step, text_rest in E.
    destruct (strstr _ _) as [off |]; [| inversion E; congruence].
    destruct (_ <=? _); [inversion E; congruence |].
    destruct (strstr _ _) as [off_end |]; [| eapply fail_error; [exact E | exact I]].
    destruct (_ <=? _); [eapply fail_error; [exact E | exact I] |].
    eapply parse_tag_error; eassumption.
  - unfold close_template in E.
    destruct (negb _); [eapply fail_error; [exact E | exact I] |].
    inversion E. congruence.
Qed.

(** X27: a load that fails reports the error that was stored where it
    stopped, one of [MUSTACHE_ERR_TOO_DEEP], [MUSTACHE_ERR_CLOSURE_MISMATCH],
    [MUSTACHE_ERR_FILE_NOT_FOUND], [MUSTACHE_ERR_FILE_TOO_BIG],
    [MUSTACHE_ERR_FILE_NAME_TOO_LONG], [MUSTACHE_ERR_FILE_NAME_TOO_SHORT],
    [MUSTACHE_ERR_DELIMITER_TOO_LONG] and [MUSTACHE_ERR_UNKNOWN]; it never
    reports [MUSTACHE_OK], [MUSTACHE_ERR_EMPTY_TEMPLATE],
    [MUSTACHE_ERR_USER_ERROR] or [MUSTACHE_ERR_NAME_TOO_LONG], which the
    section case stores without stopping. *)
Theorem load_failure_errors (fs : filesystem) (args : LoadArgs.mustache_load_args_s)
    (fuel : nat) (e : mustache_error_en) :
  mustache_load fs args fuel = LoadFailed e ->
  load_error e
  /\ e <> MUSTACHE_OK /\ e <> MUSTACHE_ERR_EMPTY_TEMPLATE
  /\ e <> MUSTACHE_ERR_USER_ERROR /\ e <> MUSTACHE_ERR_NAME_TOO_LONG.
Proof.
  intros E.
  assert (He : load_error e); [| repeat split; try exact He; intros ->; exact He].
  unfold mustache_load in E.
  assert (Hloop : forall fuel s, load_loop fuel fs s = LoadFailed e -> load_error e).
  { clear. induction fuel as [| fuel IH]; intros s E; cbn [load_loop] in E;
      destruct (Loader.stack s) as [| f rest]; try discriminate.
    destruct (load_step fs s f) as [r s1 | w] eqn:Es; [| discriminate].
    destruct (Z.eqb_spec r 0) as [-> | Hr]; [apply (IH _ E) |].
    inversion E; subst. eapply load_step_error; eassumption. }
  destruct (LoadArgs.data args) as [d |].
  - destruct (mustache__load_data _ _ _ _) as [r s] eqn:El.
    destruct (Z.eqb_spec r 0) as [-> | Hr]; [apply (Hloop _ _ E) |].
    inversion E; subst. eapply load_data_error; eassumption.
  - destruct (mustache__load_file _ _ _ _) as [r s | w] eqn:El; [| discriminate].
    destruct (Z.eqb_spec r 0) as [-> | Hr]; [apply (Hloop _ _ E) |].
    inversion E; subst. eapply load_file_error; eassumption.
Qed.

(* ------------------------------------------------------------------ *)
(** ** Variables and delimiters in their place *)

(** The scan for the first white space passes over bytes that are none. *)
Lemma scan_nonspace_word (a w rest : bytes) (c : Z) :
  Forall (fun b => isspace b = false) w -> isspace c = true ->
  forall k, (List.length w <= k)%nat ->
  scan_nonspace (a ++ w ++ c :: rest) k (zlength a) = zlength a + zlength w.
Proof.
  intros Fw Hc. revert a. induction Fw as [| b w Hb Fw IH]; intros a k Hk.
  - cbn [app]. change (zlength (@nil Z)) with 0. rewrite Z.add_0_r.
    destruct k; [reflexivity |]. cbn [scan_nonspace].
    replace (zlength a) with (zlength a + 0) at 1 by lia.
    rewrite byte_at_app by lia. cbn. rewrite Hc. reflexivity.
  - destruct k as [| k]; [cbn in Hk; lia |]. cbn [scan_nonspace].
    assert (Eb : byte_at (a ++ (b :: w) ++ c :: rest) (zlength a) = b).
    { replace (zlength a) with (zlength a + 0) by lia.
      rewrite byte_at_app by lia. reflexivity. }
    rewrite Eb, Hb.
    assert (Ed : a ++ (b :: w) ++ c :: rest = (a ++ [b]) ++ w ++ c :: rest)
      by (rewrite <- app_assoc; reflexivity).
    assert (Ez : zlength a + 1 = zlength (a ++ [b]))
      by (rewrite zlength_app; reflexivity).
    rewrite Ed, Ez. rewrite IH by (cbn in Hk; lia).
    unfold zlength. rewrite length_app. cbn [List.length]. lia.
Qed.

Ltac zlen :=
  unfold zlength in *;
  repeat (rewrite length_app || (progress cbn [List.length])); lia.

Ltac assoc :=
  repeat (rewrite <- app_assoc || (progress cbn [app])); reflexivity.

Lemma last_app_right {A} (a b : list A) (d : A) :
  b <> [] -> last (a ++ b) d = last b d.
Proof.
  intros Hb. induction a as [| x a IH]; [reflexivity |].
  cbn [app]. destruct (a ++ b) eqn:E.
  - destruct a; [cbn in E; congruence | discriminate].
  - cbn [last]. exact IH.
Qed.

Section MoreTagsInPlace.
Variables (fs : filesystem) (s : Loader.mustache__loader_stack_s)
          (f : Loader.frame) (rest : list Loader.frame)
          (pre text tail : bytes).
Hypothesis Hst : Loader.stack s = f :: rest.
Hypothesis Hds : Loader.del_start f = default_del_start.
Hypothesis Hde : Loader.del_end f = default_del_end.
Hypothesis Hpos : Loader.data_pos f = zlength pre.
Hypothesis Htext : plain_text text.
Hypothesis Hsize : zlength (Loader.data s) < 4294967296.
Hypothesis Hi : zlength (Loader.i s) + 1 < INT32_MAX.

(** X25: a variable tag [{{x}}], [{{:x}}] or [{{<x}}] (with [mark] empty,
    [:] or [<]) compiles to one [MUSTACHE_WRITE_ARG] for the name trimmed
    of the white space around it; the text before the tag is compiled
    first, and reading goes on behind the tag. *)
Theorem variable_tag_in_place (mark l n r : bytes) :
  mark = [] \/ mark = [58] \/ mark = [60] ->
  Loader.data s
  = pre ++ text ++ [123; 123] ++ (mark ++ l ++ n ++ r) ++ [125; 125] ++ tail ->
  tag_body l n r ->
  (mark = [] ->
   ~ In (hd 0 (l ++ n)) [33; 61; 94; 35; 62; 47; 123; 38; 58; 60]) ->
  zlength pre + zlength text + zlength (mark ++ l ++ n ++ r) + 2 < Loader.data_end f ->
  zlength n < 65536 ->
  let at_ := zlength pre + zlength text + 2 + zlength mark + zlength l in
  let behind := zlength pre + zlength text + zlength (mark ++ l ++ n ++ r) + 4 in
  exists s',
    parse_step fs s f = Return 0 s'
    /\ Loader.i s'
       = Loader.i (with_text s (zlength pre) (zlength text))
         ++ [ {| Inst.instruction := Inst.MUSTACHE_WRITE_ARG;
                 Inst.data := {| Inst.end_ := 0; Inst.len := 0; Inst.name_pos := at_;
                                 Inst.name_len := zlength n; Inst.offset := 0 |} |} ]
    /\ slice (Loader.data s') at_ (zlength n) = n
    /\ Loader.data s' = Loader.data s
    /\ Loader.stack s' = Loader.set_data_pos f behind :: rest.
Proof.
  intros Hmark Hdata Hb Hsig Hend Hn at_ behind.
  pose proof (tag_body_clean _ _ _ Hb) as Hclean.
  pose proof Hb as (Fl & Fr & Hne & Hhd & Hlast & Fn).
  set (x := l ++ n ++ r) in *.
  pose proof (zlength_nonneg pre) as Hp0. pose proof (zlength_nonneg text) as Ht0.
  pose proof (zlength_nonneg x) as Hx0. pose proof (zlength_nonneg l) as Hl0.
  pose proof (zlength_nonneg n) as Hn0. pose proof (zlength_nonneg r) as Hr0.
  pose proof (zlength_nonneg tail) as Hta0. pose proof (zlength_nonneg mark) as Hm0.
  assert (Hx : zlength x = zlength l + zlength n + zlength r)
    by (unfold x; rewrite !zlength_app; lia).
  assert (Hmx : zlength (mark ++ x) = zlength mark + zlength x) by apply zlength_app.
  assert (Hlen : zlength (Loader.data s)
                 = zlength pre + zlength text + zlength (mark ++ x) + 4 + zlength tail).
  { rewrite Hdata. rewrite !zlength_app. unfold zlength at 3 6. cbn [List.length]. lia. }
  assert (Hmc : tag_inside (mark ++ x)).
  { apply Forall_app. split; [| exact Hclean].
    destruct Hmark as [-> | [-> | ->]]; repeat constructor; discriminate. }
  rewrite (parse_step_scan fs s f pre text (mark ++ x) tail); try assumption; try lia.
  destruct (with_text_parts s pre text) as (Hd & Hs1 & Hi1).
  set (s1 := with_text s (zlength pre) (zlength text)) in *.
  set (a := pre ++ text ++ [123; 123] ++ mark).
  assert (Ha : zlength a = zlength pre + zlength text + 2 + zlength mark).
  { unfold a. rewrite !zlength_app. unfold zlength at 3. cbn [List.length]. lia. }
  assert (Hdata' : Loader.data s = a ++ x ++ [125; 125] ++ tail).
  { rewrite Hdata. unfold a. rewrite <- !app_assoc. reflexivity. }
  assert (Hx1 : exists c x', l ++ n = c :: x' /\ (l <> [] -> isspace c = true)
                              /\ (l = [] -> isspace c = false)).
  { destruct l as [| c l'].
    - destruct n as [| c n']; [congruence |]. exists c, n'. cbn [hd] in Hhd.
      repeat split; [congruence | intros _; exact Hhd].
    - exists c, (l' ++ n). inversion Fl; subst.
      repeat split; [intros _; assumption | discriminate]. }
  (* the byte that tells the kind of tag *)
  set (sigil := byte_at (Loader.data s) (zlength pre + zlength text + 2)).
  assert (Esig : sigil = hd 0 (mark ++ l ++ n)).
  { unfold sigil. rewrite Hdata.
    replace (pre ++ text ++ [123; 123] ++ (mark ++ x) ++ [125; 125] ++ tail)
      with ((pre ++ text ++ [123; 123]) ++ (mark ++ x) ++ [125; 125] ++ tail)
      by (rewrite <- !app_assoc; reflexivity).
    replace (zlength pre + zlength text + 2)
      with (zlength (pre ++ text ++ [123; 123]) + 0)
      by (rewrite !zlength_app; unfold zlength at 3; cbn [List.length]; lia).
    rewrite byte_at_app by lia.
    destruct Hx1 as (c & x' & Ecx & _).
    unfold x. destruct Hmark as [-> | [-> | ->]]; try reflexivity.
    cbn [app]. rewrite app_assoc, Ecx. reflexivity. }
  assert (Hcases : (sigil =? 33) = false /\ (sigil =? 61) = false
                   /\ (sigil =? 94) = false /\ (sigil =? 35) = false
                   /\ (sigil =? 62) = false /\ (sigil =? 47) = false
                   /\ (sigil =? 123) = false /\ (sigil =? 38) = false
                   /\ ((sigil =? 58) || (sigil =? 60) = negb (zlength mark =? 0))).
  { rewrite Esig. destruct Hmark as [Hm | [-> | ->]]; [| repeat split ..].
    subst mark. cbn [app]. specialize (Hsig eq_refl). cbn [In] in Hsig.
    change (zlength (@nil Z)) with 0. cbn [Z.eqb negb].
    repeat split; try (apply Z.eqb_neq; intros X; apply Hsig; rewrite X; tauto).
    apply orb_false_iff. split; apply Z.eqb_neq; intros X; apply Hsig; rewrite X; tauto. }
  destruct Hcases as (C1 & C2 & C3 & C4 & C5 & C6 & C7 & C8 & C9).
  unfold parse_tag. cbn [Loader.data Loader.set_top Loader.set_stack]. rewrite Hd.
  fold sigil. rewrite C1, C2, C3, C4, C5, C6.
  unfold tag_variable. cbn [Loader.data Loader.set_top Loader.set_stack].
  rewrite Hd. rewrite C7. cbn [andb]. rewrite C8. cbn [orb negb].
  rewrite C9.
  assert (Etrim : trim (Loader.data s)
                    (if negb (zlength mark =? 0)
                     then zlength pre + zlength text + 2 + 1
                     else zlength pre + zlength text + 2)
                    (zlength pre + zlength text + 2 + zlength (mark ++ x))
                  = (at_, at_ + zlength n)).
  { rewrite Hdata'.
    replace (if negb (zlength mark =? 0)
             then zlength pre + zlength text + 2 + 1
             else zlength pre + zlength text + 2) with (zlength a)
      by (rewrite Ha; destruct Hmark as [-> | [-> | ->]]; cbn; lia).
    replace (zlength pre + zlength text + 2 + zlength (mark ++ x))
      with (zlength a + zlength x) by lia.
    replace (a ++ x ++ [125; 125] ++ tail) with (a ++ x ++ ([125; 125] ++ tail))
      by reflexivity.
    unfold x. rewrite (trim_tag_body a l n r _ Hb). unfold at_. f_equal; lia. }
  rewrite Etrim.
  replace (u32 at_) with at_ by (unfold u32, at_; rewrite Z.mod_small; lia).
  replace (u16 (at_ + zlength n - at_)) with (zlength n)
    by (unfold u16; rewrite Z.mod_small; lia).
  unfold mustache__instruction_push.
  cbn [Loader.i Loader.set_top Loader.set_stack].
  destruct (Z.leb_spec INT32_MAX (zlength (Loader.i s1))); [lia |].
  eexists. split; [reflexivity |].
  cbn [snd Loader.i Loader.set_i Loader.data Loader.stack Loader.set_top
       Loader.set_stack tl].
  rewrite Hs1, Hst, Hd. cbn [tl].
  replace (zlength pre + zlength text + zlength (mark ++ x) + 4) with behind
    by (unfold behind; lia).
  split; [reflexivity |]. split; [| split; reflexivity].
  rewrite Hdata'. unfold at_. rewrite <- Ha. unfold x.
  replace (a ++ (l ++ n ++ r) ++ [125; 125] ++ tail)
    with ((a ++ l) ++ n ++ r ++ [125; 125] ++ tail)
    by (rewrite <- !app_assoc; reflexivity).
  replace (zlength a + zlength l) with (zlength (a ++ l)) by apply zlength_app.
  apply slice_app.
Qed.

(** X26: a tag [{{=a b=}}] sets the delimiters of the template that is
    being read to [a] and [b], the two words between the [=] signs, and
    compiles to nothing; [a] has no white space in it and neither has more
    than ten bytes. *)
Theorem delimiter_tag_in_place (ws1 d1 ws2 d2 ws3 : bytes) :
  Loader.data s
  = pre ++ text ++ [123; 123]
    ++ (61 :: ws1 ++ (d1 ++ ws2 ++ d2) ++ ws3 ++ [61]) ++ [125; 125] ++ tail ->
  Forall (fun c => isspace c = true) ws1 ->
  Forall (fun c => isspace c = true) ws2 ->
  Forall (fun c => isspace c = true) ws3 ->
  ws2 <> [] -> d1 <> [] -> d2 <> [] ->
  Forall (fun c => isspace c = false) d1 ->
  isspace (hd 0 d2) = false -> isspace (last d2 0) = false ->
  tag_inside d1 -> tag_inside d2 ->
  zlength d1 < MUSTACHE_DELIMITER_LENGTH_LIMIT ->
  zlength d2 < MUSTACHE_DELIMITER_LENGTH_LIMIT ->
  zlength pre + zlength text
  + zlength (ws1 ++ (d1 ++ ws2 ++ d2) ++ ws3) + 4 < Loader.data_end f ->
  let behind := zlength pre + zlength text
                + zlength (ws1 ++ (d1 ++ ws2 ++ d2) ++ ws3) + 6 in
  parse_step fs s f
  = Return 0 (Loader.set_top (with_text s (zlength pre) (zlength text))
                (Loader.set_delimiters (Loader.set_data_pos f behind) d1 d2)).
Proof.
  intros Hdata F1 F2 F3 Hw2 Hd1 Hd2 Fd1 Hh2 Hl2 C1 C2 L1 L2 Hend behind.
  set (n := d1 ++ ws2 ++ d2) in *.
  set (x := ws1 ++ n ++ ws3) in *.
  pose proof (zlength_nonneg pre) as Hp0. pose proof (zlength_nonneg text) as Ht0.
  pose proof (zlength_nonneg ws1) as Hw10. pose proof (zlength_nonneg ws2) as Hw20.
  pose proof (zlength_nonneg ws3) as Hw30. pose proof (zlength_nonneg d1) as Hd10.
  pose proof (zlength_nonneg d2) as Hd20. pose proof (zlength_nonneg tail) as Hta0.
  assert (Hp1 : 0 < zlength d1)
    by (destruct d1; [congruence | rewrite zlength_cons; pose proof (zlength_nonneg d1); lia]).
  assert (Hp2 : 0 < zlength d2)
    by (destruct d2; [congruence | rewrite zlength_cons; pose proof (zlength_nonneg d2); lia]).
  assert (Hpw : 0 < zlength ws2)
    by (destruct ws2; [congruence
                      | rewrite zlength_cons; pose proof (zlength_nonneg ws2); lia]).
  assert (Hn : zlength n = zlength d1 + zlength ws2 + zlength d2)
    by (unfold n; rewrite !zlength_app; lia).
  assert (Hx : zlength x = zlength ws1 + zlength n + zlength ws3)
    by (unfold x; rewrite !zlength_app; lia).
  assert (Hb : tag_body ws1 n ws3).
  { repeat split; try assumption.
    - unfold n. destruct d1; [congruence | discriminate].
    - unfold n. destruct d1 as [| c d1']; [congruence |]. inversion Fd1; assumption.
    - unfold n. rewrite app_assoc. rewrite last_app_right by assumption. exact Hl2.
    - unfold n. rewrite !Forall_app. repeat split; try assumption.
      eapply Forall_impl; [| exact F2]. apply isspace_not_closing. }
  pose proof (tag_body_clean _ _ _ Hb) as Hclean. fold x in Hclean.
  assert (Hbody : tag_inside (61 :: x ++ [61])).
  { constructor; [split; discriminate |]. apply Forall_app. split; [exact Hclean |].
    repeat constructor; discriminate. }
  assert (Hbl : zlength (61 :: x ++ [61]) = zlength x + 2).
  { unfold x. clear. zlen. }
  assert (Hlen : zlength (Loader.data s)
                 = zlength pre + zlength text + zlength x + 6 + zlength tail).
  { rewrite Hdata. unfold x. clear. zlen. }
  rewrite (parse_step_scan fs s f pre text (61 :: x ++ [61]) tail);
    try assumption; try lia.
  2: { rewrite Hdata. unfold x. assoc. }
  rewrite Hbl.
  destruct (with_text_parts s pre text) as (Hd & Hs1 & Hi1).
  set (s1 := with_text s (zlength pre) (zlength text)) in *.
  set (org := zlength pre + zlength text) in *.
  set (f1 := Loader.set_data_pos f (org + (zlength x + 2) + 4)).
  (* the data, cut at the places the case looks at *)
  set (a := pre ++ text ++ [123; 123; 61]).
  assert (Ha : zlength a = org + 3).
  { unfold a, org. rewrite !zlength_app. unfold zlength at 3. cbn [List.length]. lia. }
  assert (Hdata1 : Loader.data s = a ++ x ++ [61; 125; 125] ++ tail).
  { rewrite Hdata. unfold a, x. assoc. }
  unfold parse_tag. cbn [Loader.data Loader.set_top Loader.set_stack]. rewrite Hd.
  assert (Esig : byte_at (Loader.data s) (org + 2) = 61).
  { set (a0 := pre ++ text ++ [123; 123]).
    assert (Hdata0 : Loader.data s = a0 ++ 61 :: x ++ [61; 125; 125] ++ tail)
      by (rewrite Hdata; unfold a0, x; assoc).
    rewrite Hdata0.
    replace (org + 2) with (zlength a0 + 0) by (unfold a0, org; clear; zlen).
    rewrite byte_at_app by lia. reflexivity. }
  rewrite Esig. cbn [Z.eqb Pos.eqb].
  unfold tag_delimiters.
  change (Loader.data (Loader.set_top s1 f1)) with (Loader.data s1). rewrite Hd.
  assert (Eeq : byte_at (Loader.data s) (org + 2 + (zlength x + 2) - 1) = 61).
  { rewrite Hdata1.
    replace (a ++ x ++ [61; 125; 125] ++ tail) with ((a ++ x) ++ [61; 125; 125] ++ tail)
      by assoc.
    replace (org + 2 + (zlength x + 2) - 1) with (zlength (a ++ x) + 0)
      by (rewrite zlength_app; lia).
    rewrite byte_at_app by lia. reflexivity. }
  rewrite Eeq. cbn [Z.eqb Pos.eqb negb].
  set (at_ := org + 3 + zlength ws1).
  assert (Etrim : trim (Loader.data s) (org + 2 + 1) (org + 2 + (zlength x + 2) - 1)
                  = (at_, at_ + zlength n)).
  { rewrite Hdata1.
    replace (org + 2 + 1) with (zlength a) by lia.
    replace (org + 2 + (zlength x + 2) - 1) with (zlength a + zlength x) by lia.
    unfold x. rewrite (trim_tag_body a ws1 n ws3 _ Hb). unfold at_. f_equal; lia. }
  unfold trim in Etrim. inversion Etrim as [[Ebeg Eend]]. clear Etrim.
  replace (org + 2 + (zlength x + 2) - 1 - 1) with (org + 2 + (zlength x + 2) - 1 - 1)
    by reflexivity.
  rewrite Ebeg. rewrite Eend. rewrite Ebeg.
  (* the first word *)
  destruct ws2 as [| c ws2']; [congruence |]. inversion F2 as [| ? ? Hc F2']; subst.
  set (b := a ++ ws1).
  assert (Hb0 : zlength b = at_) by (unfold b, at_; rewrite zlength_app; lia).
  assert (Hdata2 : Loader.data s
                   = b ++ d1 ++ c :: (ws2' ++ d2 ++ ws3 ++ [61; 125; 125] ++ tail)).
  { rewrite Hdata1. unfold b, x, n. assoc. }
  assert (Escan : scan_nonspace (Loader.data s) (Z.to_nat (at_ + zlength n - at_)) at_
                  = at_ + zlength d1).
  { rewrite Hdata2, <- Hb0. apply scan_nonspace_word; try assumption.
    rewrite Hb0. unfold zlength in *. lia. }
  rewrite Escan.
  replace (at_ + zlength d1 =? at_ + zlength n) with false
    by (symmetry; apply Z.eqb_neq; lia).
  replace (at_ + zlength d1 =? at_) with false by (symmetry; apply Z.eqb_neq; lia).
  cbn [orb].
  replace (at_ + zlength d1 - at_) with (zlength d1) by lia.
  destruct (Z.leb_spec MUSTACHE_DELIMITER_LENGTH_LIMIT (zlength d1)); [lia |].
  assert (Es1 : slice (Loader.data s) at_ (zlength d1) = d1).
  { rewrite Hdata2, <- Hb0. apply slice_app. }
  rewrite Es1.
  (* the second word *)
  assert (Efwd : skip_ws_fwd (Loader.data s) (at_ + zlength d1 + 1)
                 = at_ + zlength d1 + zlength (c :: ws2')).
  { unfold skip_ws_fwd. rewrite Hdata2.
    replace (b ++ d1 ++ c :: ws2' ++ d2 ++ ws3 ++ [61; 125; 125] ++ tail)
      with ((b ++ d1 ++ [c]) ++ ws2' ++ d2 ++ ws3 ++ [61; 125; 125] ++ tail)
      by assoc.
    replace (at_ + zlength d1 + 1) with (zlength (b ++ d1 ++ [c]) + 0)
      by (rewrite !zlength_app, Hb0; unfold zlength at 2; cbn [List.length]; lia).
    rewrite skipn_zlength_app by lia. cbn [Z.to_nat skipn].
    destruct d2 as [| c2 d2']; [congruence |]. cbn [hd] in Hh2. cbn [app].
    rewrite skip_ws_fwd_from_spaces by assumption.
    rewrite !zlength_app, !zlength_cons, Hb0. change (zlength (@nil Z)) with 0. lia. }
  rewrite Efwd.
  replace (at_ + zlength d1 + zlength (c :: ws2') =? at_ + zlength n) with false
    by (symmetry; apply Z.eqb_neq; lia).
  replace (at_ + zlength n - (at_ + zlength d1 + zlength (c :: ws2')))
    with (zlength d2) by lia.
  destruct (Z.leb_spec MUSTACHE_DELIMITER_LENGTH_LIMIT (zlength d2)); [lia |].
  assert (Es2 : slice (Loader.data s) (at_ + zlength d1 + zlength (c :: ws2')) (zlength d2)
                = d2).
  { rewrite Hdata2.
    replace (b ++ d1 ++ c :: ws2' ++ d2 ++ ws3 ++ [61; 125; 125] ++ tail)
      with ((b ++ d1 ++ c :: ws2') ++ d2 ++ ws3 ++ [61; 125; 125] ++ tail)
      by assoc.
    replace (at_ + zlength d1 + zlength (c :: ws2'))
      with (zlength (b ++ d1 ++ c :: ws2'))
      by (rewrite !zlength_app, Hb0; lia).
    apply slice_app. }
  rewrite Es2.
  unfold behind. fold n. fold x. fold org.
  replace (org + zlength x + 6) with (org + (zlength x + 2) + 4) by lia.
  reflexivity.
Qed.

End MoreTagsInPlace.

(* ------------------------------------------------------------------ *)
(** ** The properties at the sample templates *)

Lemma callback_abort_is_user_error_witness :
  let r := mustache_build (sample_callbacks (-1)) (sample_args sample_sections) 20 [] in
  exists calls h',
    fst r = calls ++ [FormattingError 7 8]
    /\ Forall is_call calls
    /\ snd r = Built (-1) MUSTACHE_ERR_USER_ERROR h'.
Proof.
  intros r.
  destruct (callback_abort_is_user_error bytes (sample_callbacks (-1))
              (sample_args sample_sections) 20 [] (fst r) (snd r))
    as (calls & h' & E1 & E2 & E3).
  - vm_compute. reflexivity.
  - vm_compute. apply Exists_cons_hd. reflexivity.
  - exists calls, (mustache_on_formatting_error (sample_callbacks (-1)) h' 7 8).
    repeat split; assumption.
Defined.

Lemma section_test_callable_flag_witness :
  exists inst,
    nth_error (instructions sample_sections) 1 = Some inst
    /\ (1 = 1 <-> Inst.instruction inst = Inst.MUSTACHE_SECTION_START)
    /\ (Inst.instruction inst = Inst.MUSTACHE_SECTION_START_INV -> 1 = 0).
Proof.
  pose (r := mustache_build (sample_callbacks 2) (sample_args sample_sections) 20 []).
  eapply (section_test_callable_flag bytes (sample_callbacks 2) sample_sections 7 8
            20 [] (fst r) (snd r) 1).
  - vm_compute. reflexivity.
  - vm_compute. left. reflexivity.
Defined.

Lemma mustache_build_deterministic_witness :
  fst (mustache_build_array (sample_callbacks 2) (sample_args sample_sections)
         (sample_memory 0) 20 [])
  = fst (mustache_build_array (sample_callbacks 2) (sample_args sample_sections)
           (sample_memory 3) 30 [])
  /\ snd (mustache_build_array (sample_callbacks 2) (sample_args sample_sections)
            (sample_memory 0) 20 [])
     = snd (mustache_build_array (sample_callbacks 2) (sample_args sample_sections)
              (sample_memory 3) 30 []).
Proof.
  apply (mustache_build_deterministic bytes (sample_callbacks 2)
           (sample_args sample_sections) (sample_memory 0) (sample_memory 3) 20 30 []).
  - reflexivity.
  - reflexivity.
  - vm_compute. reflexivity.
  - vm_compute. reflexivity.
  - vm_compute. discriminate.
  - vm_compute. discriminate.
Defined.

Lemma inverted_section_once_or_never_witness :
  exists ev s' h',
    build_turns (sample_callbacks 0) 3 sample_inverted_state [] = Some (ev, s', h')
    /\ Builder.pos s' = 4.
Proof.
  destruct (inverted_section_once_or_never (sample_callbacks 0) sample_inverted_state []
              {| Inst.instruction := Inst.MUSTACHE_SECTION_START_INV;
                 Inst.data := {| Inst.end_ := 3; Inst.len := 4; Inst.name_pos := 17;
                                 Inst.name_len := 7; Inst.offset := 9 |} |}
              {| Builder.sec := Builder.mk_section 7 8; Builder.start := 0;
                 Builder.end_ := 4; Builder.index := 1; Builder.count := 1;
                 Builder.frame := 1 |}
              [root_frame sample_inverted 7 8]
              0 (Builder.mk_section 7 8) [])
    as [_ Honce].
  - vm_compute. reflexivity.
  - reflexivity.
  - vm_compute. discriminate.
  - reflexivity.
  - vm_compute. reflexivity.
  - vm_compute. reflexivity.
  - destruct (Honce eq_refl 0 (Builder.mk_section 0 8) []) as [_ Hrun].
    + vm_compute. reflexivity.
    + discriminate.
    + eexists. eexists. eexists. split.
      * eapply (Hrun 1%nat); vm_compute; reflexivity.
      * vm_compute. reflexivity.
Defined.

Lemma triple_mustache_is_ampersand_witness :
  let n := bytes_of_string "xy" in
  let x := [32] ++ n ++ [32] in
  exists m1 m2 inst,
    mustache_load no_files (root_data (triple_mustache x)) 2 = Loaded m1 MUSTACHE_OK
    /\ mustache_load no_files (root_data (ampersand x)) 2 = Loaded m2 MUSTACHE_OK
    /\ instructions m1 = one_instruction inst
    /\ instructions m2 = one_instruction inst
    /\ Inst.instruction inst = Inst.MUSTACHE_WRITE_ARG_UNESCAPED
    /\ name_of m1 inst = n /\ name_of m2 inst = n
    /\ forall (H : Type) (cb : callbacks H) (u1 u2 : Z) (fuel : nat) (h : H),
         mustache_build cb {| mustache := Some m1; arg_udata1 := u1; arg_udata2 := u2 |}
                        fuel h
         = mustache_build cb {| mustache := Some m2; arg_udata1 := u1; arg_udata2 := u2 |}
                          fuel h
         /\ forall p v name' len e r',
              In (Call p v (OnArg name' len e) r')
                 (fst (mustache_build cb {| mustache := Some m1; arg_udata1 := u1;
                                            arg_udata2 := u2 |} fuel h)) ->
              name' = n /\ len = zlength n /\ e = 0.
Proof.
  apply (triple_mustache_is_ampersand no_files (bytes_of_string "r")
           [32] (bytes_of_string "xy") [32] 0).
  - repeat split; try (repeat constructor; discriminate); try discriminate;
      reflexivity.
  - vm_compute. reflexivity.
  - vm_compute. reflexivity.
Defined.

(* ------------------------------------------------------------------ *)
(** ** The scenarios of the specification *)

Example scenario_variable :
  render no_files 0 "Hello, {{name}}!" 20
  = Some (MUSTACHE_OK, Some (0, MUSTACHE_OK, bytes_of_string "Hello, <name>!")).
Proof. vm_compute. reflexivity. Qed.

Example scenario_section_three_times :
  render no_files 3 "{{#items}}[{{.}}]{{/items}}" 40
  = Some (MUSTACHE_OK, Some (0, MUSTACHE_OK, bytes_of_string "[<.>][<.>][<.>]")).
Proof. vm_compute. reflexivity. Qed.

Example scenario_inverted_shown :
  render no_files 0 "{{^missing}}none{{/missing}}" 20
  = Some (MUSTACHE_OK, Some (0, MUSTACHE_OK, bytes_of_string "none")).
Proof. vm_compute. reflexivity. Qed.

Example scenario_inverted_hidden :
  render no_files 1 "{{^missing}}none{{/missing}}" 20
  = Some (MUSTACHE_OK, Some (0, MUSTACHE_OK, [])).
Proof. vm_compute. reflexivity. Qed.

Example scenario_delimiters :
  render no_files 0 "A{{=<% %>=}}<%x%>B" 20
  = Some (MUSTACHE_OK, Some (0, MUSTACHE_OK, bytes_of_string "A<x>B")).
Proof. vm_compute. reflexivity. Qed.

Example scenario_partial :
  render files_p 0 "{{>p}}" 20
  = Some (MUSTACHE_OK, Some (0, MUSTACHE_OK, bytes_of_string "hi")).
Proof. vm_compute. reflexivity. Qed.

Example scenario_closure_mismatch :
  render no_files 0 "{{#a}}{{/b}}" 20 = Some (MUSTACHE_ERR_CLOSURE_MISMATCH, None).
Proof. vm_compute. reflexivity. Qed.

Example scenario_unescaped :
  render no_files 0 "{{{x}}}{{&y}}{{z}}" 20
  = Some (MUSTACHE_OK, Some (0, MUSTACHE_OK, bytes_of_string "[x][y]<z>")).
Proof. vm_compute. reflexivity. Qed.

Example scenario_abort :
  render no_files (-1) "a{{#x}}b{{/x}}" 20
  = Some (MUSTACHE_OK, Some (-1, MUSTACHE_ERR_USER_ERROR, bytes_of_string "a")).
Proof. vm_compute. reflexivity. Qed.

(* ------------------------------------------------------------------ *)
(** ** The further properties at sample inputs *)

Lemma stopping_call_is_last_witness :
  let r := mustache_build sample_stopping (sample_args sample_sections) 20 [] in
  exists calls c h',
    fst r = calls ++ [c; FormattingError 7 8]
    /\ stops c
    /\ Forall is_call calls
    /\ Forall (fun x => ~ stops x) calls
    /\ snd r = Built (-1) MUSTACHE_ERR_USER_ERROR h'.
Proof.
  intros r.
  apply (stopping_call_is_last bytes sample_stopping (sample_args sample_sections)
           20 [] (fst r) (snd r)).
  - vm_compute. reflexivity.
  - vm_compute. do 2 apply Exists_cons_tl. apply Exists_cons_hd. discriminate.
Defined.

Lemma build_result_and_trace_witness :
  let r := mustache_build (sample_callbacks 1) (sample_args sample_sections) 20 [] in
  (0 = 0 /\ MUSTACHE_OK = MUSTACHE_OK /\ Forall is_call (fst r)
   /\ Forall (fun x => ~ stops x) (fst r))
  \/ (0 = -1
      /\ MUSTACHE_OK <> MUSTACHE_OK
      /\ exists calls,
           fst r = calls ++ [FormattingError 7 8]
           /\ Forall is_call calls
           /\ (MUSTACHE_OK <> MUSTACHE_ERR_USER_ERROR
               -> Forall (fun x => ~ stops x) calls)).
Proof.
  intros r.
  apply (build_result_and_trace bytes (sample_callbacks 1) (sample_args sample_sections)
           20 [] (fst r) 0 MUSTACHE_OK (bytes_of_string "x")).
  vm_compute. reflexivity.
Defined.

Lemma section_callbacks_see_parent_udata_witness :
  let v := first_view (fst (mustache_build (sample_callbacks 2)
                              (sample_args sample_sections) 20 [])) in
  exists x rest,
    view_sections v = x :: x :: rest
    /\ mustache_section_parent (view_sections v) = mustache_section_parent (x :: rest).
Proof.
  intros v.
  apply (section_callbacks_see_parent_udata bytes (sample_callbacks 2)
           (sample_args sample_sections) 20 [] 1 v
           (OnSectionTest (bytes_of_string "a") 1 1) 2).
  - vm_compute. left. reflexivity.
  - left. eexists _, _, _. reflexivity.
Defined.

Lemma arg_escape_flag_witness :
  let m := loaded (mustache_load no_files (root_data (bytes_of_string "{{&a}}")) 10) in
  exists inst,
    nth_error (instructions m) 1 = Some inst
    /\ bytes_of_string "a" = name_of m inst
    /\ 1 = Inst.name_len (Inst.data inst)
    /\ (0 = 1 <-> Inst.instruction inst = Inst.MUSTACHE_WRITE_ARG)
    /\ (0 = 0 <-> Inst.instruction inst = Inst.MUSTACHE_WRITE_ARG_UNESCAPED).
Proof.
  intros m.
  pose (r := mustache_build (sample_callbacks 2)
               {| mustache := Some m; arg_udata1 := 7; arg_udata2 := 8 |} 20 []).
  eapply (arg_escape_flag bytes (sample_callbacks 2) m 7 8 20 [] (fst r) (snd r) 1).
  - vm_compute. reflexivity.
  - vm_compute. left. reflexivity.
Defined.


Lemma data_segment_roundtrip_exactly_when_small_witness :
  let back := mustache__data_segment_read (mustache__data_segment_write header_2048) in
  (inst_start back = inst_start header_2048 <-> inst_start header_2048 < 2048)
  /\ (next back = next header_2048 <-> next header_2048 < 2048)
  /\ (filename_len back = filename_len header_2048 <-> filename_len header_2048 < 512)
  /\ (path_len back = path_len header_2048 <-> path_len header_2048 < 512).
Proof.
  apply (data_segment_roundtrip_exactly_when_small header_2048);
    vm_compute; split; congruence.
Defined.

Lemma data_segment_name_roundtrip_witness :
  let written := mustache__data_segment_write header_2048 in
  zlength written = mustache__data_segment_length 1
  /\ firstn 1 (filename (mustache__data_segment_read (written ++ [120])))
     = firstn 1 (filename header_2048)
  /\ byte_at (written ++ [120]) (12 + 1) = 0.
Proof.
  apply (data_segment_name_roundtrip header_2048 [120]).
  vm_compute. split; congruence.
Defined.

Lemma file_is_loaded_stuck_witness :
  exists off,
    0 <= off < zlength (Loader.data sample_zero_header)
    /\ ((Hangs = Hangs
         /\ next (mustache__data_segment_read
                    (skipn (Z.to_nat off) (Loader.data sample_zero_header))) = 0)
        \/ (Hangs = ReadsOutOfBounds
            /\ zlength (Loader.data sample_zero_header) - 11 < off)).
Proof.
  apply (file_is_loaded_stuck sample_zero_header (bytes_of_string "p") 1 Hangs).
  vm_compute. reflexivity.
Defined.

Lemma file_is_loaded_found_witness :
  exists off,
    let seg := mustache__data_segment_read
                 (skipn (Z.to_nat off) (Loader.data (sample_root "hello"))) in
    0 <= off < zlength (Loader.data (sample_root "hello"))
    /\ filename_len seg = 1
    /\ firstn (Z.to_nat 1) (filename seg) = firstn (Z.to_nat 1) (bytes_of_string "r")
    /\ inst_start seg = 0.
Proof.
  apply (file_is_loaded_found (sample_root "hello") (bytes_of_string "r") 1 0).
  - vm_compute. reflexivity.
  - vm_compute. discriminate.
Defined.

Lemma root_template_is_found_witness :
  mustache__file_is_loaded
    (snd (mustache__load_data loader_start (bytes_of_string "r")
            (zlength (bytes_of_string "r")) (bytes_of_string "hello")))
    (bytes_of_string "r") (zlength (bytes_of_string "r"))
  = inl 0.
Proof.
  apply (root_template_is_found (bytes_of_string "r") (bytes_of_string "hello"));
    vm_compute; reflexivity.
Defined.

Lemma load_file_without_files_witness :
  exists s',
    mustache__load_file no_files (sample_root "hello") (bytes_of_string "p") 1
    = Return (-1) s'
    /\ Loader.data s' = Loader.data (sample_root "hello")
    /\ Loader.stack s' = Loader.stack (sample_root "hello")
    /\ Loader.i s' = Loader.i (sample_root "hello")
    /\ Loader.err s' = MUSTACHE_ERR_FILE_NOT_FOUND.
Proof.
  destruct (load_file_without_files no_files (sample_root "hello") (bytes_of_string "p") 1)
    as (s' & E & D & S & I).
  - reflexivity.
  - lia.
  - vm_compute. reflexivity.
  - exists s'. vm_compute in I. vm_compute in E. tauto.
Defined.

Lemma load_checks_name_length_witness :
  mustache_load files_p {| LoadArgs.filename := []; LoadArgs.data := None |} 5
  = LoadFailed MUSTACHE_ERR_FILE_NAME_TOO_SHORT.
Proof.
  apply (load_checks_name_length files_p [] 5). left. reflexivity.
Defined.

Lemma loader_only_adds_witness :
  (forall k inst,
     nth_error (Loader.i (sample_root "{{#a}}x{{/a}}")) k = Some inst ->
     exists inst',
       nth_error (Loader.i (sample_after 2 "{{#a}}x{{/a}}")) k = Some inst'
       /\ same_instruction inst inst')
  /\ exists more,
       Loader.data (sample_after 2 "{{#a}}x{{/a}}")
       = Loader.data (sample_root "{{#a}}x{{/a}}") ++ more.
Proof.
  apply (loader_only_adds no_files 2 (sample_root "{{#a}}x{{/a}}")).
  vm_compute. reflexivity.
Defined.

Lemma loaded_template_keeps_its_text_witness :
  let m := loaded (mustache_load files_p (root_data (bytes_of_string "a{{>p}}")) 10) in
  (exists more,
     data_segment m
     = root_header (bytes_of_string "r") 7 ++ bytes_of_string "a{{>p}}" ++ more)
  /\ slice (data_segment m) (13 + 1) 7 = bytes_of_string "a{{>p}}"
  /\ exists i0 rest,
       instructions m = i0 :: rest
       /\ Inst.instruction i0 = Inst.MUSTACHE_SECTION_START
       /\ Inst.name_pos (Inst.data i0) = 0.
Proof.
  intros m.
  apply (loaded_template_keeps_its_text files_p (bytes_of_string "r")
           (bytes_of_string "a{{>p}}") 10 m MUSTACHE_OK).
  - vm_compute. reflexivity.
  - vm_compute. reflexivity.
  - vm_compute. reflexivity.
Defined.

Lemma loader_stays_in_bounds_witness :
  let s' := sample_after 1 "{{=<% %>=}}<%#a%>" in
  zlength (Loader.stack s') < MUSTACHE_NESTING_LIMIT
  /\ Forall (fun f =>
               zlength (Loader.del_start f) < MUSTACHE_DELIMITER_LENGTH_LIMIT
               /\ zlength (Loader.del_end f) < MUSTACHE_DELIMITER_LENGTH_LIMIT
               /\ 0 <= Loader.open_sections f < MUSTACHE_NESTING_LIMIT)
            (Loader.stack s').
Proof.
  intros s'.
  apply (loader_stays_in_bounds no_files 1 (bytes_of_string "r")
           (bytes_of_string "{{=<% %>=}}<%#a%>") (sample_root "{{=<% %>=}}<%#a%>") s').
  - vm_compute. reflexivity.
  - vm_compute. reflexivity.
Defined.

Lemma section_end_links_its_start_witness :
  let count := List.length (Loader.i sample_open) in
  let name := trim (Loader.data sample_open) (23 + 1) 25 in
  exists pos op closed,
    nth_error (Loader.i sample_open) pos = Some op
    /\ (Inst.instruction op = Inst.MUSTACHE_SECTION_START
        \/ Inst.instruction op = Inst.MUSTACHE_SECTION_START_INV)
    /\ Inst.name_len (Inst.data op) = snd name - fst name
    /\ slice (Loader.data sample_open) (fst name) (Inst.name_len (Inst.data op))
       = slice (Loader.data sample_open) (Inst.name_pos (Inst.data op))
               (Inst.name_len (Inst.data op))
    /\ closed = Inst.set_len (Inst.set_end (Inst.data op) (Z.of_nat count))
                  (u32 (21 - (Inst.name_pos (Inst.data op)
                              + Inst.offset (Inst.data op))))
    /\ (pos < count)%nat
    /\ List.length (Loader.i sample_closed) = S count
    /\ nth_error (Loader.i sample_closed) pos
       = Some {| Inst.instruction := Inst.instruction op; Inst.data := closed |}
    /\ nth_error (Loader.i sample_closed) count
       = Some {| Inst.instruction := Inst.MUSTACHE_SECTION_END; Inst.data := closed |}.
Proof.
  apply (section_end_links_its_start sample_open sample_open_frame 21 23 25 sample_closed).
  - vm_compute. reflexivity.
  - vm_compute. reflexivity.
Defined.

Lemma template_without_tags_witness :
  let template := bytes_of_string "hello" in
  let inst := write_text (13 + 1) (u16 5) in
  let m := {| instructions := one_instruction inst;
              data_segment := root_header (bytes_of_string "r") 5 ++ template |} in
  mustache_load no_files (root_data template) 2 = Loaded m MUSTACHE_OK
  /\ name_of m inst = firstn (Z.to_nat (u16 5)) template
  /\ (5 < 65536 -> name_of m inst = template)
  /\ forall (H : Type) (cb : callbacks H) (u1 u2 : Z) (fuel : nat) (h : H)
            p v data len r,
       In (Call p v (OnText data len) r)
          (fst (mustache_build cb {| mustache := Some m; arg_udata1 := u1;
                                     arg_udata2 := u2 |} fuel h)) ->
       data = firstn (Z.to_nat (u16 5)) template /\ len = u16 5.
Proof.
  apply (template_without_tags no_files (bytes_of_string "r") (bytes_of_string "hello") 0).
  - vm_compute. reflexivity.
  - vm_compute. split; reflexivity.
  - vm_compute. reflexivity.
Defined.

Lemma comment_compiles_to_nothing_witness :
  parse_step no_files (sample_root "{{!c}}x") (sample_root_frame "{{!c}}x")
  = Return 0 (Loader.set_top (sample_root "{{!c}}x")
                (Loader.set_data_pos (sample_root_frame "{{!c}}x") 20)).
Proof.
  apply (comment_compiles_to_nothing no_files (sample_root "{{!c}}x")
           (sample_root_frame "{{!c}}x") (sample_header "{{!c}}x") []
           (bytes_of_string "x") eq_refl eq_refl eq_refl (Forall_nil _)
           eq_refl eq_refl (bytes_of_string "c") eq_refl).
  - repeat constructor; discriminate.
  - vm_compute. reflexivity.
Defined.

Lemma unclosed_tag_is_a_mismatch_witness :
  exists s',
    parse_step no_files (sample_root "a{{b") (sample_root_frame "a{{b") = Return (-1) s'
    /\ Loader.err s' = MUSTACHE_ERR_CLOSURE_MISMATCH.
Proof.
  apply (unclosed_tag_is_a_mismatch no_files (sample_root "a{{b")
           (sample_root_frame "a{{b") (sample_header "a{{b") (bytes_of_string "a")
           eq_refl eq_refl eq_refl) with (open_tag := bytes_of_string "b").
  - repeat constructor; discriminate.
  - reflexivity.
  - reflexivity.
  - vm_compute. reflexivity.
Defined.

Lemma closing_tag_without_section_witness :
  exists s',
    parse_step no_files (sample_root "{{/a}}") (sample_root_frame "{{/a}}")
    = Return (-1) s'
    /\ Loader.err s' = MUSTACHE_ERR_CLOSURE_MISMATCH.
Proof.
  apply (closing_tag_without_section no_files (sample_root "{{/a}}")
           (sample_root_frame "{{/a}}") (sample_header "{{/a}}") [] []
           eq_refl eq_refl eq_refl (Forall_nil _) eq_refl eq_refl
           (bytes_of_string "a") eq_refl).
  - repeat constructor; discriminate.
  - vm_compute. reflexivity.
  - reflexivity.
Defined.

Lemma section_text_is_its_body_witness :
  let template := section_template (bytes_of_string " a ") (bytes_of_string "body")
                                   (bytes_of_string "a") in
  exists m op,
    mustache_load no_files (root_data template) 3 = Loaded m MUSTACHE_OK
    /\ intruction_count m = 5
    /\ nth_error (instructions m) 1 = Some op
    /\ Inst.instruction op = Inst.MUSTACHE_SECTION_START
    /\ Inst.end_ (Inst.data op) = 3
    /\ nth_error (instructions m) 3
       = Some {| Inst.instruction := Inst.MUSTACHE_SECTION_END; Inst.data := Inst.data op |}
    /\ name_of m op = bytes_of_string "a"
    /\ text_at m 1 = TextReturn (Some (bytes_of_string "body")) 4
    /\ forall (H : Type) (cb : callbacks H) (u1 u2 : Z) (fuel : nat) (h : H) v c res,
         In (Call 1 v c res)
            (fst (mustache_build cb {| mustache := Some m; arg_udata1 := u1;
                                       arg_udata2 := u2 |} fuel h)) ->
         view_text v = TextReturn (Some (bytes_of_string "body")) 4.
Proof.
  apply (section_text_is_its_body no_files (bytes_of_string "r")
           [32] (bytes_of_string "a") [32] [] [] (bytes_of_string "body") 0).
  - repeat split; try (repeat constructor; discriminate); try discriminate; reflexivity.
  - repeat split; try (repeat constructor; discriminate); try discriminate; reflexivity.
  - repeat constructor; discriminate.
  - discriminate.
  - vm_compute. reflexivity.
  - vm_compute. reflexivity.
Defined.

Lemma skip_ws_fwd_stops_witness :
  let data := bytes_of_string "a  b" in
  let q := skip_ws_fwd data 1 in
  1 <= q
  /\ isspace (byte_at data q) = false
  /\ forall k, 1 <= k < q -> isspace (byte_at data k) = true.
Proof.
  apply (skip_ws_fwd_stops (bytes_of_string "a  b") 1). lia.
Defined.

Lemma variable_tag_in_place_witness :
  exists s',
    parse_step no_files (sample_root "{{ a }}x") (sample_root_frame "{{ a }}x")
    = Return 0 s'
    /\ Loader.i s'
       = Loader.i (sample_root "{{ a }}x")
         ++ [ {| Inst.instruction := Inst.MUSTACHE_WRITE_ARG;
                 Inst.data := {| Inst.end_ := 0; Inst.len := 0; Inst.name_pos := 17;
                                 Inst.name_len := 1; Inst.offset := 0 |} |} ]
    /\ slice (Loader.data s') 17 1 = bytes_of_string "a"
    /\ Loader.data s' = Loader.data (sample_root "{{ a }}x")
    /\ Loader.stack s' = [Loader.set_data_pos (sample_root_frame "{{ a }}x") 21].
Proof.
  apply (variable_tag_in_place no_files (sample_root "{{ a }}x")
           (sample_root_frame "{{ a }}x") [] (sample_header "{{ a }}x") []
           (bytes_of_string "x") eq_refl eq_refl eq_refl eq_refl (Forall_nil _)
           eq_refl eq_refl [] [32] (bytes_of_string "a") [32]).
  - left. reflexivity.
  - reflexivity.
  - repeat split; try (repeat constructor; discriminate); try discriminate; reflexivity.
  - intros _ [H | [H | [H | [H | [H | [H | [H | [H | [H | [H | []]]]]]]]]]]; discriminate H.
  - vm_compute. reflexivity.
  - vm_compute. reflexivity.
Defined.

Lemma delimiter_tag_in_place_witness :
  parse_step no_files (sample_root "{{=<% %>=}}x") (sample_root_frame "{{=<% %>=}}x")
  = Return 0 (Loader.set_top (sample_root "{{=<% %>=}}x")
                (Loader.set_delimiters
                   (Loader.set_data_pos (sample_root_frame "{{=<% %>=}}x") 25)
                   (bytes_of_string "<%") (bytes_of_string "%>"))).
Proof.
  apply (delimiter_tag_in_place no_files (sample_root "{{=<% %>=}}x")
           (sample_root_frame "{{=<% %>=}}x") (sample_header "{{=<% %>=}}x") []
           (bytes_of_string "x") eq_refl eq_refl eq_refl (Forall_nil _)
           eq_refl eq_refl [] (bytes_of_string "<%") [32] (bytes_of_string "%>") []).
  - reflexivity.
  - constructor.
  - repeat constructor.
  - constructor.
  - discriminate.
  - discriminate.
  - discriminate.
  - repeat constructor.
  - reflexivity.
  - reflexivity.
  - repeat constructor; discriminate.
  - repeat constructor; discriminate.
  - reflexivity.
  - reflexivity.
  - vm_compute. reflexivity.
Defined.

Lemma load_failure_errors_witness :
  mustache_load no_files (root_data (bytes_of_string "{{/a}}")) 3
  = LoadFailed MUSTACHE_ERR_CLOSURE_MISMATCH
  /\ load_error MUSTACHE_ERR_CLOSURE_MISMATCH
  /\ MUSTACHE_ERR_CLOSURE_MISMATCH <> MUSTACHE_OK
  /\ MUSTACHE_ERR_CLOSURE_MISMATCH <> MUSTACHE_ERR_EMPTY_TEMPLATE
  /\ MUSTACHE_ERR_CLOSURE_MISMATCH <> MUSTACHE_ERR_USER_ERROR
  /\ MUSTACHE_ERR_CLOSURE_MISMATCH <> MUSTACHE_ERR_NAME_TOO_LONG.
Proof.
  split; [vm_compute; reflexivity |].
  apply (load_failure_errors no_files (root_data (bytes_of_string "{{/a}}")) 3).
  vm_compute. reflexivity.
Defined.
